(** * block_blue: the badge-detection and hide/restore pipeline of
      [src/content/content.js], embedded and verified.

    The content script is a set of JavaScript functions over a handful of
    module-level variables ([settings], [whitelistSet], [followedUsersSet],
    [hiddenCount], the timers and the observer) and over the page's DOM.
    The embedding keeps that shape: the module variables and the slice of the
    DOM the script reads and writes form one [State] record, functions that
    read or write them are computations in a small state monad, and the
    functions that only inspect the node they are handed are plain functions.

    Strings are Rocq [string]s (the UTF-8 bytes of the JavaScript string);
    [String.prototype.toLowerCase], [String.prototype.trim] and
    [chrome.i18n.getMessage] are supplied by the host and are taken as
    section variables. *)

From Stdlib Require Import ZArith String Ascii List Lia Bool.
From stdpp Require Import base list gmap sets strings.

Local Open Scope string_scope.
Local Open Scope Z_scope.

#[local] Set Warnings "-register-all".

(** ** JavaScript string helpers *)

(** A string in a boolean position: only the empty string is falsy. *)
Definition truthy (s : string) : bool := negb (s =? "")%string.

(** [x || ''] for the result of [getAttribute], [textContent] and the like. *)
Definition orEmpty (x : option string) : string :=
  match x with
  | Some s => s
  | None => ""
  end.

(** [s.includes(kw)]: [kw] occurs in [s] as a contiguous substring. *)
Fixpoint includes (kw s : string) : bool :=
  String.prefix kw s ||
  match s with
  | EmptyString => false
  | String _ s' => includes kw s'
  end.

(** [s.endsWith(suf)], used for the selector [[data-testid$="-unfollow"]]. *)
Definition endsWith (suf s : string) : bool :=
  (String.length suf <=? String.length s)%nat &&
  (substring (String.length s - String.length suf) (String.length suf) s =? suf)%string.

(** The character class [[a-zA-Z0-9_]]. *)
Definition isHandleChar (a : ascii) : bool :=
  let n := nat_of_ascii a in
  ((97 <=? n) && (n <=? 122) || (65 <=? n) && (n <=? 90) ||
   (48 <=? n) && (n <=? 57) || (n =? 95))%nat.

Fixpoint allChars (p : ascii -> bool) (s : string) : bool :=
  match s with
  | EmptyString => true
  | String a s' => p a && allChars p s'
  end.

(** [s.match(/^\/([a-zA-Z0-9_]{1,15})$/)]: the first capture group. *)
Definition matchProfilePath (s : string) : option string :=
  match s with
  | String "/" h =>
      if (1 <=? String.length h)%nat && (String.length h <=? 15)%nat &&
         allChars isHandleChar h
      then Some h else None
  | _ => None
  end.

(** Line terminators, which [.] in a regular expression does not match:
    LF, CR, U+2028 and U+2029 (the last two as their UTF-8 bytes). *)
Definition hasLineTerminator (s : string) : bool :=
  includes (String (ascii_of_nat 10) "") s ||
  includes (String (ascii_of_nat 13) "") s ||
  includes (String (ascii_of_nat 226) (String (ascii_of_nat 128) (String (ascii_of_nat 168) ""))) s ||
  includes (String (ascii_of_nat 226) (String (ascii_of_nat 128) (String (ascii_of_nat 169) ""))) s.

(** [s.match(/^(.+)-unfollow$/)]: the first capture group. *)
Definition matchUnfollow (s : string) : option string :=
  if endsWith "-unfollow" s then
    let p := substring 0 (String.length s - 9) s in
    if truthy p && negb (hasLineTerminator p) then Some p else None
  else None.

(** [/^\/(home)?$/.test(s)] *)
Definition isHomePath (s : string) : bool :=
  (s =? "/")%string || (s =? "/home")%string.

(** ASCII lower-casing: what [toLowerCase] does on the strings the handle
    pattern admits.  Used to run the definitions on concrete pages. *)
Definition asciiLower (a : ascii) : ascii :=
  let n := nat_of_ascii a in
  if ((65 <=? n) && (n <=? 90))%nat then ascii_of_nat (n + 32) else a.

Fixpoint asciiToLowerCase (s : string) : string :=
  match s with
  | EmptyString => EmptyString
  | String a s' => String (asciiLower a) (asciiToLowerCase s')
  end.

(** ** Constants *)

Definition VERIFIED_KEYWORDS : list string :=
  [ "verified"; "認証済み"; "已验证"; "已認證"; "verifiziert";
    "vérifié"; "verificado"; "verificato"; "인증" ].

Definition FOLLOWING_KEYWORDS : list string :=
  [ "following"; "フォロー中"; "正在关注"; "正在關注"; "siguiendo";
    "suivi"; "folge ich"; "seguindo"; "segui già"; "팔로잉" ].

Inductive BadgeType := BLUE | GOLD | GRAY.

Definition BadgeType_eqb (a b : BadgeType) : bool :=
  match a, b with
  | BLUE, BLUE | GOLD, GOLD | GRAY, GRAY => true
  | _, _ => false
  end.

(** The string a [BADGE_TYPES] member stands for. *)
Definition badgeName (t : BadgeType) : string :=
  match t with
  | BLUE => "blue"
  | GOLD => "gold"
  | GRAY => "gray"
  end.

(** ** The DOM inside a container *)

(** A node is a text node or an element.  An element carries its [tagName],
    its attributes, its child nodes, and what line 196 extracts from its
    computed [color]: the three capture groups of
    [/rgb\(\s*(\d+)\s*,\s*(\d+)\s*,\s*(\d+)\s*\)/] read by [parseInt], or
    [None] when the computed colour does not match. *)
Inductive Node :=
| Text (data : string)
| Element (tagName : string) (attributes : list (string * string))
          (color : option (Z * Z * Z)) (childNodes : list Node).

Definition getAttribute (name : string) (n : Node) : option string :=
  match n with
  | Text _ => None
  | Element _ attrs _ _ => snd <$> List.find (fun kv => (fst kv =? name)%string) attrs
  end.

Definition nodeColor (n : Node) : option (Z * Z * Z) :=
  match n with
  | Text _ => None
  | Element _ _ c _ => c
  end.

(** The elements of the subtree rooted at [n], [n] itself first, in document
    order, each with its chain of ancestors (nearest first) below [anc]. *)
Fixpoint walk (anc : list Node) (n : Node) : list (Node * list Node) :=
  match n with
  | Text _ => []
  | Element _ _ _ kids =>
      (n, anc) ::
      (fix walks (l : list Node) : list (Node * list Node) :=
         match l with
         | [] => []
         | k :: l' => (walk (n :: anc) k ++ walks l')%list
         end) kids
  end.

(** The element descendants of a parent whose child nodes are [kids]. *)
Definition descendantsOf (anc : list Node) (kids : list Node) : list (Node * list Node) :=
  List.flat_map (walk anc) kids.

(** ** Containers, the page and the script's variables *)

(** The two members of [SELECTORS]. *)
Inductive TestId := Tweet | UserCell.

(** A container is an element matched by [SELECTORS] (a tweet or a user
    cell).  Containers are taken to be disjoint: no container lies inside
    another, so each is addressed by its position among the document's
    containers, in document order.

    - [testid]: which of the two selectors it matches, [data-testid="tweet"]
      or [data-testid="UserCell"].
    - [processedAttr], [replacedAttr]: whether [PROCESSED_ATTR] and
      [REPLACED_ATTR] are present; the script writes them only as ['true']
      and only ever removes them.
    - [withinStatusLink]: whether the container element itself or one of
      its ancestors matches [a[href*="/status/"]] (what [closest] finds once
      it has climbed out of the container).
    - [stylePadding]: [element.style.padding].
    - [_blockBlueOriginal], [_blockBlueOriginalPadding]: the two properties
      the script hangs on the element; [None] is an absent property.  The
      fragment is given by its child nodes. *)
Record Container := {
  testid : TestId;
  withinStatusLink : bool;
  processedAttr : bool;
  replacedAttr : bool;
  containerNodes : list Node;
  stylePadding : string;
  _blockBlueOriginal : option (list Node);
  _blockBlueOriginalPadding : option string
}.

(** An element matched by the button selector of lines 316-321:
    its [textContent], its [aria-label], and the child nodes of what
    [btn.closest(...)] of line 332 finds ([None] when it finds nothing). *)
Record Button := {
  btnTextContent : string;
  btnAriaLabel : option string;
  btnClosest : option (list Node)
}.

(** What the script reads of the page outside the containers. *)
Record Page := {
  pathname : string;            (* location.pathname *)
  selectedTabs : list string;   (* textContent of [role="tab"][aria-selected="true"] *)
  testIds : list string;        (* data-testid of every element that has one *)
  buttons : list Button
}.

Record Settings := {
  enabled : bool;
  hideBlue : bool;
  hideGold : bool;
  hideGray : bool;
  whitelist : list string
}.

(** A pending [setTimeout]: what it will run and after how many
    milliseconds.  Firing is the host's business and is not modelled. *)
Inductive Job := SaveHiddenCount | SaveFollowedUsers.

Record Timer := {
  timerId : positive;
  timerDelay : Z;
  timerJob : Job
}.

Record State := {
  settings : Settings;
  whitelistSet : gset string;
  followedUsersSet : gset string;
  followedSaveTimer : option positive;
  hiddenCount : Z;
  observer : bool;              (* a connected MutationObserver, or null *)
  saveTimer : option positive;
  _onFollowingTab : option bool;
  contextValid : bool;          (* isContextValid() *)
  timers : list Timer;
  nextTimerId : positive;
  page : Page;
  containers : list Container
}.

Definition set_settings (v : Settings) (st : State) : State :=
  {| settings := v; whitelistSet := whitelistSet st;
     followedUsersSet := followedUsersSet st;
     followedSaveTimer := followedSaveTimer st; hiddenCount := hiddenCount st;
     observer := observer st; saveTimer := saveTimer st;
     _onFollowingTab := _onFollowingTab st; contextValid := contextValid st;
     timers := timers st; nextTimerId := nextTimerId st; page := page st;
     containers := containers st |}.

Definition set_whitelistSet (v : gset string) (st : State) : State :=
  {| settings := settings st; whitelistSet := v;
     followedUsersSet := followedUsersSet st;
     followedSaveTimer := followedSaveTimer st; hiddenCount := hiddenCount st;
     observer := observer st; saveTimer := saveTimer st;
     _onFollowingTab := _onFollowingTab st; contextValid := contextValid st;
     timers := timers st; nextTimerId := nextTimerId st; page := page st;
     containers := containers st |}.

Definition set_followedUsersSet (v : gset string) (st : State) : State :=
  {| settings := settings st; whitelistSet := whitelistSet st;
     followedUsersSet := v;
     followedSaveTimer := followedSaveTimer st; hiddenCount := hiddenCount st;
     observer := observer st; saveTimer := saveTimer st;
     _onFollowingTab := _onFollowingTab st; contextValid := contextValid st;
     timers := timers st; nextTimerId := nextTimerId st; page := page st;
     containers := containers st |}.

Definition set_followedSaveTimer (v : option positive) (st : State) : State :=
  {| settings := settings st; whitelistSet := whitelistSet st;
     followedUsersSet := followedUsersSet st;
     followedSaveTimer := v; hiddenCount := hiddenCount st;
     observer := observer st; saveTimer := saveTimer st;
     _onFollowingTab := _onFollowingTab st; contextValid := contextValid st;
     timers := timers st; nextTimerId := nextTimerId st; page := page st;
     containers := containers st |}.

Definition set_hiddenCount (v : Z) (st : State) : State :=
  {| settings := settings st; whitelistSet := whitelistSet st;
     followedUsersSet := followedUsersSet st;
     followedSaveTimer := followedSaveTimer st; hiddenCount := v;
     observer := observer st; saveTimer := saveTimer st;
     _onFollowingTab := _onFollowingTab st; contextValid := contextValid st;
     timers := timers st; nextTimerId := nextTimerId st; page := page st;
     containers := containers st |}.

Definition set_observer (v : bool) (st : State) : State :=
  {| settings := settings st; whitelistSet := whitelistSet st;
     followedUsersSet := followedUsersSet st;
     followedSaveTimer := followedSaveTimer st; hiddenCount := hiddenCount st;
     observer := v; saveTimer := saveTimer st;
     _onFollowingTab := _onFollowingTab st; contextValid := contextValid st;
     timers := timers st; nextTimerId := nextTimerId st; page := page st;
     containers := containers st |}.

Definition set_saveTimer (v : option positive) (st : State) : State :=
  {| settings := settings st; whitelistSet := whitelistSet st;
     followedUsersSet := followedUsersSet st;
     followedSaveTimer := followedSaveTimer st; hiddenCount := hiddenCount st;
     observer := observer st; saveTimer := v;
     _onFollowingTab := _onFollowingTab st; contextValid := contextValid st;
     timers := timers st; nextTimerId := nextTimerId st; page := page st;
     containers := containers st |}.

Definition set_onFollowingTab (v : option bool) (st : State) : State :=
  {| settings := settings st; whitelistSet := whitelistSet st;
     followedUsersSet := followedUsersSet st;
     followedSaveTimer := followedSaveTimer st; hiddenCount := hiddenCount st;
     observer := observer st; saveTimer := saveTimer st;
     _onFollowingTab := v; contextValid := contextValid st;
     timers := timers st; nextTimerId := nextTimerId st; page := page st;
     containers := containers st |}.

Definition set_timers (v : list Timer) (n : positive) (st : State) : State :=
  {| settings := settings st; whitelistSet := whitelistSet st;
     followedUsersSet := followedUsersSet st;
     followedSaveTimer := followedSaveTimer st; hiddenCount := hiddenCount st;
     observer := observer st; saveTimer := saveTimer st;
     _onFollowingTab := _onFollowingTab st; contextValid := contextValid st;
     timers := v; nextTimerId := n; page := page st;
     containers := containers st |}.

Definition set_containers (v : list Container) (st : State) : State :=
  {| settings := settings st; whitelistSet := whitelistSet st;
     followedUsersSet := followedUsersSet st;
     followedSaveTimer := followedSaveTimer st; hiddenCount := hiddenCount st;
     observer := observer st; saveTimer := saveTimer st;
     _onFollowingTab := _onFollowingTab st; contextValid := contextValid st;
     timers := timers st; nextTimerId := nextTimerId st; page := page st;
     containers := v |}.

(** ** The state monad the script's functions run in *)

Definition M (A : Type) : Type := State -> A * State.

Definition ret {A} (a : A) : M A := fun st => (a, st).

Definition bind {A B} (m : M A) (k : A -> M B) : M B :=
  fun st => let (a, st') := m st in k a st'.

(** Read a variable; overwrite part of the state. *)
Definition gets {A} (f : State -> A) : M A := fun st => (f st, st).
Definition modify (f : State -> State) : M unit := fun st => (tt, f st).

#[global] Instance M_ret : MRet M := @ret.
#[global] Instance M_bind : MBind M := fun A B k m => bind m k.

(** The state a computation leaves, and the value it returns. *)
Definition exec {A} (m : M A) (st : State) : State := snd (m st).
Definition eval {A} (m : M A) (st : State) : A := fst (m st).

(** [for (const x of xs) body(x)] *)
Fixpoint forEach {A} (body : A -> M unit) (xs : list A) : M unit :=
  match xs with
  | [] => ret tt
  | x :: xs' => body x ;; forEach body xs'
  end.

(** Apply [f] to the container at position [i] (nothing at other
    positions, and nothing at all when there is no such container). *)
Definition updContainer (i : nat) (f : Container -> Container) : M unit :=
  modify (fun st => set_containers (alter f i (containers st)) st).

Section Host.

(** [String.prototype.toLowerCase] and [String.prototype.trim]. *)
Variable toLowerCase : string -> string.
Variable trim : string -> string.

(** [chrome.i18n.getMessage(name, substitutions)]. *)
Variable getMessage : string -> list string -> string.

(** [n.tagName.toLowerCase() === name]; this is also how the type
    selectors [svg], [path] and [a] are read, which compare the local name
    (on the elements of an HTML page the lower-cased tag name). *)
Definition hasTag (name : string) (n : Node) : bool :=
  match n with
  | Text _ => false
  | Element tag _ _ _ => (toLowerCase tag =? name)%string
  end.

(** [n.querySelectorAll(name)] for a type selector: descendants only. *)
Definition querySelectorAllTag (name : string) (n : Node) : list Node :=
  match n with
  | Text _ => []
  | Element _ _ _ kids => List.filter (hasTag name) (fst <$> descendantsOf [] kids)
  end.

(** *** Badge detection *)

(** [isVerifiedBadge(svg)], lines 170-186.  The script only hands it
    elements; a text node has no tag and is no badge. *)
Definition isVerifiedBadge (svg : Node) : bool :=
  if negb (hasTag "svg" svg) then false
  else
    let label := toLowerCase (orEmpty (getAttribute "aria-label" svg)) in
    if truthy label && existsb (fun kw => includes kw label) VERIFIED_KEYWORDS then true
    else if match getAttribute "viewBox" svg with
            | Some v => (v =? "0 0 22 22")%string
            | None => false
            end
            && (2 <=? length (querySelectorAllTag "path" svg))%nat
    then true
    else false.

(** The three buckets of lines 203-219, on the parsed channels. *)
Definition classifyColor (r g b : Z) : option BadgeType :=
  if (b >? 180) && (r <? 80) then Some BLUE
  else if (r >? 180) && (g >? 140) && (b <? 80) then Some GOLD
  else if (Z.abs (r - g) <? 40) && (Z.abs (g - b) <? 40) && (r >? 70) && (r <? 200)
  then Some GRAY
  else None.

(** [getBadgeColorType(svg)], lines 194-220. *)
Definition getBadgeColorType (svg : Node) : option BadgeType :=
  match nodeColor svg with
  | None => None
  | Some (r, g, b) => classifyColor r g b
  end.

(** *** Username extraction *)

(** The selector [a[role="link"][href]]. *)
Definition isRoleLink (n : Node) : bool :=
  hasTag "a" n &&
  match getAttribute "role" n with
  | Some r => (r =? "link")%string
  | None => false
  end &&
  match getAttribute "href" n with
  | Some _ => true
  | None => false
  end.

(** The loop of lines 235-240 over the links found. *)
Fixpoint firstProfileLink (links : list Node) : option string :=
  match links with
  | [] => None
  | link :: rest =>
      match getAttribute "href" link with
      | None => firstProfileLink rest
      | Some href =>
          if negb (truthy href) then firstProfileLink rest
          else match matchProfilePath href with
               | Some m1 => Some (toLowerCase m1)
               | None => firstProfileLink rest
               end
      end
  end.

(** [extractUsername(element)], lines 233-242; the element is given by its
    child nodes. *)
Definition extractUsername (kids : list Node) : option string :=
  firstProfileLink (List.filter isRoleLink (fst <$> descendantsOf [] kids)).

(** A value of [extractUsername] in a boolean position: [null] and the
    empty string are falsy. *)
Definition usernameTruthy (u : option string) : bool :=
  match u with
  | Some s => truthy s
  | None => false
  end.

(** *** Timers *)

Definition setTimeout (job : Job) (delay : Z) : M positive :=
  id ← gets nextTimerId;
  modify (fun st =>
    set_timers ({| timerId := id; timerDelay := delay; timerJob := job |} :: timers st)
               (Pos.succ id) st);;
  mret id.

Definition clearTimeout (id : positive) : M unit :=
  modify (fun st =>
    set_timers (List.filter (fun t => negb (timerId t =? id)%positive) (timers st))
               (nextTimerId st) st).

(** [debouncedSaveHiddenCount()], lines 150-156. *)
Definition debouncedSaveHiddenCount : M unit :=
  t ← gets saveTimer;
  match t with
  | Some id => clearTimeout id
  | None => mret tt
  end;;
  id ← setTimeout SaveHiddenCount 1000;
  modify (set_saveTimer (Some id)).

(** [debouncedSaveFollowedUsers()], lines 251-259. *)
Definition debouncedSaveFollowedUsers : M unit :=
  t ← gets followedSaveTimer;
  match t with
  | Some id => clearTimeout id
  | None => mret tt
  end;;
  id ← setTimeout SaveFollowedUsers 2000;
  modify (set_followedSaveTimer (Some id)).

(** *** Following detection *)

(** [markAsFollowed(username)], lines 266-270. *)
Definition markAsFollowed (username : string) : M unit :=
  known ← gets (fun st => bool_decide (username ∈ followedUsersSet st));
  if negb (truthy username) || known then mret tt
  else
    modify (fun st => set_followedUsersSet ({[username]} ∪ followedUsersSet st) st);;
    debouncedSaveFollowedUsers.

(** [kw] is one of the keywords [text] contains, lower-cased. *)
Definition containsFollowingKeyword (text : string) : bool :=
  existsb (fun kw => includes (toLowerCase kw) text) FOLLOWING_KEYWORDS.

(** [isOnFollowingTab()], lines 368-389. *)
Definition isOnFollowingTab : M bool :=
  cached ← gets _onFollowingTab;
  match cached with
  | Some b => mret b
  | None =>
      path ← gets (fun st => pathname (page st));
      if negb (isHomePath path) then
        modify (set_onFollowingTab (Some false));; mret false
      else
        tabs ← gets (fun st => selectedTabs (page st));
        if existsb (fun tab => containsFollowingKeyword (toLowerCase (trim tab))) tabs
        then modify (set_onFollowingTab (Some true));; mret true
        else modify (set_onFollowingTab (Some false));; mret false
  end.

(** [if (username) markAsFollowed(username)] *)
Definition markIfFound (username : option string) : M unit :=
  match username with
  | Some u => if truthy u then markAsFollowed u else mret tt
  | None => mret tt
  end.

(** The test of lines 326-328 on one button. *)
Definition buttonSaysFollowing (btn : Button) : bool :=
  let text := toLowerCase (trim (btnTextContent btn)) in
  let ariaLabel := toLowerCase (orEmpty (btnAriaLabel btn)) in
  existsb (fun kw => (text =? toLowerCase kw)%string || includes (toLowerCase kw) ariaLabel)
          FOLLOWING_KEYWORDS.

(** [scanPageForFollowedUsers()], lines 290-354. *)
Definition scanPageForFollowedUsers : M unit :=
  (* Signal 1: Following tab *)
  onTab ← isOnFollowingTab;
  (if (onTab : bool) then
     tweets ← gets (fun st => List.filter (fun c => match testid c with Tweet => true | UserCell => false end)
                              (containers st));
     forEach (fun tweet => markIfFound (extractUsername (containerNodes tweet))) tweets
   else mret tt);;
  (* Signal 2: follow buttons *)
  unfollowBtns ← gets (fun st => List.filter (endsWith "-unfollow") (testIds (page st)));
  forEach (fun testId =>
             match matchUnfollow testId with
             | Some m1 => markAsFollowed (toLowerCase m1)
             | None => mret tt
             end) unfollowBtns;;
  allButtons ← gets (fun st => buttons (page st));
  forEach (fun btn =>
             if negb (buttonSaysFollowing btn) then mret tt
             else match btnClosest btn with
                  | None => mret tt
                  | Some container => markIfFound (extractUsername container)
                  end) allButtons;;
  (* Signal 3: profile page header *)
  path ← gets (fun st => pathname (page st));
  match matchProfilePath path with
  | None => mret tt
  | Some m1 =>
      let profileUser := toLowerCase m1 in
      ids ← gets (fun st => testIds (page st));
      if existsb (fun t => (t =? m1 ++ "-unfollow")%string ||
                           (t =? profileUser ++ "-unfollow")%string) ids
      then markAsFollowed profileUser
      else mret tt
  end.

(** *** Settings *)

(** What [chrome.storage.sync.get(DEFAULT_SETTINGS)] resolves to; [None]
    is a [whitelist] that is no array, a [hiddenCount] that is no number. *)
Record StoredSettings := {
  storedEnabled : bool;
  storedHideBlue : bool;
  storedHideGold : bool;
  storedHideGray : bool;
  storedWhitelist : option (list string);
  storedHiddenCount : option Z
}.

(** [loadSettings()], lines 126-145, given what the two stores resolve to
    ([None] for a [followedUsers] that is no array). *)
Definition loadSettings (result : StoredSettings) (followedUsers : option (list string)) : M unit :=
  valid ← gets contextValid;
  if negb valid then mret tt
  else
    let wl := match storedWhitelist result with Some l => l | None => [] end in
    modify (set_settings {| enabled := storedEnabled result;
                            hideBlue := storedHideBlue result;
                            hideGold := storedHideGold result;
                            hideGray := storedHideGray result;
                            whitelist := wl |});;
    modify (set_whitelistSet (list_to_set (toLowerCase <$> wl)));;
    modify (set_hiddenCount (match storedHiddenCount result with Some n => n | None => 0 end));;
    valid' ← gets contextValid;
    if negb valid' then mret tt
    else match followedUsers with
         | Some us =>
             forEach (fun u => modify (fun st =>
                        set_followedUsersSet ({[u]} ∪ followedUsersSet st) st)) us
         | None => mret tt
         end.

(** *** Two-phase hiding *)

(** [BADGE_LABELS[badgeType]] *)
Definition BADGE_LABELS (t : BadgeType) : string :=
  match t with
  | BLUE => getMessage "badgeBlue" []
  | GOLD => getMessage "badgeGold" []
  | GRAY => getMessage "badgeGray" []
  end.

(** What [el.textContent = s] leaves as the children of a fresh element. *)
Definition textContentNodes (s : string) : list Node :=
  if truthy s then [Text s] else [].

(** The placeholder bar built by lines 425-443.  The bar is no graphic
    element and links nowhere; its computed colour is never read. *)
Definition placeholderBar (badgeType : BadgeType) : Node :=
  let label := if truthy (BADGE_LABELS badgeType) then BADGE_LABELS badgeType
               else getMessage "badgeVerified" [] in
  Element "DIV" [("class", "block-blue-placeholder")] None
    [ Element "SPAN"
        [("class", "block-blue-placeholder-dot block-blue-placeholder-dot--" ++ badgeName badgeType)]
        None [];
      Element "SPAN" [] None (textContentNodes (getMessage "placeholderBlocked" [label]));
      Element "SPAN" [("class", "block-blue-placeholder-show")] None
        (textContentNodes (getMessage "placeholderShow" [])) ].

(** [replaceWithPlaceholder(element, badgeType)], lines 412-451: every
    child moves, in order, into a fragment kept on the element; the
    inline padding is remembered; the marker is set; the bar becomes the
    only child. *)
Definition hideContainer (badgeType : BadgeType) (c : Container) : Container :=
  {| testid := testid c;
     withinStatusLink := withinStatusLink c;
     processedAttr := processedAttr c;
     replacedAttr := true;
     containerNodes := [placeholderBar badgeType];
     stylePadding := stylePadding c;
     _blockBlueOriginal := Some (containerNodes c);
     _blockBlueOriginalPadding := Some (stylePadding c) |}.

Definition replaceWithPlaceholder (element : nat) (badgeType : BadgeType) : M unit :=
  updContainer element (hideContainer badgeType).

(** [restoreElement(element)], lines 458-472. *)
Definition restoreContainer (c : Container) : Container :=
  match _blockBlueOriginal c with
  | None => c
  | Some original =>
      {| testid := testid c;
         withinStatusLink := withinStatusLink c;
         processedAttr := processedAttr c;
         replacedAttr := false;
         containerNodes := original;
         stylePadding := match _blockBlueOriginalPadding c with
                         | Some p => if truthy p then p else ""
                         | None => ""
                         end;
         _blockBlueOriginal := None;
         _blockBlueOriginalPadding := None |}
  end.

Definition restoreElement (element : nat) : M unit :=
  updContainer element restoreContainer.

(** *** The decision *)

(** The selector [a[href*="/status/"]]. *)
Definition isStatusLink (n : Node) : bool :=
  hasTag "a" n &&
  match getAttribute "href" n with
  | Some h => includes "/status/" h
  | None => false
  end.

(** [svg.closest('a[href*="/status/"]')] is not null: the element itself,
    one of its ancestors inside the container, or the container or
    something above it ([outer]) is such a link. *)
Definition closestStatusLink (outer : bool) (svg : Node) (ancestors : list Node) : bool :=
  existsb isStatusLink (svg :: ancestors) || outer.

(** [element.querySelectorAll('svg')], each with its ancestors. *)
Definition querySvgs (kids : list Node) : list (Node * list Node) :=
  List.filter (fun p => hasTag "svg" (fst p)) (descendantsOf [] kids).

(** The loop of lines 498-507; the result is [badgeType] after it. *)
Fixpoint badgeLoop (outer : bool) (svgs : list (Node * list Node)) : option BadgeType :=
  match svgs with
  | [] => None
  | (svg, ancestors) :: rest =>
      if negb (isVerifiedBadge svg) then badgeLoop outer rest
      else if closestStatusLink outer svg ancestors then badgeLoop outer rest
      else match getBadgeColorType svg with
           | Some badgeType => Some badgeType
           | None => badgeLoop outer rest
           end
  end.

(** [getBlockBadgeType(element)], lines 492-527.  A position beyond the
    document's containers stands for no element. *)
Definition getBlockBadgeType (element : nat) : M (option BadgeType) :=
  s ← gets settings;
  if negb (enabled s) then mret None
  else
    el ← gets (fun st => containers st !! element);
    match el with
    | None => mret None
    | Some c =>
        match badgeLoop (withinStatusLink c) (querySvgs (containerNodes c)) with
        | None => mret None
        | Some badgeType =>
            if BadgeType_eqb badgeType BLUE && negb (hideBlue s) then mret None
            else if BadgeType_eqb badgeType GOLD && negb (hideGold s) then mret None
            else if BadgeType_eqb badgeType GRAY && negb (hideGray s) then mret None
            else
              let username := extractUsername (containerNodes c) in
              listed ← gets (fun st =>
                match username with
                | Some u => bool_decide (u ∈ whitelistSet st)
                | None => false
                end);
              if usernameTruthy username && listed then mret None
              else
                followed ← gets (fun st =>
                  match username with
                  | Some u => bool_decide (u ∈ followedUsersSet st)
                  | None => false
                  end);
                if usernameTruthy username && followed then mret None
                else mret (Some badgeType)
        end
    end.

(** *** Processing *)

Definition markProcessed (c : Container) : Container :=
  {| testid := testid c;
     withinStatusLink := withinStatusLink c;
     processedAttr := true;
     replacedAttr := replacedAttr c;
     containerNodes := containerNodes c;
     stylePadding := stylePadding c;
     _blockBlueOriginal := _blockBlueOriginal c;
     _blockBlueOriginalPadding := _blockBlueOriginalPadding c |}.

Definition clearProcessed (c : Container) : Container :=
  {| testid := testid c;
     withinStatusLink := withinStatusLink c;
     processedAttr := false;
     replacedAttr := replacedAttr c;
     containerNodes := containerNodes c;
     stylePadding := stylePadding c;
     _blockBlueOriginal := _blockBlueOriginal c;
     _blockBlueOriginalPadding := _blockBlueOriginalPadding c |}.

(** [processElement(element)], lines 535-545. *)
Definition processElement (element : nat) : M unit :=
  el ← gets (fun st => containers st !! element);
  match el with
  | None => mret tt
  | Some c =>
      if processedAttr c then mret tt
      else
        updContainer element markProcessed;;
        badgeType ← getBlockBadgeType element;
        match badgeType with
        | Some t =>
            replaceWithPlaceholder element t;;
            modify (fun st => set_hiddenCount (hiddenCount st + 1) st)
        | None => mret tt
        end
  end.

(** The root handed to [processTree]: whether it is an [HTMLElement], and
    the containers the walk of lines 558-565 meets, in the order it meets
    them (the root itself when it matches, then the matching descendants
    in document order). *)
Record TreeRoot := {
  isHTMLElement : bool;
  rootContainers : list nat
}.

(** [processTree(root)], lines 552-566. *)
Definition processTree (root : TreeRoot) : M unit :=
  if negb (isHTMLElement root) then mret tt
  else forEach processElement (rootContainers root).

(** [document.body]: every container of the document lies below it. *)
Definition documentBody (st : State) : TreeRoot :=
  {| isHTMLElement := true;
     rootContainers := seq 0 (length (containers st)) |}.

(** The positions of the containers that satisfy [p], in document order
    ([document.querySelectorAll] on an attribute selector). *)
Fixpoint positionsFrom (p : Container -> bool) (k : nat) (cs : list Container) : list nat :=
  match cs with
  | [] => []
  | c :: cs' => if p c then k :: positionsFrom p (S k) cs' else positionsFrom p (S k) cs'
  end.

Definition positionsWhere (p : Container -> bool) (cs : list Container) : list nat :=
  positionsFrom p 0%nat cs.

(** *** The observer *)

(** [startObserver()], lines 635-643, and [stopObserver()], lines 648-653. *)
Definition startObserver : M unit := modify (set_observer true).
Definition stopObserver : M unit := modify (set_observer false).

(** *** Re-scan *)

(** The first half of [rescanAll()], lines 576-591: everything before the
    document is walked again. *)
Definition rescanReset : M unit :=
  modify (set_onFollowingTab None);;
  scanPageForFollowedUsers;;
  replaced ← gets (fun st => positionsWhere replacedAttr (containers st));
  forEach restoreElement replaced;;
  processed ← gets (fun st => positionsWhere processedAttr (containers st));
  forEach (fun el => updContainer el clearProcessed) processed;;
  modify (set_hiddenCount 0).

(** [rescanAll()], lines 575-601. *)
Definition rescanAll : M unit :=
  rescanReset;;
  s ← gets settings;
  (if enabled s then
     body ← gets documentBody;
     processTree body;;
     startObserver
   else stopObserver);;
  debouncedSaveHiddenCount.

(** *** Mutations *)

(** A node of [mutation.addedNodes]: whether it is an element node, and
    what [processTree] sees of it. *)
Record AddedNode := {
  isElementNode : bool;
  addedRoot : TreeRoot
}.

(** [handleMutations(mutations)], lines 615-630; a mutation record is given
    by its [addedNodes]. *)
Definition handleMutations (mutations : list (list AddedNode)) : M unit :=
  s ← gets settings;
  valid ← gets contextValid;
  if negb (enabled s) || negb valid then mret tt
  else
    scanPageForFollowedUsers;;
    forEach (fun addedNodes =>
               forEach (fun node =>
                          if isElementNode node then processTree (addedRoot node)
                          else mret tt) addedNodes) mutations;;
    debouncedSaveHiddenCount.

(** What [init()] does after the settings are loaded and the listeners
    are set up, lines 755-761, save for arming the interval. *)
Definition initialScan : M unit :=
  s ← gets settings;
  if enabled s then
    scanPageForFollowedUsers;;
    body ← gets documentBody;
    processTree body;;
    debouncedSaveHiddenCount;;
    startObserver
  else mret tt.

(** The callback of [setInterval], lines 764-772. *)
Definition periodicRescan : M unit :=
  valid ← gets contextValid;
  if negb valid then mret tt
  else
    sizeBefore ← gets (fun st => size (followedUsersSet st));
    scanPageForFollowedUsers;;
    sizeAfter ← gets (fun st => size (followedUsersSet st));
    if (sizeBefore <? sizeAfter)%nat then rescanAll else mret tt.

(** *** The script as a reactive system *)

(** The ways the host calls into the script: the settings have been read
    ([loadSettings]), the first scan of [init], a batch of mutations, a
    click on a placeholder, a full rescan (after a settings change or a
    navigation), the tick of the interval. *)
Inductive Event :=
| SettingsLoaded (result : StoredSettings) (followedUsers : option (list string))
| Started
| Mutated (mutations : list (list AddedNode))
| PlaceholderClicked (element : nat)
| Rescan
| Tick.

Definition handle (e : Event) : M unit :=
  match e with
  | SettingsLoaded result followedUsers => loadSettings result followedUsers
  | Started => initialScan
  | Mutated mutations => handleMutations mutations
  | PlaceholderClicked element => restoreElement element
  | Rescan => rescanAll
  | Tick => periodicRescan
  end.

(** The page leaves the markers and the properties the script hangs on an
    element alone. *)
Definition sameMarkers (c c' : Container) : Prop :=
  processedAttr c' = processedAttr c /\ replacedAttr c' = replacedAttr c /\
  _blockBlueOriginal c' = _blockBlueOriginal c /\
  _blockBlueOriginalPadding c' = _blockBlueOriginalPadding c.

(** What the page may do between two calls into the script: anything to
    what the script only reads, and to the containers anything that keeps
    the script's markers: containers come (unmarked or moved), go, and
    change their content. *)
Definition pageStep (st st' : State) : Prop :=
  (settings st' = settings st /\ whitelistSet st' = whitelistSet st /\
   followedUsersSet st' = followedUsersSet st /\ hiddenCount st' = hiddenCount st) /\
  Forall (fun c' => replacedAttr c' = false \/
                    exists c, c ∈ containers st /\ sameMarkers c c')
         (containers st').

(** The states the script can be in: it starts on a page where nothing is
    replaced, and from then on the host calls into it and the page
    changes. *)
Inductive reachable : State -> Prop :=
| reachable_start st :
    Forall (fun c => replacedAttr c = false) (containers st) -> reachable st
| reachable_event st e :
    reachable st -> reachable (exec (handle e) st)
| reachable_page st st' :
    reachable st -> pageStep st st' -> reachable st'.

(** ** Properties the specification words differently *)

(** The gray bucket as the specification words it: all three channels
    pairwise closer than 40, red in the closed interval from 70 to 200. *)
Definition claimedGray (r g b : Z) : Prop :=
  Z.abs (r - g) < 40 /\ Z.abs (g - b) < 40 /\ Z.abs (r - b) < 40 /\ 70 <= r <= 200.

(** A graphic element the loop does not skip: a badge outside every
    permalink-shaped link. *)
Definition qualifies (outer : bool) (p : Node * list Node) : bool :=
  isVerifiedBadge (fst p) && negb (closestStatusLink outer (fst p) (snd p)).

(** The loop as the specification words it: the first qualifying badge is
    classified and the enumeration stops there. *)
Definition firstQualifyingTier (outer : bool) (svgs : list (Node * list Node)) : option BadgeType :=
  match List.find (qualifies outer) svgs with
  | Some p => getBadgeColorType (fst p)
  | None => None
  end.

(** A qualifying badge whose colour falls into one of the buckets. *)
Definition recognised (outer : bool) (p : Node * list Node) : bool :=
  qualifies outer p &&
  match getBadgeColorType (fst p) with
  | Some _ => true
  | None => false
  end.

(** What [getBlockBadgeType] answers for a container it has found, read
    off lines 495-526 in one piece. *)
Definition decisionFor (st : State) (c : Container) : option BadgeType :=
  match badgeLoop (withinStatusLink c) (querySvgs (containerNodes c)) with
  | None => None
  | Some badgeType =>
      if BadgeType_eqb badgeType BLUE && negb (hideBlue (settings st)) then None
      else if BadgeType_eqb badgeType GOLD && negb (hideGold (settings st)) then None
      else if BadgeType_eqb badgeType GRAY && negb (hideGray (settings st)) then None
      else
        let username := extractUsername (containerNodes c) in
        if usernameTruthy username &&
           match username with
           | Some u => bool_decide (u ∈ whitelistSet st)
           | None => false
           end
        then None
        else if usernameTruthy username &&
                match username with
                | Some u => bool_decide (u ∈ followedUsersSet st)
                | None => false
                end
        then None
        else Some badgeType
  end.

(** ** Invariants and frames *)

(** A replaced container is marked processed and holds its original
    children. *)
Definition containerOk (c : Container) : bool :=
  implb (replacedAttr c)
        (processedAttr c &&
         match _blockBlueOriginal c with Some _ => true | None => false end).

Definition Inv (st : State) : Prop :=
  Forall (fun c => containerOk c = true) (containers st).

(** Every replaced container is also marked processed. *)
Definition replacedImpliesProcessed (st : State) : Prop :=
  forall i c, containers st !! i = Some c ->
    replacedAttr c = true -> processedAttr c = true.

(** A computation all of whose runs relate the state before to the state
    after by [R]. *)
Definition respects (R : State -> State -> Prop) {A} (m : M A) : Prop :=
  forall st, R st (exec m st).

(** Nothing but the follow cache and its timer bookkeeping changes. *)
Definition followFrame (st st' : State) : Prop :=
  settings st' = settings st /\ whitelistSet st' = whitelistSet st /\
  hiddenCount st' = hiddenCount st /\ observer st' = observer st /\
  saveTimer st' = saveTimer st /\ contextValid st' = contextValid st /\
  page st' = page st /\ containers st' = containers st.

(** What lines 583-589 do to one container: restore it if it carries the
    replaced marker, then drop the processed marker if it carries one. *)
Definition resetContainer (c : Container) : Container :=
  let c1 := if replacedAttr c then restoreContainer c else c in
  if processedAttr c1 then clearProcessed c1 else c1.

(** What [rescanAll] does after the reset, lines 593-600. *)
Definition rescanWalk : M unit :=
  s ← gets settings;
  (if enabled s then
     body ← gets documentBody;
     processTree body;;
     startObserver
   else stopObserver);;
  debouncedSaveHiddenCount.

(** Nothing but the timer bookkeeping changes. *)
Definition timerFrame (st st' : State) : Prop :=
  settings st' = settings st /\ whitelistSet st' = whitelistSet st /\
  followedUsersSet st' = followedUsersSet st /\
  hiddenCount st' = hiddenCount st /\ observer st' = observer st /\
  _onFollowingTab st' = _onFollowingTab st /\
  contextValid st' = contextValid st /\
  page st' = page st /\ containers st' = containers st.

(** The invariant carries over from the state before to the state after. *)
Definition keepsInv (st st' : State) : Prop := Inv st -> Inv st'.

(** The container at position [j] is marked processed. *)
Definition processedAt (j : nat) (st : State) : Prop :=
  exists c, containers st !! j = Some c /\ processedAttr c = true.

(** No container appears or disappears, and no processed marker is lost. *)
Definition processedGrows (st st' : State) : Prop :=
  length (containers st') = length (containers st) /\
  forall j, processedAt j st -> processedAt j st'.

(** The container [c] at position [i] is left exactly as it is. *)
Definition keepsAt (i : nat) (c : Container) (st st' : State) : Prop :=
  containers st !! i = Some c -> containers st' !! i = Some c.

(** The follow cache only grows. *)
Definition followGrows (st st' : State) : Prop :=
  followedUsersSet st ⊆ followedUsersSet st'.

(** ** Sample pages *)

Definition pathNode : Node := Element "path" [] None [].

Definition badgeNode (rgb : Z * Z * Z) : Node :=
  Element "svg" [("viewBox", "0 0 22 22")] (Some rgb) [pathNode; pathNode].

Definition profileLinkNode (handle : string) : Node :=
  Element "A" [("role", "link"); ("href", "/" ++ handle)] None [Text handle].

Definition sampleContainer (kids : list Node) : Container :=
  {| testid := Tweet;
     withinStatusLink := false;
     processedAttr := false;
     replacedAttr := false;
     containerNodes := kids;
     stylePadding := "";
     _blockBlueOriginal := None;
     _blockBlueOriginalPadding := None |}.

Definition samplePage : Page :=
  {| pathname := "/home"; selectedTabs := ["For you"]; testIds := []; buttons := [] |}.

Definition sampleState (on : bool) (allow followed : list string) (cs : list Container) : State :=
  {| settings := {| enabled := on; hideBlue := true; hideGold := false;
                    hideGray := false; whitelist := allow |};
     whitelistSet := list_to_set allow;
     followedUsersSet := list_to_set followed;
     followedSaveTimer := None;
     hiddenCount := 0;
     observer := true;
     saveTimer := None;
     _onFollowingTab := None;
     contextValid := true;
     timers := [];
     nextTimerId := 1%positive;
     page := samplePage;
     containers := cs |}.

(** A tweet by [alice] with a blue badge. *)
Definition aliceTweet : Container :=
  sampleContainer [profileLinkNode "Alice"; badgeNode (29, 155, 240)].

(** A tweet with two badges: the first of no recognised colour, the second
    blue. *)
Definition twoBadgeTweet : Container :=
  sampleContainer [badgeNode (0, 0, 0); badgeNode (29, 155, 240)].

Definition sampleMessage (name : string) (subst : list string) : string :=
  (name ++ String.concat "," subst)%string.

(** The placeholder bar for a blue badge under [sampleMessage]. *)
Definition sampleBar : Node :=
  Element "DIV" [("class", "block-blue-placeholder")] None
    [ Element "SPAN"
        [("class", "block-blue-placeholder-dot block-blue-placeholder-dot--blue")] None [];
      Element "SPAN" [] None [Text "placeholderBlockedbadgeBlue"];
      Element "SPAN" [("class", "block-blue-placeholder-show")] None
        [Text "placeholderShow"] ].

(** [aliceTweet] once processed and hidden. *)
Definition hiddenAliceTweet : Container :=
  {| testid := Tweet;
     withinStatusLink := false;
     processedAttr := true;
     replacedAttr := true;
     containerNodes := [sampleBar];
     stylePadding := "";
     _blockBlueOriginal := Some (containerNodes aliceTweet);
     _blockBlueOriginalPadding := Some "" |}.

Definition aliceState : State := sampleState true [] [] [aliceTweet].
Definition allowedState : State := sampleState true ["alice"] [] [aliceTweet].
Definition disabledState : State := sampleState false [] [] [aliceTweet].
Definition twoBadgeState : State := sampleState true [] [] [twoBadgeTweet].
Definition hiddenState : State :=
  set_hiddenCount 1 (sampleState true [] [] [hiddenAliceTweet]).

(** ** More of the content script *)

(** [location] and the page around the containers, as the page itself
    may replace them. *)
Definition set_page (v : Page) (st : State) : State :=
  {| settings := settings st; whitelistSet := whitelistSet st;
     followedUsersSet := followedUsersSet st;
     followedSaveTimer := followedSaveTimer st; hiddenCount := hiddenCount st;
     observer := observer st; saveTimer := saveTimer st;
     _onFollowingTab := _onFollowingTab st; contextValid := contextValid st;
     timers := timers st; nextTimerId := nextTimerId st; page := v;
     containers := containers st |}.

(** What [isOnFollowingTab()] answers in a state: the cached flag when there
    is one, and else the test of lines 372-388. *)
Definition followingTabAnswer (st : State) : bool :=
  match _onFollowingTab st with
  | Some b => b
  | None =>
      isHomePath (pathname (page st)) &&
      existsb (fun tab => containsFollowingKeyword (toLowerCase (trim tab)))
              (selectedTabs (page st))
  end.

(** The arguments [scanPageForFollowedUsers] hands to [markAsFollowed], in
    the order of the calls: the authors of the tweets when the Following
    tab is shown, the names in the [-unfollow] test ids, the names next to
    the buttons that say Following, and the profile whose page this is. *)
Definition tabSignal (st : State) : list string :=
  if followingTabAnswer st then
    omap (fun c => match testid c with
                   | Tweet => extractUsername (containerNodes c)
                   | UserCell => None
                   end) (containers st)
  else [].

Definition unfollowSignal (pg : Page) : list string :=
  omap (fun testId => toLowerCase <$> matchUnfollow testId)
       (List.filter (endsWith "-unfollow") (testIds pg)).

Definition buttonSignal (pg : Page) : list string :=
  omap (fun btn => if buttonSaysFollowing btn
                   then btnClosest btn ≫= extractUsername
                   else None) (buttons pg).

Definition profileSignal (pg : Page) : list string :=
  match matchProfilePath (pathname pg) with
  | None => []
  | Some m1 =>
      if existsb (fun t => (t =? m1 ++ "-unfollow")%string ||
                           (t =? toLowerCase m1 ++ "-unfollow")%string) (testIds pg)
      then [toLowerCase m1] else []
  end.

Definition followSignals (st : State) : list string :=
  (tabSignal st ++ unfollowSignal (page st) ++ buttonSignal (page st) ++
   profileSignal (page st))%list.

(** The identities [markAsFollowed] takes from a list of arguments: the
    non-empty ones. *)
Definition marked (us : list string) : gset string :=
  list_to_set (List.filter truthy us).

(** The handle a link's [href] names when it is a bare profile path. *)
Definition linkHandle (link : Node) : option string :=
  getAttribute "href" link ≫= matchProfilePath.

(** A computation that hands exactly the arguments [us] to
    [markAsFollowed] and otherwise leaves the page, the containers and the
    tab flag alone: afterwards the cache holds what it held and the non-empty
    ones among [us]; and when those were all cached already, nothing at all
    has changed. *)
Definition marks (us : list string) {A} (m : M A) : Prop :=
  forall st,
    followedUsersSet (exec m st) = followedUsersSet st ∪ marked us /\
    page (exec m st) = page st /\ containers (exec m st) = containers st /\
    _onFollowingTab (exec m st) = _onFollowingTab st /\
    (marked us ⊆ followedUsersSet st -> exec m st = st).

(** How many containers show a placeholder. *)
Definition countReplaced (cs : list Container) : nat :=
  length (List.filter replacedAttr cs).

(** The toggle that belongs to a tier, lines 513-515. *)
Definition toggleFor (t : BadgeType) (s : Settings) : bool :=
  match t with
  | BLUE => hideBlue s
  | GOLD => hideGold s
  | GRAY => hideGray s
  end.

(** At most one timer per job is pending, and it is the one the script's
    timer variable names; ids are handed out once. *)
Definition timerNamedBy (st : State) (t : Timer) : Prop :=
  match timerJob t with
  | SaveHiddenCount => saveTimer st = Some (timerId t)
  | SaveFollowedUsers => followedSaveTimer st = Some (timerId t)
  end.

Definition jobDelay (j : Job) : Z :=
  match j with
  | SaveHiddenCount => 1000
  | SaveFollowedUsers => 2000
  end.

Definition TimerInv (st : State) : Prop :=
  NoDup (timerId <$> timers st) /\
  Forall (fun t => (timerId t < nextTimerId st)%positive /\ timerNamedBy st t /\
                   timerDelay t = jobDelay (timerJob t)) (timers st).

Definition keepsTimerInv (st st' : State) : Prop := TimerInv st -> TimerInv st'.

(** Only the containers and the hidden count change. *)
Definition processFrame (st st' : State) : Prop :=
  settings st' = settings st /\ whitelistSet st' = whitelistSet st /\
  followedUsersSet st' = followedUsersSet st /\
  followedSaveTimer st' = followedSaveTimer st /\
  observer st' = observer st /\ saveTimer st' = saveTimer st /\
  _onFollowingTab st' = _onFollowingTab st /\
  contextValid st' = contextValid st /\ timers st' = timers st /\
  nextTimerId st' = nextTimerId st /\ page st' = page st.

(** What [processElement], lines 535-545, makes of an unmarked container
    [c] in a state with the settings and lists of [st]. *)
Definition decided (st : State) (c : Container) : Container :=
  match decisionFor st c with
  | Some t => hideContainer t (markProcessed c)
  | None => markProcessed c
  end.

(** The container at [i] shows [original], is not replaced, and its author
    [u] is exempt. *)
Definition shownExempt (i : nat) (original : list Node) (u : string) (st : State) : Prop :=
  (u ∈ whitelistSet st \/ u ∈ followedUsersSet st) /\
  exists c, containers st !! i = Some c /\ replacedAttr c = false /\
            containerNodes c = original.

Definition keepsShown (i : nat) (original : list Node) (u : string) (st st' : State) : Prop :=
  shownExempt i original u st -> shownExempt i original u st'.

(** The hidden count and the number of placeholders move together. *)
Definition countsTogether (st st' : State) : Prop :=
  Inv st ->
  Inv st' /\
  hiddenCount st' - Z.of_nat (countReplaced (containers st')) =
  hiddenCount st - Z.of_nat (countReplaced (containers st)).

(** [loadSettings().then(() => rescanAll())], lines 710 and 735, the two
    run back to back. *)
Definition reloadSettings (result : StoredSettings) (followedUsers : option (list string)) : M unit :=
  loadSettings result followedUsers;;
  rescanAll.

(** The listener of [chrome.storage.onChanged], lines 728-736: the keys of
    [changes], the area, and what the stores resolve to when the listener
    reads them. *)
Definition onStorageChanged (keys : list string) (area : string)
    (result : StoredSettings) (followedUsers : option (list string)) : M unit :=
  if negb (area =? "sync")%string then mret tt
  else if (length keys =? 1)%nat &&
          match keys with
          | k :: _ => (k =? "hiddenCount")%string
          | [] => false
          end
  then mret tt
  else reloadSettings result followedUsers.

(** What the message listener answers, lines 700-716. *)
Inductive Reply :=
| Stats (shownHiddenCount : Z) (autoFollowedCount : nat)
| Ok
| NoReply.

(** The listener itself, lines 700-716, up to its [return].  For
    SETTINGS_CHANGED line 710 only starts [loadSettings()], which reads
    nothing but the context flag before its first [await]: the answer of
    line 711 goes out while the reload is pending, with the state as it
    was. *)
Definition onMessage (type : string) : M Reply :=
  if (type =? "GET_STATS")%string then
    n ← gets hiddenCount;
    k ← gets (fun st => size (followedUsersSet st));
    mret (Stats n k)
  else if (type =? "SETTINGS_CHANGED")%string then mret Ok
  else mret NoReply.

(** What the listener leaves pending when it returns: for SETTINGS_CHANGED
    the chain [loadSettings().then(() => rescanAll())] of line 710, for any
    other message nothing. *)
Definition onMessagePending (type : string)
    (result : StoredSettings) (followedUsers : option (list string)) : M unit :=
  if (type =? "SETTINGS_CHANGED")%string then reloadSettings result followedUsers
  else mret tt.

(** ** The popup, [src/popup/popup.js] *)

(** [/^[a-zA-Z0-9_]{1,15}$/.test(s)], line 144. *)
Definition isHandle (s : string) : bool :=
  (1 <=? String.length s)%nat && (String.length s <=? 15)%nat &&
  allChars isHandleChar s.

(** [s.replace(/^@/, '')], line 140. *)
Definition stripAt (s : string) : string :=
  match s with
  | String "@" rest => rest
  | _ => s
  end.

(** A child of the whitelist [<ul>]: the placeholder shown for an empty
    list, or an item with its [dataset.username]. *)
Inductive WhitelistLi :=
| EmptyLi
| ItemLi (username : string).

(** The popup's document, the sync store as [get(DEFAULT_SETTINGS)] reads
    it, the id of the active tab (if it has one), and the messages sent so
    far.  [inputError] is the class [block-blue-input-error] on the input;
    [errorTimers] counts the pending 600 ms timers that will take it off. *)
Record Popup := {
  toggleEnabled : bool;
  toggleBlue : bool;
  toggleGold : bool;
  toggleGray : bool;
  whitelistInput : string;
  inputError : bool;
  errorTimers : nat;
  whitelistListEl : list WhitelistLi;
  syncStore : StoredSettings;
  activeTab : option nat;
  sentMessages : list (nat * string)
}.

(** [getCurrentWhitelist()], lines 90-93. *)
Definition getCurrentWhitelist (p : Popup) : list string :=
  omap (fun li => match li with
                  | ItemLi username => Some username
                  | EmptyLi => None
                  end) (whitelistListEl p).

(** The children [renderWhitelist(list)] leaves in the [<ul>], lines
    99-134. *)
Definition renderedList (usernames : list string) : list WhitelistLi :=
  match usernames with
  | [] => [EmptyLi]
  | _ => ItemLi <$> usernames
  end.

Definition setList (lis : list WhitelistLi) (input : string) (p : Popup) : Popup :=
  {| toggleEnabled := toggleEnabled p; toggleBlue := toggleBlue p;
     toggleGold := toggleGold p; toggleGray := toggleGray p;
     whitelistInput := input; inputError := inputError p;
     errorTimers := errorTimers p; whitelistListEl := lis;
     syncStore := syncStore p; activeTab := activeTab p;
     sentMessages := sentMessages p |}.

Definition renderWhitelist (usernames : list string) (p : Popup) : Popup :=
  setList (renderedList usernames) (whitelistInput p) p.

(** [notifyContentScript()], lines 71-80. *)
Definition notifyContentScript (p : Popup) : Popup :=
  match activeTab p with
  | None => p
  | Some id =>
      {| toggleEnabled := toggleEnabled p; toggleBlue := toggleBlue p;
         toggleGold := toggleGold p; toggleGray := toggleGray p;
         whitelistInput := whitelistInput p; inputError := inputError p;
         errorTimers := errorTimers p; whitelistListEl := whitelistListEl p;
         syncStore := syncStore p; activeTab := activeTab p;
         sentMessages := (sentMessages p ++ [(id, "SETTINGS_CHANGED")])%list |}
  end.

(** [saveSettings()], lines 53-66: the five keys are written, [hiddenCount]
    is left as stored. *)
Definition saveSettings (p : Popup) : Popup :=
  let whitelist := getCurrentWhitelist p in
  notifyContentScript
    {| toggleEnabled := toggleEnabled p; toggleBlue := toggleBlue p;
       toggleGold := toggleGold p; toggleGray := toggleGray p;
       whitelistInput := whitelistInput p; inputError := inputError p;
       errorTimers := errorTimers p; whitelistListEl := whitelistListEl p;
       syncStore := {| storedEnabled := toggleEnabled p;
                       storedHideBlue := toggleBlue p;
                       storedHideGold := toggleGold p;
                       storedHideGray := toggleGray p;
                       storedWhitelist := Some whitelist;
                       storedHiddenCount := storedHiddenCount (syncStore p) |};
       activeTab := activeTab p;
       sentMessages := sentMessages p |}.

(** [addToWhitelist()], lines 139-163. *)
Definition addToWhitelist (p : Popup) : Popup :=
  let raw := stripAt (trim (whitelistInput p)) in
  if negb (truthy raw) then p
  else if negb (isHandle raw) then
    {| toggleEnabled := toggleEnabled p; toggleBlue := toggleBlue p;
       toggleGold := toggleGold p; toggleGray := toggleGray p;
       whitelistInput := whitelistInput p; inputError := true;
       errorTimers := S (errorTimers p); whitelistListEl := whitelistListEl p;
       syncStore := syncStore p; activeTab := activeTab p;
       sentMessages := sentMessages p |}
  else
    let username := toLowerCase raw in
    let current := getCurrentWhitelist p in
    if existsb (String.eqb username) current then setList (whitelistListEl p) "" p
    else
      saveSettings (setList (renderedList (current ++ [username])) "" p).

(** The click listener of an item's remove button, lines 121-128; the item
    is given by its position among the children of the [<ul>]. *)
Definition removeClicked (i : nat) (p : Popup) : Popup :=
  match whitelistListEl p !! i with
  | Some (ItemLi _) =>
      let children := delete i (whitelistListEl p) in
      saveSettings
        (if (length children =? 0)%nat then renderWhitelist [] (setList children (whitelistInput p) p)
         else setList children (whitelistInput p) p)
  | _ => p
  end.

(** Every item of the list is a lower-case handle and no handle is listed
    twice. *)
Definition listedOk (p : Popup) : Prop :=
  NoDup (getCurrentWhitelist p) /\
  Forall (fun u => isHandle u = true /\ asciiToLowerCase u = u) (getCurrentWhitelist p) /\
  (whitelistListEl p = renderedList (getCurrentWhitelist p)).

(** ** Installation, the [onInstalled] listener *)

(** A value of the sync store. *)
Inductive JsValue :=
| JNull
| JBool (b : bool)
| JNumber (n : Z)
| JString (s : string)
| JArray (items : list JsValue)
| JObject (members : list (string * JsValue)).

Definition DEFAULT_SETTINGS : gmap string JsValue :=
  list_to_map
    [ ("enabled", JBool true); ("hideBlue", JBool true); ("hideGold", JBool false);
      ("hideGray", JBool false); ("whitelist", JArray []); ("hiddenCount", JNumber 0) ].

(** [chrome.storage.sync.set(items)]: the keys of [items] are written, the
    others stay. *)
Definition storageSet (items store : gmap string JsValue) : gmap string JsValue :=
  items ∪ store.

(** The listener of [chrome.runtime.onInstalled], lines 800-812, on
    [details.reason]. *)
Definition onInstalled (reason : string) (store : gmap string JsValue) : gmap string JsValue :=
  if (reason =? "install")%string then storageSet DEFAULT_SETTINGS store
  else if (reason =? "update")%string then
    let existing := store in
    let merged := existing ∪ DEFAULT_SETTINGS in
    storageSet merged store
  else store.

(** ** More sample pages *)

(** The home timeline with the Following tab selected. *)
Definition followingPage : Page :=
  {| pathname := "/home"; selectedTabs := ["For you"; " Following "];
     testIds := ["Bob-unfollow"; "tweet"]; buttons := [] |}.

Definition followingState : State := set_page followingPage aliceState.

Definition samplePopup (input : string) (lis : list WhitelistLi) : Popup :=
  {| toggleEnabled := true; toggleBlue := true; toggleGold := false;
     toggleGray := false; whitelistInput := input; inputError := false;
     errorTimers := 0; whitelistListEl := lis;
     syncStore := {| storedEnabled := true; storedHideBlue := true;
                     storedHideGold := false; storedHideGray := false;
                     storedWhitelist := None; storedHiddenCount := Some 3 |};
     activeTab := Some 7%nat; sentMessages := [] |}.

(** A tweet whose only badge sits in a quoted post. *)
Definition quotedTweet : Container :=
  sampleContainer
    [ profileLinkNode "Alice";
      Element "A" [("href", "/bob/status/42")] None [badgeNode (29, 155, 240)] ].

Definition quotedState : State := sampleState true [] [] [quotedTweet].

(** [hiddenState] once alice is known to be followed. *)
Definition hiddenFollowedState : State :=
  set_hiddenCount 1 (sampleState true [] ["alice"] [hiddenAliceTweet]).

Definition sampleStored : StoredSettings :=
  {| storedEnabled := true; storedHideBlue := true; storedHideGold := true;
     storedHideGray := false; storedWhitelist := Some ["Alice"; "bob"];
     storedHiddenCount := None |}.

Definition typingPopup : Popup := samplePopup " @Alice " [EmptyLi].
Definition listingPopup : Popup := samplePopup "" [ItemLi "alice"; ItemLi "bob"].

Definition sampleStore : gmap string JsValue :=
  list_to_map [("hideGold", JBool true); ("theme", JString "dark")].

(** Leading and trailing blanks removed. *)
Fixpoint dropBlanks (s : string) : string :=
  match s with
  | String " " rest => dropBlanks rest
  | _ => s
  end.

Fixpoint revString (acc s : string) : string :=
  match s with
  | EmptyString => acc
  | String a rest => revString (String a acc) rest
  end.

Definition asciiTrim (s : string) : string :=
  revString "" (dropBlanks (revString "" (dropBlanks s))).

(** * Theorems *)

(** ** The monad *)

Lemma run_bind {A B} (m : M A) (k : A -> M B) (st : State) :
  (m ≫= k) st = k (fst (m st)) (snd (m st)).
Proof. unfold mbind, M_bind, bind. destruct (m st); reflexivity. Qed.

Lemma exec_bind {A B} (m : M A) (k : A -> M B) (st : State) :
  exec (m ≫= k) st = exec (k (eval m st)) (exec m st).
Proof. unfold exec, eval. rewrite run_bind. reflexivity. Qed.

Lemma eval_bind {A B} (m : M A) (k : A -> M B) (st : State) :
  eval (m ≫= k) st = eval (k (eval m st)) (exec m st).
Proof. unfold exec, eval. rewrite run_bind. reflexivity. Qed.

Lemma exec_ret {A} (a : A) (st : State) : exec (mret a : M A) st = st.
Proof. reflexivity. Qed.

Lemma exec_gets {A} (f : State -> A) (st : State) : exec (gets f) st = st.
Proof. reflexivity. Qed.

Lemma eval_gets {A} (f : State -> A) (st : State) : eval (gets f) st = f st.
Proof. reflexivity. Qed.

Lemma exec_modify (f : State -> State) (st : State) : exec (modify f) st = f st.
Proof. reflexivity. Qed.

Section Respects.

Context (R : State -> State -> Prop) `{!PreOrder R}.

Lemma respects_ret {A} (a : A) : respects R (mret a : M A).
Proof. intros st. rewrite exec_ret. reflexivity. Qed.

Lemma respects_gets {A} (f : State -> A) : respects R (gets f).
Proof. intros st. rewrite exec_gets. reflexivity. Qed.

Lemma respects_modify (f : State -> State) :
  (forall st, R st (f st)) -> respects R (modify f).
Proof. intros H st. rewrite exec_modify. apply H. Qed.

Lemma respects_bind {A B} (m : M A) (k : A -> M B) :
  respects R m -> (forall a, respects R (k a)) -> respects R (m ≫= k).
Proof.
  intros Hm Hk st. rewrite exec_bind.
  transitivity (exec m st); [apply Hm | apply Hk].
Qed.

Lemma respects_forEach {A} (body : A -> M unit) (xs : list A) :
  (forall x, respects R (body x)) -> respects R (forEach body xs).
Proof.
  intros Hb. induction xs as [|x xs IH]; simpl.
  - apply respects_ret.
  - apply respects_bind; [apply Hb | intros _; apply IH].
Qed.

End Respects.

#[local] Instance eq_state_preorder : PreOrder (@eq State).
Proof. split; [intros x; reflexivity | intros x y z -> ->; reflexivity]. Qed.

#[local] Instance followFrame_preorder : PreOrder followFrame.
Proof.
  split.
  - intros st. unfold followFrame. tauto.
  - intros a b c. unfold followFrame. intuition congruence.
Qed.

(** Forget the host functions a goal does not speak of. *)
Ltac tidy := try clear getMessage; try clear trim; try clear toLowerCase.

#[local] Instance followGrows_preorder : PreOrder followGrows.
Proof.
  split.
  - intros st. unfold followGrows. tidy; set_solver.
  - intros a b c. unfold followGrows. tidy; set_solver.
Qed.

(** Break a computation down along its binds, loops and branches. *)
Ltac respects_step :=
  first
    [ apply respects_ret; exact _
    | apply respects_gets; exact _
    | apply respects_bind; [exact _ | | intros ?]
    | apply respects_forEach; [exact _ | intros ?]
    | match goal with
      | |- respects _ (if ?b then _ else _) => destruct b
      | |- respects _ (match ?x with _ => _ end) => destruct x
      end ].

(** ** Badge classifier *)

Lemma classifyColor_cases (r g b : Z) :
  (classifyColor r g b = Some BLUE <-> b > 180 /\ r < 80) /\
  (classifyColor r g b = Some GOLD <-> r > 180 /\ g > 140 /\ b < 80) /\
  (classifyColor r g b = Some GRAY <->
     Z.abs (r - g) < 40 /\ Z.abs (g - b) < 40 /\ 70 < r < 200) /\
  (classifyColor r g b = None <->
     ~ (b > 180 /\ r < 80) /\ ~ (r > 180 /\ g > 140 /\ b < 80) /\
     ~ (Z.abs (r - g) < 40 /\ Z.abs (g - b) < 40 /\ 70 < r < 200)).
Proof.
  unfold classifyColor.
  assert (H1 : (b >? 180) && (r <? 80) = true <-> b > 180 /\ r < 80)
    by (rewrite andb_true_iff, Z.gtb_gt, Z.ltb_lt; tauto).
  assert (H2 : (r >? 180) && (g >? 140) && (b <? 80) = true <->
               r > 180 /\ g > 140 /\ b < 80)
    by (rewrite !andb_true_iff, !Z.gtb_gt, Z.ltb_lt; tauto).
  assert (H3 : (Z.abs (r - g) <? 40) && (Z.abs (g - b) <? 40) && (r >? 70) && (r <? 200) = true <->
               Z.abs (r - g) < 40 /\ Z.abs (g - b) < 40 /\ 70 < r < 200)
    by (rewrite !andb_true_iff, Z.gtb_gt, !Z.ltb_lt; lia).
  destruct ((b >? 180) && (r <? 80));
    [|destruct ((r >? 180) && (g >? 140) && (b <? 80));
      [|destruct ((Z.abs (r - g) <? 40) && (Z.abs (g - b) <? 40) && (r >? 70) && (r <? 200))]].
  - pose proof (proj1 H1 eq_refl).
    repeat split; intros; try discriminate; try reflexivity; try lia.
  - pose proof (proj1 H2 eq_refl).
    assert (~ (b > 180 /\ r < 80)) by (intros K; apply H1 in K; discriminate).
    repeat split; intros; try discriminate; try reflexivity; try lia; try tauto.
  - pose proof (proj1 H3 eq_refl).
    assert (~ (b > 180 /\ r < 80)) by (intros K; apply H1 in K; discriminate).
    assert (~ (r > 180 /\ g > 140 /\ b < 80)) by (intros K; apply H2 in K; discriminate).
    repeat split; intros; try discriminate; try reflexivity; try lia; try tauto.
  - assert (~ (b > 180 /\ r < 80)) by (intros K; apply H1 in K; discriminate).
    assert (~ (r > 180 /\ g > 140 /\ b < 80)) by (intros K; apply H2 in K; discriminate).
    assert (~ (Z.abs (r - g) < 40 /\ Z.abs (g - b) < 40 /\ 70 < r < 200))
      by (intros K; apply H3 in K; discriminate).
    repeat split; intros; try discriminate; try reflexivity; try tauto.
Qed.

(** C3, as the code has it: for every triple of channels read off the
    computed colour, [getBadgeColorType] answers blue exactly when b > 180
    and r < 80, gold exactly when r > 180, g > 140 and b < 80, gray exactly
    when |r-g| < 40, |g-b| < 40 and r lies strictly between 70 and 200 (the
    pair r, b is not compared), and nothing exactly when no bucket holds. *)
Theorem getBadgeColorType_buckets (tag : string) (attrs : list (string * string))
    (kids : list Node) (r g b : Z) :
  let svg := Element tag attrs (Some (r, g, b)) kids in
  (getBadgeColorType svg = Some BLUE <-> b > 180 /\ r < 80) /\
  (getBadgeColorType svg = Some GOLD <-> r > 180 /\ g > 140 /\ b < 80) /\
  (getBadgeColorType svg = Some GRAY <->
     Z.abs (r - g) < 40 /\ Z.abs (g - b) < 40 /\ 70 < r < 200) /\
  (getBadgeColorType svg = None <->
     ~ (b > 180 /\ r < 80) /\ ~ (r > 180 /\ g > 140 /\ b < 80) /\
     ~ (Z.abs (r - g) < 40 /\ Z.abs (g - b) < 40 /\ 70 < r < 200)).
Proof. cbn. apply classifyColor_cases. Qed.

(** C3, as the claim words it, fails twice: rgb(70,70,70) meets the claimed
    gray bucket and is classified as nothing, and rgb(100,130,160) is
    classified gray although r and b are 60 apart. *)
Lemma getBadgeColorType_claimed_gray_fails :
  (claimedGray 70 70 70 /\ getBadgeColorType (badgeNode (70, 70, 70)) = None) /\
  (getBadgeColorType (badgeNode (100, 130, 160)) = Some GRAY /\ ~ claimedGray 100 130 160).
Proof.
  split; split.
  - unfold claimedGray. lia.
  - reflexivity.
  - reflexivity.
  - unfold claimedGray. lia.
Qed.

Lemma existsb_includes_empty (kws : list string) :
  Forall (fun kw => kw <> "") kws -> existsb (fun kw => includes kw "") kws = false.
Proof.
  induction 1 as [|kw kws Hkw _ IH]; [reflexivity|].
  cbn [existsb]. rewrite IH. destruct kw; [congruence | reflexivity].
Qed.

Lemma VERIFIED_KEYWORDS_nonempty : Forall (fun kw => kw <> "") VERIFIED_KEYWORDS.
Proof. unfold VERIFIED_KEYWORDS. repeat constructor; discriminate. Qed.

(** C8: [isVerifiedBadge] holds of an element exactly when it is an svg
    and either its lower-cased accessible label contains one of the
    keywords, or its viewBox is "0 0 22 22" and it has at least two path
    descendants. *)
Theorem isVerifiedBadge_iff (e : Node) :
  isVerifiedBadge e = true <->
  hasTag "svg" e = true /\
  ((exists kw, In kw VERIFIED_KEYWORDS /\
      includes kw (toLowerCase (orEmpty (getAttribute "aria-label" e))) = true) \/
   (getAttribute "viewBox" e = Some "0 0 22 22" /\
    (2 <= length (querySelectorAllTag "path" e))%nat)).
Proof.
  unfold isVerifiedBadge.
  destruct (hasTag "svg" e); cbn [negb]; [|split; [discriminate | intros [? _]; discriminate]].
  set (label := toLowerCase (orEmpty (getAttribute "aria-label" e))).
  assert (Hkw : truthy label && existsb (fun kw => includes kw label) VERIFIED_KEYWORDS = true
                <-> exists kw, In kw VERIFIED_KEYWORDS /\ includes kw label = true).
  { rewrite <- existsb_exists. unfold truthy.
    destruct (String.eqb_spec label "") as [->|Hne]; cbn [negb andb].
    - rewrite (existsb_includes_empty _ VERIFIED_KEYWORDS_nonempty). reflexivity.
    - reflexivity. }
  assert (Hvb : match getAttribute "viewBox" e with
                | Some v => (v =? "0 0 22 22")%string
                | None => false
                end && (2 <=? length (querySelectorAllTag "path" e))%nat = true
                <-> getAttribute "viewBox" e = Some "0 0 22 22" /\
                    (2 <= length (querySelectorAllTag "path" e))%nat).
  { rewrite andb_true_iff, Nat.leb_le.
    destruct (getAttribute "viewBox" e) as [v|].
    - rewrite String.eqb_eq. split; intros [H1 H2]; split; congruence.
    - split; intros [H1 H2]; discriminate. }
  destruct (truthy label && existsb (fun kw => includes kw label) VERIFIED_KEYWORDS).
  - split; [intros _; split; [reflexivity | left; apply Hkw; reflexivity] | reflexivity].
  - match goal with |- context [if ?c then _ else _] => destruct c end.
    + split; [intros _; split; [reflexivity | right; apply Hvb; reflexivity] | reflexivity].
    + split; [discriminate|].
      intros [_ [H|H]]; [apply Hkw in H | apply Hvb in H]; discriminate.
Qed.

(** ** The decision *)

(** C9: with suppression switched off the decision is none at once, for
    whatever the element holds, and even for no element at all. *)
Theorem getBlockBadgeType_disabled (element : nat) (st : State) :
  enabled (settings st) = false ->
  getBlockBadgeType element st = (None, st).
Proof.
  intros H. unfold getBlockBadgeType. rewrite run_bind. cbn. rewrite H. reflexivity.
Qed.

Lemma getBlockBadgeType_readonly (element : nat) :
  respects eq (getBlockBadgeType element).
Proof.
  unfold getBlockBadgeType. repeat respects_step.
Qed.

Lemma getBlockBadgeType_exec (element : nat) (st : State) :
  exec (getBlockBadgeType element) st = st.
Proof. symmetry. apply getBlockBadgeType_readonly. Qed.

Lemma processElement_unfold (element : nat) (st : State) (c : Container) :
  containers st !! element = Some c ->
  processedAttr c = false ->
  let st1 := set_containers (alter markProcessed element (containers st)) st in
  exec (processElement element) st =
  match eval (getBlockBadgeType element) st1 with
  | Some t =>
      set_hiddenCount (hiddenCount st1 + 1)
        (set_containers (alter (hideContainer t) element (containers st1)) st1)
  | None => st1
  end.
Proof.
  intros Hc Hp st1. unfold processElement.
  rewrite exec_bind, eval_gets, exec_gets, Hc, Hp.
  rewrite exec_bind. unfold updContainer at 1. rewrite exec_modify. fold st1.
  rewrite exec_bind.
  rewrite (getBlockBadgeType_exec element st1).
  destruct (eval (getBlockBadgeType element) st1) as [t|]; [|reflexivity].
  rewrite exec_bind. reflexivity.
Qed.

Lemma processElement_processed (element : nat) (st : State) (c : Container) :
  containers st !! element = Some c ->
  processedAttr c = true ->
  exec (processElement element) st = st.
Proof.
  intros Hc Hp. unfold processElement.
  rewrite exec_bind, eval_gets, exec_gets, Hc, Hp. reflexivity.
Qed.

Lemma eval_getBlockBadgeType (element : nat) (st : State) :
  eval (getBlockBadgeType element) st =
  if negb (enabled (settings st)) then None
  else match containers st !! element with
       | Some c => decisionFor st c
       | None => None
       end.
Proof.
  unfold getBlockBadgeType. rewrite eval_bind, eval_gets, exec_gets.
  destruct (negb (enabled (settings st))); [reflexivity|].
  rewrite eval_bind, eval_gets, exec_gets.
  destruct (containers st !! element) as [c|]; [|reflexivity].
  unfold decisionFor.
  destruct (badgeLoop (withinStatusLink c) (querySvgs (containerNodes c))) as [t|];
    [|reflexivity].
  repeat match goal with
         | |- eval (if ?b then _ else _) _ = (if ?b then _ else _) =>
             destruct b; [reflexivity|]
         end.
  rewrite eval_bind, eval_gets, exec_gets. cbv zeta.
  match goal with
  | |- eval (if ?b then _ else _) _ = (if ?b then _ else _) =>
      destruct b; [reflexivity|]
  end.
  rewrite eval_bind, eval_gets, exec_gets.
  match goal with
  | |- eval (if ?b then _ else _) _ = (if ?b then _ else _) =>
      destruct b; reflexivity
  end.
Qed.

Lemma badgeLoop_find (outer : bool) (svgs : list (Node * list Node)) :
  badgeLoop outer svgs =
  match List.find (recognised outer) svgs with
  | Some p => getBadgeColorType (fst p)
  | None => None
  end.
Proof.
  induction svgs as [|[svg anc] rest IH]; [reflexivity|].
  cbn [badgeLoop List.find]. unfold recognised at 1, qualifies. cbn [fst snd].
  destruct (isVerifiedBadge svg); cbn [negb andb]; [|exact IH].
  destruct (closestStatusLink outer svg anc); cbn [negb andb]; [exact IH|].
  destruct (getBadgeColorType svg) as [t|] eqn:Ht; [|exact IH].
  cbn [fst]. symmetry. exact Ht.
Qed.

Lemma walk_document_order (anc : list Node) (tag : string)
    (attrs : list (string * string)) (c : option (Z * Z * Z)) (kids : list Node) :
  walk anc (Element tag attrs c kids) =
  (Element tag attrs c kids, anc) ::
  List.flat_map (walk (Element tag attrs c kids :: anc)) kids.
Proof.
  reflexivity.
Qed.

(** C1, as the code has it: the loop runs over the container's svg
    descendants in document order (an element before its descendants,
    siblings left to right) and stops at the first one that is a badge, lies
    in no permalink-shaped link and has a recognised colour; a qualifying
    badge of unrecognised colour is passed over like any other element.  The
    decision is none when there is no such element, and otherwise is none or
    that element's tier. *)
Theorem getBlockBadgeType_first_recognised (element : nat) (st : State) (c : Container) :
  containers st !! element = Some c ->
  let svgs := querySvgs (containerNodes c) in
  let found := List.find (recognised (withinStatusLink c)) svgs in
  svgs = List.filter (fun p => hasTag "svg" (fst p)) (List.flat_map (walk []) (containerNodes c)) /\
  badgeLoop (withinStatusLink c) svgs =
    match found with
    | Some p => getBadgeColorType (fst p)
    | None => None
    end /\
  (found = None -> eval (getBlockBadgeType element) st = None) /\
  (forall t, eval (getBlockBadgeType element) st = Some t ->
     exists p, found = Some p /\ getBadgeColorType (fst p) = Some t).
Proof.
  intros Hc svgs found.
  split; [reflexivity|].
  split; [apply badgeLoop_find|].
  rewrite eval_getBlockBadgeType, Hc.
  destruct (negb (enabled (settings st)));
    [split; [reflexivity | intros t; discriminate]|].
  unfold decisionFor. fold svgs. rewrite badgeLoop_find. fold found.
  split.
  - intros ->. reflexivity.
  - intros t. destruct found as [p|]; [|discriminate].
    destruct (getBadgeColorType (fst p)) as [t'|] eqn:Ht; [|discriminate].
    intros H. exists p. split; [reflexivity|].
    repeat match type of H with
           | (if ?b then _ else _) = _ => destruct b; [discriminate|]
           end.
    congruence.
Qed.

Lemma matchProfilePath_nonempty (s h : string) :
  matchProfilePath s = Some h -> h <> "".
Proof.
  unfold matchProfilePath.
  destruct s as [|a s]; [discriminate|].
  destruct (Ascii.eqb_spec a "/") as [->|Hne].
  - destruct ((1 <=? String.length s)%nat && (String.length s <=? 15)%nat &&
              allChars isHandleChar s) eqn:E; [|discriminate].
    intros [= <-]. intros ->. discriminate.
  - destruct a as [[] [] [] [] [] [] [] []]; try discriminate.
    congruence.
Qed.

Section Identity.

(** Lower-casing maps every character to at least one character, so it
    leaves no non-empty string empty. *)
Hypothesis toLowerCase_nonempty : forall s, s <> "" -> toLowerCase s <> "".

Lemma firstProfileLink_truthy (links : list Node) (u : string) :
  firstProfileLink links = Some u -> truthy u = true.
Proof.
  induction links as [|link rest IH]; [discriminate|].
  cbn [firstProfileLink].
  destruct (getAttribute "href" link) as [href|]; [|exact IH].
  destruct (negb (truthy href)); [exact IH|].
  destruct (matchProfilePath href) as [m1|] eqn:Hm; [|exact IH].
  intros [= <-]. apply matchProfilePath_nonempty in Hm.
  apply toLowerCase_nonempty in Hm. unfold truthy.
  destruct (String.eqb_spec (toLowerCase m1) ""); [contradiction | reflexivity].
Qed.

(** C2: a container whose identity can be extracted and is in the
    allow-list or in the follow cache is never suppressed, whatever its
    badge and whatever the toggles say. *)
Theorem getBlockBadgeType_exempt (element : nat) (st : State) (c : Container) (I : string) :
  containers st !! element = Some c ->
  extractUsername (containerNodes c) = Some I ->
  I ∈ whitelistSet st \/ I ∈ followedUsersSet st ->
  eval (getBlockBadgeType element) st = None.
Proof.
  intros Hc Hu Hin.
  rewrite eval_getBlockBadgeType, Hc.
  destruct (negb (enabled (settings st))); [reflexivity|].
  unfold decisionFor.
  destruct (badgeLoop (withinStatusLink c) (querySvgs (containerNodes c))) as [t|];
    [|reflexivity].
  repeat match goal with
         | |- (if ?b then None else _) = None => destruct b eqn:?; [reflexivity|]
         end.
  exfalso. cbv zeta in *. rewrite Hu in *.
  pose proof (firstProfileLink_truthy _ _ Hu) as Ht.
  cbn [usernameTruthy] in *. rewrite Ht in *. cbn [andb] in *.
  destruct Hin as [Hin|Hin].
  - rewrite bool_decide_eq_true_2 in * by exact Hin. discriminate.
  - match goal with H : bool_decide (I ∈ followedUsersSet st) = false |- _ =>
      rewrite bool_decide_eq_true_2 in H by exact Hin; discriminate
    end.
Qed.

End Identity.

(** C10: the decision reads and never writes: whatever the element and
    the state, the state after [getBlockBadgeType] is the state before.  The
    writes are in [processElement], which on an unprocessed container sets
    the processed marker and, when the decision names a tier, replaces the
    content and adds one to the hidden count. *)
Theorem getBlockBadgeType_pure (element : nat) (st : State) :
  exec (getBlockBadgeType element) st = st /\
  (forall c, containers st !! element = Some c -> processedAttr c = false ->
     let st' := exec (processElement element) st in
     match eval (getBlockBadgeType element) st with
     | Some t =>
         containers st' !! element = Some (hideContainer t (markProcessed c)) /\
         hiddenCount st' = hiddenCount st + 1
     | None =>
         containers st' !! element = Some (markProcessed c) /\
         hiddenCount st' = hiddenCount st
     end).
Proof.
  split; [apply getBlockBadgeType_exec|].
  intros c Hc Hp st'. subst st'.
  rewrite (processElement_unfold _ _ _ Hc Hp). cbv zeta.
  assert (Hl : alter markProcessed element (containers st) !! element = Some (markProcessed c)).
  { rewrite list_lookup_alter_eq, Hc. reflexivity. }
  assert (He : eval (getBlockBadgeType element)
                 (set_containers (alter markProcessed element (containers st)) st)
               = eval (getBlockBadgeType element) st).
  { rewrite !eval_getBlockBadgeType. cbn [settings set_containers containers].
    rewrite Hl, Hc. reflexivity. }
  rewrite He.
  destruct (eval (getBlockBadgeType element) st) as [t|].
  - cbn [containers set_containers set_hiddenCount hiddenCount].
    split; [|reflexivity].
    rewrite list_lookup_alter_eq, Hl. reflexivity.
  - cbn [containers set_containers hiddenCount]. split; [exact Hl | reflexivity].
Qed.

(** ** Hide and restore *)

Lemma exec_updContainer (i : nat) (f : Container -> Container) (st : State) :
  exec (updContainer i f) st = set_containers (alter f i (containers st)) st.
Proof. reflexivity. Qed.

Lemma truthy_or_empty (p : string) : (if truthy p then p else "") = p.
Proof. destruct p; reflexivity. Qed.

Lemma restore_hide (badgeType : BadgeType) (c : Container) :
  restoreContainer (hideContainer badgeType c) =
  {| testid := testid c;
     withinStatusLink := withinStatusLink c;
     processedAttr := processedAttr c;
     replacedAttr := false;
     containerNodes := containerNodes c;
     stylePadding := stylePadding c;
     _blockBlueOriginal := None;
     _blockBlueOriginalPadding := None |}.
Proof.
  unfold restoreContainer, hideContainer. cbn.
  rewrite truthy_or_empty. reflexivity.
Qed.

(** C5: hiding a container and restoring it at once gives back the
    children it had, in their order, and the inline padding it had; the
    replaced marker is cleared and the two properties hung on the element
    are gone.  In between the placeholder bar is the container's only child.
    Nothing else in the state changes. *)
Theorem hide_restore_roundtrip (element : nat) (badgeType : BadgeType)
    (st : State) (c : Container) :
  containers st !! element = Some c ->
  let hidden := exec (replaceWithPlaceholder element badgeType) st in
  let st' := exec (restoreElement element) hidden in
  (exists h, containers hidden !! element = Some h /\
     containerNodes h = [placeholderBar badgeType] /\
     replacedAttr h = true /\
     _blockBlueOriginal h = Some (containerNodes c)) /\
  (exists c', containers st' !! element = Some c' /\
     containerNodes c' = containerNodes c /\
     stylePadding c' = stylePadding c /\
     replacedAttr c' = false /\
     _blockBlueOriginal c' = None /\
     _blockBlueOriginalPadding c' = None /\
     processedAttr c' = processedAttr c) /\
  (forall j, j <> element -> containers st' !! j = containers st !! j) /\
  st' = set_containers (containers st') st.
Proof.
  intros Hc hidden st'. subst hidden st'.
  unfold replaceWithPlaceholder, restoreElement. rewrite !exec_updContainer.
  cbn [containers set_containers].
  split; [|split; [|split]].
  - exists (hideContainer badgeType c).
    rewrite list_lookup_alter_eq, Hc. repeat split.
  - eexists. rewrite !list_lookup_alter_eq, Hc. cbn [fmap option_fmap option_map].
    rewrite restore_hide. repeat split.
  - intros j Hj. rewrite !list_lookup_alter_ne by congruence. reflexivity.
  - reflexivity.
Qed.

(** ** The follow cache *)

(** Close a [respects] goal: walk the computation, and settle each write
    with [tac]. *)
Ltac respects_walk tac :=
  repeat first
    [ respects_step
    | apply respects_modify; intros ?; tac ].

Ltac unfold_script :=
  unfold rescanAll, rescanReset, handleMutations, periodicRescan, processTree,
    processElement, replaceWithPlaceholder, restoreElement, updContainer,
    startObserver, stopObserver, scanPageForFollowedUsers, isOnFollowingTab,
    markIfFound, markAsFollowed, debouncedSaveFollowedUsers,
    debouncedSaveHiddenCount, setTimeout, clearTimeout, loadSettings,
    getBlockBadgeType.

Lemma markAsFollowed_grows (username : string) :
  respects followGrows (markAsFollowed username).
Proof.
  unfold_script. respects_walk ltac:(unfold followGrows; cbn; tidy; set_solver).
Qed.

Lemma scanPageForFollowedUsers_grows :
  respects followGrows scanPageForFollowedUsers.
Proof.
  unfold_script. respects_walk ltac:(unfold followGrows; cbn; tidy; set_solver).
Qed.

Lemma loadSettings_grows (result : StoredSettings) (followedUsers : option (list string)) :
  respects followGrows (loadSettings result followedUsers).
Proof.
  unfold_script. respects_walk ltac:(unfold followGrows; cbn; tidy; set_solver).
Qed.

Lemma rescanAll_grows : respects followGrows rescanAll.
Proof.
  unfold_script. respects_walk ltac:(unfold followGrows; cbn; set_solver).
Qed.

Lemma handleMutations_grows (mutations : list (list AddedNode)) :
  respects followGrows (handleMutations mutations).
Proof.
  unfold_script. respects_walk ltac:(unfold followGrows; cbn; set_solver).
Qed.

Lemma markAsFollowed_known (username : string) (st : State) :
  username ∈ followedUsersSet st -> exec (markAsFollowed username) st = st.
Proof.
  intros H. unfold markAsFollowed.
  rewrite exec_bind, eval_gets, exec_gets, (bool_decide_eq_true_2 _ H), orb_true_r.
  reflexivity.
Qed.

Lemma markAsFollowed_new (username : string) (st : State) :
  truthy username = true ->
  username ∉ followedUsersSet st ->
  exec (markAsFollowed username) st =
  set_followedSaveTimer (Some (nextTimerId st))
    (set_timers
       ({| timerId := nextTimerId st; timerDelay := 2000; timerJob := SaveFollowedUsers |} ::
        match followedSaveTimer st with
        | Some id => List.filter (fun t => negb (timerId t =? id)%positive) (timers st)
        | None => timers st
        end)
       (Pos.succ (nextTimerId st))
       (set_followedUsersSet ({[username]} ∪ followedUsersSet st) st)).
Proof.
  intros Ht Hn. unfold markAsFollowed.
  rewrite exec_bind, eval_gets, exec_gets, Ht, (bool_decide_eq_false_2 _ Hn).
  cbn [negb orb]. rewrite exec_bind, exec_modify.
  unfold debouncedSaveFollowedUsers.
  rewrite exec_bind, eval_gets, exec_gets. cbn [followedSaveTimer set_followedUsersSet].
  destruct (followedSaveTimer st) as [id|]; reflexivity.
Qed.

(** C7: the follow cache only grows: under [markAsFollowed],
    [scanPageForFollowedUsers], [loadSettings] and [rescanAll] every
    identity cached before is cached after.  [markAsFollowed] leaves the
    state alone for a cached identity; a new (non-empty) one it adds, and it
    cancels the pending persist timer, if any, and arms a fresh one of
    2000 ms that [followedSaveTimer] then names. *)
Theorem followCache_monotone (st : State) :
  (forall u, followedUsersSet st ⊆ followedUsersSet (exec (markAsFollowed u) st)) /\
  followedUsersSet st ⊆ followedUsersSet (exec scanPageForFollowedUsers st) /\
  (forall result followedUsers,
     followedUsersSet st ⊆ followedUsersSet (exec (loadSettings result followedUsers) st)) /\
  followedUsersSet st ⊆ followedUsersSet (exec rescanAll st) /\
  (forall u, u ∈ followedUsersSet st -> exec (markAsFollowed u) st = st) /\
  (forall u, truthy u = true -> u ∉ followedUsersSet st ->
     let st' := exec (markAsFollowed u) st in
     followedUsersSet st' = {[u]} ∪ followedUsersSet st /\
     followedSaveTimer st' = Some (nextTimerId st) /\
     timers st' =
       {| timerId := nextTimerId st; timerDelay := 2000; timerJob := SaveFollowedUsers |} ::
       match followedSaveTimer st with
       | Some id => List.filter (fun t => negb (timerId t =? id)%positive) (timers st)
       | None => timers st
       end).
Proof.
  split; [intros u; apply markAsFollowed_grows|].
  split; [apply scanPageForFollowedUsers_grows|].
  split; [intros r f; apply loadSettings_grows|].
  split; [apply rescanAll_grows|].
  split; [intros u; apply markAsFollowed_known|].
  intros u Ht Hn st'. subst st'. rewrite (markAsFollowed_new _ _ Ht Hn).
  repeat split.
Qed.

(** ** Markers *)

Lemma timerFrame_preorder : PreOrder timerFrame.
Proof.
  split.
  - intros st. unfold timerFrame. tauto.
  - intros a b c. unfold timerFrame. intuition congruence.
Qed.

Lemma keepsInv_preorder : PreOrder keepsInv.
Proof. split; [intros st H; exact H | intros a b c Hab Hbc H; auto]. Qed.

Lemma processedGrows_preorder : PreOrder processedGrows.
Proof.
  split.
  - intros st. split; [reflexivity | auto].
  - intros a b c [Hl1 H1] [Hl2 H2]. split; [congruence | auto].
Qed.

Lemma keepsAt_preorder (i : nat) (c : Container) : PreOrder (keepsAt i c).
Proof. split; [intros st H; exact H | intros a b d Hab Hbd H; auto]. Qed.

#[local] Existing Instance timerFrame_preorder.
#[local] Existing Instance keepsInv_preorder.
#[local] Existing Instance processedGrows_preorder.
#[local] Existing Instance keepsAt_preorder.

Lemma scanPageForFollowedUsers_frame : respects followFrame scanPageForFollowedUsers.
Proof.
  unfold_script. respects_walk ltac:(unfold followFrame; cbn; tidy; tauto).
Qed.

Lemma debouncedSaveHiddenCount_frame : respects timerFrame debouncedSaveHiddenCount.
Proof.
  unfold_script. respects_walk ltac:(unfold timerFrame; cbn; tauto).
Qed.

Lemma Inv_same_containers (st st' : State) :
  containers st' = containers st -> Inv st -> Inv st'.
Proof. unfold Inv. intros ->. auto. Qed.

Lemma scanPageForFollowedUsers_keepsInv : respects keepsInv scanPageForFollowedUsers.
Proof.
  intros st. unfold keepsInv. apply Inv_same_containers.
  apply (scanPageForFollowedUsers_frame st).
Qed.

Lemma debouncedSaveHiddenCount_keepsInv : respects keepsInv debouncedSaveHiddenCount.
Proof.
  intros st. unfold keepsInv. apply Inv_same_containers.
  apply (debouncedSaveHiddenCount_frame st).
Qed.

Lemma Inv_alter (f : Container -> Container) (i : nat) (st : State) :
  (forall c, containers st !! i = Some c -> containerOk c = true -> containerOk (f c) = true) ->
  Inv st -> Inv (set_containers (alter f i (containers st)) st).
Proof. unfold Inv. cbn [containers set_containers]. intros Hf H. apply Forall_alter; auto. Qed.

Lemma containerOk_markProcessed (c : Container) :
  containerOk c = true -> containerOk (markProcessed c) = true.
Proof.
  unfold containerOk, markProcessed. cbn.
  destruct (replacedAttr c), (processedAttr c), (_blockBlueOriginal c); auto.
Qed.

Lemma containerOk_restoreContainer (c : Container) :
  containerOk c = true -> containerOk (restoreContainer c) = true.
Proof.
  unfold restoreContainer. destruct (_blockBlueOriginal c); auto.
Qed.

Lemma containerOk_hideContainer (t : BadgeType) (c : Container) :
  processedAttr c = true -> containerOk (hideContainer t c) = true.
Proof. unfold containerOk, hideContainer. cbn. intros ->. reflexivity. Qed.

Lemma processElement_absent (element : nat) (st : State) :
  containers st !! element = None -> exec (processElement element) st = st.
Proof.
  intros Hc. unfold processElement.
  rewrite exec_bind, eval_gets, exec_gets, Hc. reflexivity.
Qed.

Lemma processElement_keepsInv (element : nat) : respects keepsInv (processElement element).
Proof.
  intros st HI.
  destruct (containers st !! element) as [c|] eqn:Hc;
    [|rewrite processElement_absent; auto].
  destruct (processedAttr c) eqn:Hp;
    [rewrite (processElement_processed _ _ _ Hc Hp); exact HI|].
  rewrite (processElement_unfold _ _ _ Hc Hp). cbv zeta.
  assert (HI1 : Forall (fun c => containerOk c = true)
                  (alter markProcessed element (containers st))).
  { apply Forall_alter; [exact HI|]. intros c' _. apply containerOk_markProcessed. }
  destruct (eval (getBlockBadgeType element) _) as [t|]; [|exact HI1].
  unfold Inv. cbn [containers set_hiddenCount set_containers].
  apply Forall_alter; [exact HI1|].
  intros c'. rewrite list_lookup_alter_eq, Hc. intros [= <-] _.
  apply containerOk_hideContainer. reflexivity.
Qed.

Lemma processTree_keepsInv (root : TreeRoot) : respects keepsInv (processTree root).
Proof.
  unfold processTree.
  repeat first [apply processElement_keepsInv | respects_step].
Qed.

Lemma restoreElement_keepsInv (element : nat) : respects keepsInv (restoreElement element).
Proof.
  intros st. unfold restoreElement, keepsInv. rewrite exec_updContainer.
  apply Inv_alter. intros c _. apply containerOk_restoreContainer.
Qed.

Lemma handleMutations_keepsInv (mutations : list (list AddedNode)) :
  respects keepsInv (handleMutations mutations).
Proof.
  unfold handleMutations.
  repeat first [ apply scanPageForFollowedUsers_keepsInv
               | apply debouncedSaveHiddenCount_keepsInv
               | apply processTree_keepsInv
               | respects_step ].
Qed.

Lemma set_containers_eta (st : State) (cs : list Container) :
  containers st = cs -> set_containers cs st = st.
Proof. intros <-. destruct st; reflexivity. Qed.

Lemma forEach_updContainer_positions (p : Container -> bool) (f : Container -> Container)
    (rest pre : list Container) (st : State) :
  containers st = (pre ++ rest)%list ->
  exec (forEach (fun i => updContainer i f) (positionsFrom p (length pre) rest)) st =
  set_containers (pre ++ ((fun c => if p c then f c else c) <$> rest))%list st.
Proof.
  revert pre st. induction rest as [|c rest IH]; intros pre st Hst.
  - cbn. symmetry. apply set_containers_eta. exact Hst.
  - cbn [positionsFrom fmap list_fmap]. destruct (p c) eqn:Hp.
    + cbn [forEach]. rewrite exec_bind, exec_updContainer, Hst.
      rewrite (alter_app_r_alt f pre (c :: rest) (length pre)) by lia.
      rewrite Nat.sub_diag. cbn [alter list_alter].
      specialize (IH (pre ++ [f c])%list
                     (set_containers (pre ++ f c :: rest)%list st)).
      rewrite length_app in IH. cbn [length] in IH.
      replace (length pre + 1)%nat with (S (length pre)) in IH by lia.
      rewrite IH by (cbn; rewrite <- app_assoc; reflexivity).
      rewrite <- app_assoc. reflexivity.
    + specialize (IH (pre ++ [c])%list st).
      rewrite length_app in IH. cbn [length] in IH.
      replace (length pre + 1)%nat with (S (length pre)) in IH by lia.
      rewrite IH by (rewrite <- app_assoc; exact Hst).
      rewrite <- app_assoc. reflexivity.
Qed.

Lemma forEach_updContainer_where (p : Container -> bool) (f : Container -> Container)
    (st : State) :
  exec (forEach (fun i => updContainer i f) (positionsWhere p (containers st))) st =
  set_containers ((fun c => if p c then f c else c) <$> containers st) st.
Proof. apply (forEach_updContainer_positions p f (containers st) [] st). reflexivity. Qed.

(** ** Full rescan *)

Lemma exec_rescanReset (st : State) :
  exec rescanReset st =
  set_hiddenCount 0
    (set_containers (resetContainer <$> containers st)
       (exec scanPageForFollowedUsers (set_onFollowingTab None st))).
Proof.
  unfold rescanReset.
  rewrite exec_bind, exec_modify, exec_bind.
  set (st2 := exec scanPageForFollowedUsers (set_onFollowingTab None st)).
  assert (H2 : containers st2 = containers st).
  { pose proof (scanPageForFollowedUsers_frame (set_onFollowingTab None st)) as F.
    unfold followFrame in F. fold st2 in F. cbn in F. tidy; tauto. }
  rewrite exec_bind, eval_gets, exec_gets, exec_bind.
  change restoreElement with (fun i => updContainer i restoreContainer).
  rewrite forEach_updContainer_where.
  match goal with |- context [set_containers ?cs st2] => set (st3 := set_containers cs st2) end.
  rewrite exec_bind, eval_gets, exec_gets, exec_bind.
  rewrite (forEach_updContainer_where processedAttr clearProcessed st3).
  rewrite exec_modify. subst st3. cbn [containers set_containers].
  rewrite H2, <- list_fmap_compose. reflexivity.
Qed.

Lemma rescanReset_containers (st : State) :
  containers (exec rescanReset st) = resetContainer <$> containers st.
Proof. rewrite exec_rescanReset. reflexivity. Qed.

Lemma rescanReset_settings (st : State) :
  settings (exec rescanReset st) = settings st.
Proof.
  rewrite exec_rescanReset. cbn [settings set_hiddenCount set_containers].
  pose proof (scanPageForFollowedUsers_frame (set_onFollowingTab None st)) as F.
  unfold followFrame in F. cbn in F. tidy; tauto.
Qed.

Lemma resetContainer_ok (c : Container) :
  containerOk c = true ->
  processedAttr (resetContainer c) = false /\
  replacedAttr (resetContainer c) = false /\
  _blockBlueOriginalPadding (resetContainer c) =
    (if replacedAttr c then None else _blockBlueOriginalPadding c) /\
  (replacedAttr c = true ->
     _blockBlueOriginal c = Some (containerNodes (resetContainer c)) /\
     _blockBlueOriginal (resetContainer c) = None) /\
  (replacedAttr c = false ->
     containerNodes (resetContainer c) = containerNodes c /\
     stylePadding (resetContainer c) = stylePadding c /\
     _blockBlueOriginal (resetContainer c) = _blockBlueOriginal c).
Proof.
  unfold containerOk, resetContainer, restoreContainer, clearProcessed.
  destruct c as [tid wsl pr rp nodes pad orig opad]. cbn.
  destruct rp, pr, orig; cbn; intros H; try discriminate; repeat split; congruence.
Qed.

Lemma rescanReset_Inv (st : State) : Inv st -> Inv (exec rescanReset st).
Proof.
  unfold Inv. rewrite rescanReset_containers. intros H.
  apply Forall_fmap. eapply Forall_impl; [exact H|].
  intros c Hc. cbn. destruct (resetContainer_ok c Hc) as (_ & Hr & _).
  unfold containerOk. rewrite Hr. reflexivity.
Qed.

Lemma rescanAll_split (st : State) :
  exec rescanAll st = exec rescanWalk (exec rescanReset st).
Proof. unfold rescanAll, rescanWalk. rewrite exec_bind. reflexivity. Qed.

Lemma rescanWalk_keepsInv : respects keepsInv rescanWalk.
Proof.
  unfold rescanWalk, startObserver, stopObserver.
  repeat first [ apply debouncedSaveHiddenCount_keepsInv
               | apply processTree_keepsInv
               | respects_step
               | apply respects_modify; intros ?; unfold keepsInv;
                 apply Inv_same_containers; reflexivity ].
Qed.

Lemma rescanAll_keepsInv : respects keepsInv rescanAll.
Proof.
  intros st HI. rewrite rescanAll_split.
  apply rescanWalk_keepsInv, rescanReset_Inv, HI.
Qed.

Lemma processElement_cases (element : nat) (st : State) :
  exec (processElement element) st = st \/
  exists c, containers st !! element = Some c /\ processedAttr c = false /\
    hiddenCount st <= hiddenCount (exec (processElement element) st) /\
    (containers (exec (processElement element) st) =
       alter markProcessed element (containers st) \/
     exists t, containers (exec (processElement element) st) =
       alter (hideContainer t) element (alter markProcessed element (containers st))).
Proof.
  destruct (containers st !! element) as [c|] eqn:Hc;
    [|left; apply processElement_absent; exact Hc].
  destruct (processedAttr c) eqn:Hp;
    [left; apply (processElement_processed _ _ _ Hc Hp)|].
  right. exists c. split; [reflexivity|]. split; [exact Hp|].
  rewrite (processElement_unfold _ _ _ Hc Hp). cbv zeta.
  destruct (eval (getBlockBadgeType element) _) as [t|].
  - cbn. split; [lia|]. right. exists t. reflexivity.
  - cbn. split; [lia|]. left. reflexivity.
Qed.

Lemma processElement_other (element j : nat) (st : State) :
  element <> j ->
  containers (exec (processElement element) st) !! j = containers st !! j.
Proof.
  intros Hne.
  destruct (processElement_cases element st) as [->|(c & _ & _ & _ & [->|[t ->]])];
    [reflexivity| |]; rewrite ?list_lookup_alter_ne by exact Hne; reflexivity.
Qed.

Lemma processElement_length (element : nat) (st : State) :
  length (containers (exec (processElement element) st)) = length (containers st).
Proof.
  destruct (processElement_cases element st) as [->|(c & _ & _ & _ & [->|[t ->]])];
    [reflexivity| |]; rewrite ?length_alter; reflexivity.
Qed.

Lemma processElement_marks (element : nat) (st : State) :
  (element < length (containers st))%nat ->
  processedAt element (exec (processElement element) st).
Proof.
  intros Hlt. apply lookup_lt_is_Some_2 in Hlt as [c Hc]. unfold processedAt.
  destruct (processedAttr c) eqn:Hp.
  - rewrite (processElement_processed _ _ _ Hc Hp). eauto.
  - rewrite (processElement_unfold _ _ _ Hc Hp). cbv zeta.
    destruct (eval (getBlockBadgeType element) _) as [t|];
      cbn [containers set_containers set_hiddenCount];
      rewrite ?list_lookup_alter_eq, Hc; cbn; eauto.
Qed.

Lemma processElement_processedGrows (element : nat) :
  respects processedGrows (processElement element).
Proof.
  intros st. split; [apply processElement_length|].
  intros j (c & Hc & Hp). destruct (decide (element = j)) as [->|Hne].
  - rewrite (processElement_processed _ _ _ Hc Hp). exists c. auto.
  - exists c. rewrite processElement_other by exact Hne. auto.
Qed.

Lemma forEach_processElement_marks (l : list nat) (st : State) (j : nat) :
  In j l -> (j < length (containers st))%nat ->
  processedAt j (exec (forEach processElement l) st).
Proof.
  revert st. induction l as [|x l IH]; intros st Hin Hlt; [destruct Hin|].
  cbn [forEach]. rewrite exec_bind.
  destruct (decide (x = j)) as [->|Hne].
  - apply (respects_forEach processedGrows processElement l
             processElement_processedGrows).
    apply processElement_marks. exact Hlt.
  - destruct Hin as [E|Hin]; [contradiction|].
    apply IH; [exact Hin|]. rewrite processElement_length. exact Hlt.
Qed.

Lemma processElement_keepsAt (element i : nat) (c : Container) :
  processedAttr c = true -> respects (keepsAt i c) (processElement element).
Proof.
  intros Hp st Hc. destruct (decide (element = i)) as [->|Hne].
  - rewrite (processElement_processed _ _ _ Hc Hp). exact Hc.
  - rewrite processElement_other by exact Hne. exact Hc.
Qed.

Lemma keepsAt_same_containers (i : nat) (c : Container) (st st' : State) :
  containers st' = containers st -> keepsAt i c st st'.
Proof. unfold keepsAt. intros ->. auto. Qed.

Lemma handleMutations_keepsAt (mutations : list (list AddedNode)) (i : nat) (c : Container) :
  processedAttr c = true -> respects (keepsAt i c) (handleMutations mutations).
Proof.
  intros Hp. unfold handleMutations, processTree.
  repeat first
    [ apply (processElement_keepsAt _ _ _ Hp)
    | (intros st; apply keepsAt_same_containers;
       first [ apply (scanPageForFollowedUsers_frame st)
             | apply (debouncedSaveHiddenCount_frame st) ])
    | respects_step ].
Qed.

Lemma Inv_replacedImpliesProcessed (st : State) :
  Inv st -> replacedImpliesProcessed st.
Proof.
  intros HI i c Hc Hr. pose proof (Forall_lookup_1 _ _ _ _ HI Hc) as Hok.
  unfold containerOk in Hok. rewrite Hr in Hok. cbn in Hok.
  apply andb_true_iff in Hok. tauto.
Qed.

Lemma Inv_fresh (st : State) :
  Forall (fun c => replacedAttr c = false) (containers st) -> Inv st.
Proof.
  unfold Inv. intros H. eapply Forall_impl; [exact H|].
  intros c Hc. cbn in Hc. unfold containerOk. rewrite Hc. reflexivity.
Qed.

Lemma periodicRescan_keepsInv : respects keepsInv periodicRescan.
Proof.
  unfold periodicRescan.
  repeat first [ apply scanPageForFollowedUsers_keepsInv
               | apply rescanAll_keepsInv
               | respects_step ].
Qed.

Lemma loadSettings_keepsInv (result : StoredSettings) (followedUsers : option (list string)) :
  respects keepsInv (loadSettings result followedUsers).
Proof.
  unfold loadSettings.
  respects_walk ltac:(unfold keepsInv; apply Inv_same_containers; reflexivity).
Qed.

Lemma initialScan_keepsInv : respects keepsInv initialScan.
Proof.
  unfold initialScan, startObserver.
  repeat first [ apply scanPageForFollowedUsers_keepsInv
               | apply debouncedSaveHiddenCount_keepsInv
               | apply processTree_keepsInv
               | respects_step
               | apply respects_modify; intros ?; unfold keepsInv;
                 apply Inv_same_containers; reflexivity ].
Qed.

Lemma handle_keepsInv (e : Event) : respects keepsInv (handle e).
Proof.
  destruct e; cbn [handle].
  - apply loadSettings_keepsInv.
  - apply initialScan_keepsInv.
  - apply handleMutations_keepsInv.
  - apply restoreElement_keepsInv.
  - apply rescanAll_keepsInv.
  - apply periodicRescan_keepsInv.
Qed.

Lemma containerOk_sameMarkers (c c' : Container) :
  sameMarkers c c' -> containerOk c = true -> containerOk c' = true.
Proof.
  unfold sameMarkers, containerOk. intros (-> & -> & -> & _). auto.
Qed.

Lemma pageStep_Inv (st st' : State) : pageStep st st' -> Inv st -> Inv st'.
Proof.
  unfold pageStep, Inv. intros (_ & H) HI.
  eapply Forall_impl; [exact H|]. cbn.
  intros c' [Hf|(c & Hin & Hm)].
  - unfold containerOk. rewrite Hf. reflexivity.
  - apply (containerOk_sameMarkers c c' Hm).
    rewrite Forall_forall in HI. apply HI, Hin.
Qed.

(** Every state the script can be in has every replaced container marked
    processed and holding its original children. *)
Lemma reachable_Inv (st : State) : reachable st -> Inv st.
Proof.
  induction 1 as [st H|st e _ IH|st st' _ IH Hp].
  - apply Inv_fresh. exact H.
  - apply handle_keepsInv, IH.
  - apply (pageStep_Inv st st' Hp IH).
Qed.

(** C4: the markers' invariant.  In every state the script reaches, every
    container marked replaced is also marked processed (and holds its
    original children).  From a state where that is so, it is so again after
    every call into the script and after each operation: [processElement],
    [restoreElement], [handleMutations], [rescanAll], and
    [replaceWithPlaceholder] where the script calls it, which is from
    [processElement] alone, on the container that has just been marked
    processed.  [processElement] leaves a replaced container alone, and only
    a restore takes the replaced marker off, so no container is hidden a
    second time without a restore in between; and [handleMutations] leaves
    every processed container exactly as it is, whereas the reset of a full
    rescan takes the markers off. *)
Theorem markers_invariant (st : State) :
  Inv st ->
  (forall s, reachable s -> Inv s /\ replacedImpliesProcessed s) /\
  replacedImpliesProcessed st /\
  (forall e, Inv (exec (handle e) st) /\
             replacedImpliesProcessed (exec (handle e) st)) /\
  (forall el, Inv (exec (processElement el) st) /\
              replacedImpliesProcessed (exec (processElement el) st)) /\
  (forall el, Inv (exec (restoreElement el) st) /\
              replacedImpliesProcessed (exec (restoreElement el) st)) /\
  (forall mutations, Inv (exec (handleMutations mutations) st) /\
                     replacedImpliesProcessed (exec (handleMutations mutations) st)) /\
  (Inv (exec rescanAll st) /\ replacedImpliesProcessed (exec rescanAll st)) /\
  (forall el c t, containers st !! el = Some c -> processedAttr c = false ->
     let st1 := set_containers (alter markProcessed el (containers st)) st in
     eval (getBlockBadgeType el) st1 = Some t ->
     exec (processElement el) st =
       set_hiddenCount (hiddenCount st + 1) (exec (replaceWithPlaceholder el t) st1) /\
     processedAt el st1 /\
     Inv (exec (replaceWithPlaceholder el t) st1) /\
     replacedImpliesProcessed (exec (replaceWithPlaceholder el t) st1)) /\
  (forall el t c, containers st !! el = Some c -> processedAttr c = true ->
     Inv (exec (replaceWithPlaceholder el t) st)) /\
  (forall el c, containers st !! el = Some c -> replacedAttr c = true ->
     exec (processElement el) st = st) /\
  (forall mutations el c, containers st !! el = Some c -> processedAttr c = true ->
     containers (exec (handleMutations mutations) st) !! el = Some c) /\
  (forall el c, containers st !! el = Some c ->
     exists c1, containers (exec rescanReset st) !! el = Some c1 /\
       processedAttr c1 = false /\ replacedAttr c1 = false).
Proof.
  intros HI.
  assert (both : forall s, Inv s -> Inv s /\ replacedImpliesProcessed s)
    by (intros s H; split; [exact H | apply Inv_replacedImpliesProcessed, H]).
  assert (hides : forall el t c s, Inv s -> containers s !! el = Some c ->
            processedAttr c = true -> Inv (exec (replaceWithPlaceholder el t) s)).
  { intros el t c s Hs Hc Hp. unfold replaceWithPlaceholder. rewrite exec_updContainer.
    apply Inv_alter; [|exact Hs].
    intros c'. rewrite Hc. intros [= <-] _. apply containerOk_hideContainer, Hp. }
  split; [intros s Hs; apply both, reachable_Inv, Hs|].
  split; [apply Inv_replacedImpliesProcessed, HI|].
  split; [intros e; apply both, handle_keepsInv, HI|].
  split; [intros el; apply both, processElement_keepsInv, HI|].
  split; [intros el; apply both, restoreElement_keepsInv, HI|].
  split; [intros mutations; apply both, handleMutations_keepsInv, HI|].
  split; [apply both, rescanAll_keepsInv, HI|].
  split; [|split; [|split; [|split]]].
  - intros el c t Hc Hp st1 Ht.
    assert (Hm : containers st1 !! el = Some (markProcessed c))
      by (unfold st1; cbn [containers set_containers];
          rewrite list_lookup_alter_eq, Hc; reflexivity).
    assert (H1 : Inv st1).
    { unfold st1. apply Inv_alter; [|exact HI].
      intros c' Hc' Hok. apply containerOk_markProcessed, Hok. }
    split.
    + rewrite (processElement_unfold _ _ _ Hc Hp). cbv zeta. fold st1. rewrite Ht.
      unfold replaceWithPlaceholder. rewrite exec_updContainer. reflexivity.
    + split; [exists (markProcessed c); split; [exact Hm | reflexivity]|].
      apply both. apply (hides el t (markProcessed c) st1 H1 Hm). reflexivity.
  - intros el t c Hc Hp. apply (hides el t c st HI Hc Hp).
  - intros el c Hc Hr. apply (processElement_processed _ _ _ Hc).
    apply (Inv_replacedImpliesProcessed st HI el c Hc Hr).
  - intros mutations el c Hc Hp.
    apply (handleMutations_keepsAt mutations el c Hp st Hc).
  - intros el c Hc. exists (resetContainer c).
    rewrite rescanReset_containers, list_lookup_fmap, Hc.
    split; [reflexivity|].
    pose proof (Forall_lookup_1 _ _ _ _ HI Hc) as Hok. cbn in Hok.
    destruct (resetContainer_ok c Hok) as (Hp & Hr & _). auto.
Qed.

(** C6: a full rescan first resets, then walks.  After the reset every
    container is unmarked, a container that was replaced has its held
    children back and holds nothing, one that was not replaced has its
    children untouched, and the hidden count is 0.  With suppression on the
    walk then processes every container of the document and the observer is
    (re)started; with suppression off nothing is walked and the observer is
    gone. *)
Theorem rescanAll_spec (st : State) :
  Inv st ->
  let st1 := exec rescanReset st in
  let st' := exec rescanAll st in
  st' = exec rescanWalk st1 /\
  length (containers st1) = length (containers st) /\
  (forall i c, containers st !! i = Some c ->
     exists c1, containers st1 !! i = Some c1 /\
       processedAttr c1 = false /\ replacedAttr c1 = false /\
       (replacedAttr c = true ->
          _blockBlueOriginal c = Some (containerNodes c1) /\
          _blockBlueOriginal c1 = None) /\
       (replacedAttr c = false -> containerNodes c1 = containerNodes c)) /\
  hiddenCount st1 = 0 /\
  (enabled (settings st) = true ->
     observer st' = true /\
     forall i, (i < length (containers st))%nat -> processedAt i st') /\
  (enabled (settings st) = false ->
     observer st' = false /\ containers st' = containers st1 /\ hiddenCount st' = 0).
Proof.
  intros HI st1 st'. subst st1 st'.
  split; [apply rescanAll_split|].
  split; [rewrite rescanReset_containers; apply length_fmap|].
  split.
  { intros i c Hc. exists (resetContainer c).
    rewrite rescanReset_containers, list_lookup_fmap, Hc.
    split; [reflexivity|].
    pose proof (Forall_lookup_1 _ _ _ _ HI Hc) as Hok. cbn in Hok.
    destruct (resetContainer_ok c Hok) as (Hp & Hr & _ & H1 & H2).
    repeat split; try assumption; try (apply H1; assumption).
    intros Hf. apply H2, Hf. }
  split; [rewrite exec_rescanReset; reflexivity|].
  rewrite rescanAll_split. set (st1 := exec rescanReset st).
  assert (Hs : settings st1 = settings st) by apply rescanReset_settings.
  assert (Hl : length (containers st1) = length (containers st))
    by (unfold st1; rewrite rescanReset_containers; apply length_fmap).
  unfold rescanWalk. rewrite exec_bind, eval_gets, exec_gets, Hs.
  split; intros Hen; rewrite Hen.
  - rewrite exec_bind, exec_bind, eval_gets, exec_gets, exec_bind.
    unfold startObserver. rewrite exec_modify.
    set (st2 := exec (processTree (documentBody st1)) st1).
    pose proof (debouncedSaveHiddenCount_frame (set_observer true st2)) as F.
    unfold timerFrame in F. cbn [observer containers set_observer] in F.
    destruct F as (_ & _ & _ & _ & Ho & _ & _ & _ & Hcs).
    split; [exact Ho|].
    intros i Hi. unfold processedAt. rewrite Hcs.
    unfold st2, processTree, documentBody. cbn [isHTMLElement rootContainers negb].
    apply forEach_processElement_marks; [apply in_seq|]; lia.
  - rewrite exec_bind. unfold stopObserver. rewrite exec_modify.
    pose proof (debouncedSaveHiddenCount_frame (set_observer false st1)) as F.
    unfold timerFrame in F. cbn [observer containers hiddenCount set_observer] in F.
    destruct F as (_ & _ & _ & Hh & Ho & _ & _ & _ & Hcs).
    split; [exact Ho|]. split; [exact Hcs|].
    rewrite Hh. unfold st1. rewrite exec_rescanReset. reflexivity.
Qed.

(** * Further properties of the code *)

(** ** Username extraction *)

Lemma matchProfilePath_spec (s h : string) :
  matchProfilePath s = Some h <-> s = String "/" h /\ isHandle h = true.
Proof.
  unfold matchProfilePath, isHandle. split.
  - destruct s as [|a s]; [discriminate|].
    destruct (Ascii.eqb_spec a "/") as [->|Hne].
    + destruct ((1 <=? String.length s)%nat && (String.length s <=? 15)%nat &&
                allChars isHandleChar s) eqn:E; [|discriminate].
      intros [= <-]. split; [reflexivity | exact E].
    + destruct a as [[] [] [] [] [] [] [] []]; try discriminate. congruence.
  - intros [-> H]. rewrite H. reflexivity.
Qed.

Lemma firstProfileLink_head (links : list Node) :
  firstProfileLink links = toLowerCase <$> head (omap linkHandle links).
Proof.
  induction links as [|link rest IH]; [reflexivity|].
  cbn [firstProfileLink omap list_omap]. unfold linkHandle at 1.
  destruct (getAttribute "href" link) as [href|]; cbn [mbind option_bind]; [|exact IH].
  destruct href as [|a href]; cbn [truthy negb String.eqb]; [exact IH|].
  destruct (matchProfilePath (String a href)); [reflexivity | exact IH].
Qed.

(** X1: [extractUsername] answers with the lower-cased handle of the first
    link, in document order, among the container's [a[role="link"][href]]
    whose [href] is exactly a slash followed by 1 to 15 letters, digits or
    underscores; links with any other [href] are passed over, and without
    such a link the answer is null. *)
Theorem extractUsername_first_match (kids : list Node) :
  let links := List.filter isRoleLink (fst <$> descendantsOf [] kids) in
  extractUsername kids = toLowerCase <$> head (omap linkHandle links) /\
  (forall link h, linkHandle link = Some h <->
     exists href, getAttribute "href" link = Some href /\
                  href = String "/" h /\ isHandle h = true) /\
  (extractUsername kids = None <-> forall link, link ∈ links -> linkHandle link = None).
Proof.
  intros links. split; [apply firstProfileLink_head|]. split.
  - intros link h. unfold linkHandle.
    destruct (getAttribute "href" link) as [href|]; cbn [mbind option_bind].
    + rewrite matchProfilePath_spec. split.
      * intros H. exists href. split; [reflexivity | exact H].
      * intros (href' & [= <-] & H). exact H.
    + split; [discriminate | intros (href & H & _); discriminate].
  - unfold extractUsername. fold links. rewrite firstProfileLink_head.
    destruct (omap linkHandle links) as [|h hs] eqn:E; cbn [head fmap option_fmap option_map].
    + split; [|reflexivity]. intros _ link Hin.
      destruct (linkHandle link) as [h|] eqn:Hl; [|reflexivity].
      assert (K : h ∈ omap linkHandle links) by (apply list_elem_of_omap; eauto).
      rewrite E in K. inversion K.
    + split; [discriminate|]. intros H.
      assert (K : h ∈ omap linkHandle links) by (rewrite E; left).
      apply list_elem_of_omap in K as (link & Hin & Hl).
      rewrite (H link Hin) in Hl. discriminate.
Qed.

(** ** The decision, in full *)

Lemma decisionFor_exempt (st : State) (c : Container) (u : string) :
  extractUsername (containerNodes c) = Some u ->
  truthy u = true ->
  u ∈ whitelistSet st \/ u ∈ followedUsersSet st ->
  decisionFor st c = None.
Proof.
  intros Hu Ht Hin. unfold decisionFor.
  destruct (badgeLoop _ _) as [t|]; [|reflexivity].
  repeat match goal with
         | |- (if ?b then None else _) = None => destruct b eqn:?; [reflexivity|]
         end.
  exfalso. cbv zeta in *. rewrite Hu in *. cbn [usernameTruthy] in *.
  rewrite Ht in *. cbn [andb] in *.
  destruct Hin as [Hin|Hin].
  - rewrite bool_decide_eq_true_2 in * by exact Hin. discriminate.
  - match goal with H : bool_decide (u ∈ followedUsersSet st) = false |- _ =>
      rewrite bool_decide_eq_true_2 in H by exact Hin; discriminate
    end.
Qed.

Lemma toggle_test (t : BadgeType) (s : Settings) :
  ((BadgeType_eqb t BLUE && negb (hideBlue s)) ||
   (BadgeType_eqb t GOLD && negb (hideGold s)) ||
   (BadgeType_eqb t GRAY && negb (hideGray s))) = negb (toggleFor t s).
Proof. destruct s as [e [] [] [] w], t; reflexivity. Qed.

Lemma decisionFor_iff (st : State) (c : Container) (t : BadgeType) :
  decisionFor st c = Some t <->
  badgeLoop (withinStatusLink c) (querySvgs (containerNodes c)) = Some t /\
  toggleFor t (settings st) = true /\
  (forall u, extractUsername (containerNodes c) = Some u -> truthy u = true ->
     (u ∉ whitelistSet st) /\ (u ∉ followedUsersSet st)).
Proof.
  unfold decisionFor.
  destruct (badgeLoop _ _) as [t'|]; [|split; [discriminate | intros [? _]; discriminate]].
  pose proof (toggle_test t' (settings st)) as Htg.
  destruct (BadgeType_eqb t' BLUE && negb (hideBlue (settings st))) eqn:E1;
    [|destruct (BadgeType_eqb t' GOLD && negb (hideGold (settings st))) eqn:E2;
      [|destruct (BadgeType_eqb t' GRAY && negb (hideGray (settings st))) eqn:E3]];
    cbn [orb] in Htg;
    try (split; [discriminate|]; intros ([= <-] & Ht & _);
         rewrite Ht in Htg; discriminate).
  apply (f_equal negb) in Htg. rewrite negb_involutive in Htg. cbn in Htg.
  cbv zeta.
  destruct (extractUsername (containerNodes c)) as [u|] eqn:Hu; cbn [usernameTruthy].
  - destruct (truthy u) eqn:Htr; cbn [andb].
    + destruct (bool_decide_reflect (u ∈ whitelistSet st)) as [Hw|Hw];
        [split; [discriminate|]; intros (_ & _ & H);
         destruct (H u eq_refl Htr); contradiction|].
      destruct (bool_decide_reflect (u ∈ followedUsersSet st)) as [Hf|Hf];
        [split; [discriminate|]; intros (_ & _ & H);
         destruct (H u eq_refl Htr); contradiction|].
      split.
      * intros [= <-]. split; [reflexivity|]. split; [congruence|].
        intros u' [= <-] _. split; assumption.
      * intros ([= <-] & _). reflexivity.
    + split.
      * intros [= <-]. split; [reflexivity|]. split; [congruence|].
        intros u' [= <-] K. congruence.
      * intros ([= <-] & _). reflexivity.
  - split.
    + intros [= <-]. split; [reflexivity|]. split; [congruence|]. intros u' K. discriminate.
    + intros ([= <-] & _). reflexivity.
Qed.

(** X2: the decision names a tier exactly when suppression is on, the
    element exists, the loop over its badges ends with that tier, the toggle
    of that tier is on, and the author, if one can be extracted, is in
    neither the allow-list nor the follow cache.  In particular a tier whose
    toggle is off is never returned, and a container without an extractable
    author is judged on tier and toggle alone. *)
Theorem getBlockBadgeType_iff (element : nat) (st : State) (t : BadgeType) :
  eval (getBlockBadgeType element) st = Some t <->
  enabled (settings st) = true /\
  exists c, containers st !! element = Some c /\
    badgeLoop (withinStatusLink c) (querySvgs (containerNodes c)) = Some t /\
    toggleFor t (settings st) = true /\
    (forall u, extractUsername (containerNodes c) = Some u -> truthy u = true ->
       (u ∉ whitelistSet st) /\ (u ∉ followedUsersSet st)).
Proof.
  rewrite eval_getBlockBadgeType.
  destruct (enabled (settings st)); cbn [negb];
    [|split; [discriminate | intros [? _]; discriminate]].
  destruct (containers st !! element) as [c|].
  - rewrite decisionFor_iff. split.
    + intros H. split; [reflexivity|]. exists c. split; [reflexivity | exact H].
    + intros (_ & c' & [= <-] & H). exact H.
  - split; [discriminate | intros (_ & c & K & _); discriminate].
Qed.

Lemma badgeLoop_all_skipped (outer : bool) (svgs : list (Node * list Node)) :
  (forall p, p ∈ svgs -> isVerifiedBadge (fst p) = true ->
     closestStatusLink outer (fst p) (snd p) = true) ->
  badgeLoop outer svgs = None.
Proof.
  induction svgs as [|[svg anc] rest IH]; intros H; [reflexivity|].
  cbn [badgeLoop].
  assert (IH' : badgeLoop outer rest = None).
  { apply IH. intros p Hp. apply H. right. exact Hp. }
  destruct (isVerifiedBadge svg) eqn:Hb; cbn [negb]; [|exact IH'].
  pose proof (H (svg, anc) ltac:(left) Hb) as K. cbn [fst snd] in K.
  rewrite K. exact IH'.
Qed.

(** X3: badges inside a permalink-shaped link never decide.  When every
    badge of the container has an [a[href*="/status/"]] among itself and its
    ancestors - inside the container or above it - the decision is none,
    whatever the colours and the settings; so a container that itself lies
    inside such a link is never suppressed. *)
Theorem getBlockBadgeType_quoted (element : nat) (st : State) (c : Container) :
  containers st !! element = Some c ->
  (withinStatusLink c = true \/
   forall p, p ∈ querySvgs (containerNodes c) -> isVerifiedBadge (fst p) = true ->
     existsb isStatusLink (fst p :: snd p) = true) ->
  eval (getBlockBadgeType element) st = None.
Proof.
  intros Hc H. rewrite eval_getBlockBadgeType, Hc.
  destruct (negb (enabled (settings st))); [reflexivity|].
  unfold decisionFor. rewrite badgeLoop_all_skipped; [reflexivity|].
  intros p Hp Hb. unfold closestStatusLink.
  destruct H as [->|H]; [apply orb_true_r|].
  rewrite (H p Hp Hb). reflexivity.
Qed.

(** ** Hiding, restoring and processing, once more *)

Lemma alter_same (f : Container -> Container) (i : nat) (cs : list Container) :
  (forall c, cs !! i = Some c -> f c = c) -> alter f i cs = cs.
Proof.
  intros H. apply list_eq. intros j. rewrite list_lookup_alter.
  destruct (decide (i = j)) as [<-|]; [|reflexivity].
  destruct (cs !! i) as [c|] eqn:E; [|reflexivity]. cbn. rewrite (H c eq_refl). reflexivity.
Qed.

Lemma restoreContainer_twice (c : Container) :
  restoreContainer (restoreContainer c) = restoreContainer c.
Proof. unfold restoreContainer. destruct (_blockBlueOriginal c) eqn:E; cbn; rewrite ?E; reflexivity. Qed.

(** X4: [restoreElement] does nothing to an element that holds no
    original content - whether it carries the replaced marker or not - and
    restoring twice is restoring once. *)
Theorem restoreElement_nothing_held (element : nat) (st : State) :
  (forall c, containers st !! element = Some c -> _blockBlueOriginal c = None ->
     exec (restoreElement element) st = st) /\
  exec (restoreElement element) (exec (restoreElement element) st) =
  exec (restoreElement element) st.
Proof.
  unfold restoreElement. rewrite !exec_updContainer. split.
  - intros c Hc Hn. apply set_containers_eta. symmetry. apply alter_same.
    intros c' Hc'. rewrite Hc in Hc'. injection Hc' as <-.
    unfold restoreContainer. rewrite Hn. reflexivity.
  - unfold set_containers. cbn. f_equal.
    rewrite list_alter_alter_eq. apply list_alter_ext; [|reflexivity].
    intros c _. apply restoreContainer_twice.
Qed.

(** X5: [replaceWithPlaceholder] has no guard of its own: called twice
    in a row it overwrites the held content with the first placeholder, and
    a restore then brings back that placeholder and nothing of the original
    children. *)
Theorem replaceWithPlaceholder_twice (element : nat) (t1 t2 : BadgeType)
    (st : State) (c : Container) :
  containers st !! element = Some c ->
  let twice := exec (replaceWithPlaceholder element t2)
                 (exec (replaceWithPlaceholder element t1) st) in
  (exists h, containers twice !! element = Some h /\
     _blockBlueOriginal h = Some [placeholderBar t1] /\
     containerNodes h = [placeholderBar t2]) /\
  (exists c', containers (exec (restoreElement element) twice) !! element = Some c' /\
     containerNodes c' = [placeholderBar t1] /\
     _blockBlueOriginal c' = None /\ replacedAttr c' = false).
Proof.
  intros Hc twice. subst twice.
  unfold replaceWithPlaceholder, restoreElement. rewrite !exec_updContainer.
  cbn [containers set_containers]. split.
  - eexists. rewrite !list_lookup_alter_eq, Hc. cbn. repeat split.
  - eexists. rewrite !list_lookup_alter_eq, Hc. cbn. repeat split.
Qed.

Lemma processFrame_preorder : PreOrder processFrame.
Proof.
  split.
  - intros st. unfold processFrame. tidy; tauto.
  - intros a b c. unfold processFrame. tidy; intuition congruence.
Qed.

#[local] Existing Instance processFrame_preorder.

Lemma processElement_frame (element : nat) : respects processFrame (processElement element).
Proof.
  unfold processElement, replaceWithPlaceholder, updContainer, getBlockBadgeType.
  respects_walk ltac:(unfold processFrame; cbn; tidy; tauto).
Qed.

Lemma processElement_hiddenCount (element : nat) (st : State) :
  hiddenCount st <= hiddenCount (exec (processElement element) st) <= hiddenCount st + 1.
Proof.
  destruct (containers st !! element) as [c|] eqn:Hc;
    [|rewrite (processElement_absent _ _ Hc); lia].
  destruct (processedAttr c) eqn:Hp;
    [rewrite (processElement_processed _ _ _ Hc Hp); lia|].
  rewrite (processElement_unfold _ _ _ Hc Hp). cbv zeta.
  destruct (eval (getBlockBadgeType element) _); cbn; lia.
Qed.

Lemma processElement_twice (element : nat) (st : State) :
  exec (processElement element) (exec (processElement element) st) =
  exec (processElement element) st.
Proof.
  destruct (containers st !! element) as [c|] eqn:Hc.
  - assert (Hlt : (element < length (containers st))%nat)
      by (apply lookup_lt_is_Some_1; eauto).
    destruct (processElement_marks element st Hlt) as (c' & Hc' & Hp').
    apply (processElement_processed _ _ _ Hc' Hp').
  - rewrite (processElement_absent _ _ Hc). apply processElement_absent, Hc.
Qed.

(** X6: [processElement] is local and idempotent.  It touches nothing but
    the container it is called on and the hidden count, which it raises by
    at most one; and a second call on the same element changes nothing. *)
Theorem processElement_local (element : nat) (st : State) :
  let st' := exec (processElement element) st in
  exec (processElement element) st' = st' /\
  processFrame st st' /\
  (forall j, j <> element -> containers st' !! j = containers st !! j) /\
  length (containers st') = length (containers st) /\
  hiddenCount st <= hiddenCount st' <= hiddenCount st + 1.
Proof.
  intros st'. subst st'.
  split; [apply processElement_twice|].
  split; [apply processElement_frame|].
  split; [intros j Hj; apply processElement_other; congruence|].
  split; [apply processElement_length|].
  apply processElement_hiddenCount.
Qed.

(** ** The hidden count *)

Lemma countReplaced_alter (f : Container -> Container) (cs : list Container) (i : nat)
    (c : Container) :
  cs !! i = Some c ->
  (countReplaced (alter f i cs) + (if replacedAttr c then 1 else 0) =
   countReplaced cs + (if replacedAttr (f c) then 1 else 0))%nat.
Proof.
  unfold countReplaced. revert i. induction cs as [|x cs IH]; intros [|i] H;
    try discriminate.
  - injection H as ->. cbn. destruct (replacedAttr c), (replacedAttr (f c)); cbn; lia.
  - cbn in H. specialize (IH i H). cbn. destruct (replacedAttr x); cbn; lia.
Qed.

Lemma countsTogether_preorder : PreOrder countsTogether.
Proof.
  split.
  - intros st HI. split; [exact HI | reflexivity].
  - intros a b c Hab Hbc HI. destruct (Hab HI) as [HIb Eb].
    destruct (Hbc HIb) as [HIc Ec]. split; [exact HIc | lia].
Qed.

#[local] Existing Instance countsTogether_preorder.

Lemma countsTogether_same (st st' : State) :
  containers st' = containers st -> hiddenCount st' = hiddenCount st ->
  countsTogether st st'.
Proof.
  intros Hc Hh HI. split; [apply (Inv_same_containers st st' Hc HI)|].
  rewrite Hc, Hh. reflexivity.
Qed.

Lemma processElement_countsTogether (element : nat) :
  respects countsTogether (processElement element).
Proof.
  intros st HI. split; [apply processElement_keepsInv, HI|].
  destruct (containers st !! element) as [c|] eqn:Hc;
    [|rewrite (processElement_absent _ _ Hc); reflexivity].
  destruct (processedAttr c) eqn:Hp;
    [rewrite (processElement_processed _ _ _ Hc Hp); reflexivity|].
  assert (Hr : replacedAttr c = false).
  { destruct (replacedAttr c) eqn:Hr; [|reflexivity].
    rewrite (Inv_replacedImpliesProcessed st HI element c Hc Hr) in Hp. discriminate. }
  rewrite (processElement_unfold _ _ _ Hc Hp). cbv zeta.
  pose proof (countReplaced_alter markProcessed (containers st) element c Hc) as K1.
  cbn [markProcessed replacedAttr] in K1. rewrite Hr in K1.
  destruct (eval (getBlockBadgeType element) _) as [t|];
    cbn [containers hiddenCount set_containers set_hiddenCount]; [|lia].
  assert (Hm : alter markProcessed element (containers st) !! element = Some (markProcessed c))
    by (rewrite list_lookup_alter_eq, Hc; reflexivity).
  pose proof (countReplaced_alter (hideContainer t) _ element _ Hm) as K2.
  cbn [markProcessed hideContainer replacedAttr] in K2. rewrite Hr in K2. lia.
Qed.

Lemma handleMutations_countsTogether (mutations : list (list AddedNode)) :
  respects countsTogether (handleMutations mutations).
Proof.
  unfold handleMutations, processTree.
  repeat first
    [ apply processElement_countsTogether
    | (intros st; apply countsTogether_same;
       first [ apply (scanPageForFollowedUsers_frame st)
             | apply (debouncedSaveHiddenCount_frame st) ])
    | respects_step ].
Qed.

Lemma rescanWalk_countsTogether : respects countsTogether rescanWalk.
Proof.
  unfold rescanWalk, processTree, startObserver, stopObserver.
  repeat first
    [ apply processElement_countsTogether
    | (intros st; apply countsTogether_same; apply (debouncedSaveHiddenCount_frame st))
    | respects_step
    | apply respects_modify; intros ?; apply countsTogether_same; reflexivity ].
Qed.

Lemma countReplaced_none (cs : list Container) :
  Forall (fun c => replacedAttr c = false) cs -> countReplaced cs = 0%nat.
Proof.
  unfold countReplaced. induction 1 as [|c cs Hc _ IH]; [reflexivity|].
  cbn. rewrite Hc. exact IH.
Qed.

Lemma rescanReset_zero (st : State) :
  Inv st ->
  hiddenCount (exec rescanReset st) = 0 /\
  countReplaced (containers (exec rescanReset st)) = 0%nat.
Proof.
  intros HI. split; [rewrite exec_rescanReset; reflexivity|].
  apply countReplaced_none. rewrite rescanReset_containers.
  apply Forall_fmap. eapply Forall_impl; [exact HI|].
  intros c Hc. cbn. apply (resetContainer_ok c Hc).
Qed.

(** X7: right after a full rescan the hidden count is the number of
    containers that show a placeholder (0 when suppression is off). *)
Theorem rescanAll_hiddenCount (st : State) :
  Inv st ->
  hiddenCount (exec rescanAll st) =
  Z.of_nat (countReplaced (containers (exec rescanAll st))).
Proof.
  intros HI. rewrite rescanAll_split.
  destruct (rescanWalk_countsTogether (exec rescanReset st) (rescanReset_Inv st HI))
    as [_ E].
  destruct (rescanReset_zero st HI) as [H0 Hn].
  rewrite H0, Hn in E. lia.
Qed.

(** X8: a batch of mutations counts every container it hides exactly
    once: the hidden count and the number of placeholders grow by the same
    amount, and neither shrinks. *)
Theorem handleMutations_counts (mutations : list (list AddedNode)) (st : State) :
  Inv st ->
  let st' := exec (handleMutations mutations) st in
  hiddenCount st' - hiddenCount st =
    Z.of_nat (countReplaced (containers st')) - Z.of_nat (countReplaced (containers st)) /\
  hiddenCount st <= hiddenCount st'.
Proof.
  intros HI st'. subst st'.
  destruct (handleMutations_countsTogether mutations st HI) as [_ E].
  split; [lia|].
  clear E HI. revert st.
  change (respects (fun a b => hiddenCount a <= hiddenCount b) (handleMutations mutations)).
  assert (P : PreOrder (fun a b : State => hiddenCount a <= hiddenCount b))
    by (split; [intros x; lia | intros x y z; lia]).
  unfold handleMutations, processTree.
  repeat first
    [ (intros st; apply (processElement_hiddenCount _ st))
    | (intros st;
       first [ rewrite (proj1 (proj2 (proj2 (scanPageForFollowedUsers_frame st))))
             | rewrite (proj1 (proj2 (proj2 (proj2 (debouncedSaveHiddenCount_frame st))))) ];
       lia)
    | respects_step ].
Qed.

(** ** Rescans and exempt authors *)

Lemma keepsShown_preorder (i : nat) (original : list Node) (u : string) :
  PreOrder (keepsShown i original u).
Proof. split; [intros st H; exact H | intros a b c Hab Hbc H; auto]. Qed.

#[local] Existing Instance keepsShown_preorder.

Lemma keepsShown_same (i : nat) (original : list Node) (u : string) (st st' : State) :
  containers st' = containers st -> whitelistSet st' = whitelistSet st ->
  followedUsersSet st' = followedUsersSet st ->
  keepsShown i original u st st'.
Proof. unfold keepsShown, shownExempt. intros -> -> ->. auto. Qed.

Lemma processElement_keepsShown (element i : nat) (original : list Node) (u : string) :
  extractUsername original = Some u -> truthy u = true ->
  respects (keepsShown i original u) (processElement element).
Proof.
  intros Hu Ht st (Hin & c & Hc & Hr & Hn).
  pose proof (processElement_frame element st) as F. unfold processFrame in F.
  destruct F as (_ & Fw & Ff & _).
  split; [rewrite Fw, Ff; exact Hin|].
  destruct (decide (element = i)) as [->|Hne];
    [|exists c; rewrite processElement_other by exact Hne; auto].
  destruct (processedAttr c) eqn:Hp;
    [rewrite (processElement_processed _ _ _ Hc Hp); eauto|].
  rewrite (processElement_unfold _ _ _ Hc Hp). cbv zeta.
  assert (Hm : alter markProcessed i (containers st) !! i = Some (markProcessed c))
    by (rewrite list_lookup_alter_eq, Hc; reflexivity).
  rewrite eval_getBlockBadgeType. cbn [settings containers set_containers].
  rewrite Hm.
  rewrite (decisionFor_exempt _ (markProcessed c) u);
    [| cbn [markProcessed containerNodes]; rewrite Hn; exact Hu | exact Ht | exact Hin].
  exists (markProcessed c).
  destruct (negb (enabled (settings st))); cbn [containers set_containers]; auto.
Qed.

Lemma rescanWalk_keepsShown (i : nat) (original : list Node) (u : string) :
  extractUsername original = Some u -> truthy u = true ->
  respects (keepsShown i original u) rescanWalk.
Proof.
  intros Hu Ht. unfold rescanWalk, processTree, startObserver, stopObserver.
  repeat first
    [ apply (processElement_keepsShown _ _ _ _ Hu Ht)
    | (intros st; apply keepsShown_same; apply (debouncedSaveHiddenCount_frame st))
    | respects_step
    | apply respects_modify; intros ?; apply keepsShown_same; reflexivity ].
Qed.

Lemma rescanReset_grows : respects followGrows rescanReset.
Proof.
  unfold_script. respects_walk ltac:(unfold followGrows; cbn; tidy; set_solver).
Qed.

Lemma rescanReset_whitelistSet (st : State) :
  whitelistSet (exec rescanReset st) = whitelistSet st.
Proof.
  rewrite exec_rescanReset. cbn [whitelistSet set_hiddenCount set_containers].
  pose proof (scanPageForFollowedUsers_frame (set_onFollowingTab None st)) as F.
  unfold followFrame in F. cbn in F. tidy; tauto.
Qed.

Lemma resetContainer_restores (c : Container) (original : list Node) :
  replacedAttr c = true -> _blockBlueOriginal c = Some original ->
  containerNodes (resetContainer c) = original /\ replacedAttr (resetContainer c) = false.
Proof.
  unfold resetContainer, restoreContainer, clearProcessed.
  intros -> ->. cbn. destruct (processedAttr c); cbn; auto.
Qed.

Lemma rescanAll_restores_exempt (i : nat) (st : State) (c : Container)
    (original : list Node) (u : string) :
  containers st !! i = Some c ->
  replacedAttr c = true ->
  _blockBlueOriginal c = Some original ->
  extractUsername original = Some u ->
  truthy u = true ->
  u ∈ whitelistSet st \/ u ∈ followedUsersSet st ->
  shownExempt i original u (exec rescanAll st).
Proof.
  intros Hc Hr Ho Hu Ht Hin. rewrite rescanAll_split.
  apply (rescanWalk_keepsShown i original u Hu Ht). split.
  - rewrite rescanReset_whitelistSet. destruct Hin as [Hin|Hin]; [left; exact Hin|].
    right. apply (rescanReset_grows st). exact Hin.
  - exists (resetContainer c). rewrite rescanReset_containers, list_lookup_fmap, Hc.
    destruct (resetContainer_restores c original Hr Ho) as [Hn Hr'].
    split; [reflexivity|]. split; assumption.
Qed.

(** X9: a full rescan brings back what an exemption now covers.  A
    container that shows a placeholder, and whose held content names an
    author who is by now in the allow-list or in the follow cache, shows its
    original children again after [rescanAll] and is not replaced. *)
Theorem rescanAll_unhides_exempt (i : nat) (st : State) (c : Container)
    (original : list Node) (u : string) :
  containers st !! i = Some c ->
  replacedAttr c = true ->
  _blockBlueOriginal c = Some original ->
  extractUsername original = Some u ->
  truthy u = true ->
  u ∈ whitelistSet st \/ u ∈ followedUsersSet st ->
  exists c', containers (exec rescanAll st) !! i = Some c' /\
    replacedAttr c' = false /\ containerNodes c' = original.
Proof.
  intros Hc Hr Ho Hu Ht Hin.
  apply (rescanAll_restores_exempt i st c original u Hc Hr Ho Hu Ht Hin).
Qed.

(** ** Settings *)

Lemma exec_forEach_add (us : list string) (st : State) :
  exec (forEach (fun u => modify (fun st => set_followedUsersSet
                                   ({[u]} ∪ followedUsersSet st) st)) us) st =
  set_followedUsersSet (list_to_set us ∪ followedUsersSet st) st.
Proof.
  revert st. induction us as [|u us IH]; intros st.
  - cbn [forEach]. rewrite list_to_set_nil, (left_id_L ∅ (∪)). destruct st; reflexivity.
  - cbn [forEach]. rewrite exec_bind, exec_modify, IH, list_to_set_cons.
    unfold set_followedUsersSet.
    cbn [settings whitelistSet followedUsersSet followedSaveTimer hiddenCount observer
         saveTimer _onFollowingTab contextValid timers nextTimerId page containers].
    f_equal. apply set_eq. intros x. rewrite !elem_of_union. tidy; tauto.
Qed.

Lemma exec_loadSettings (result : StoredSettings) (followedUsers : option (list string))
    (st : State) :
  exec (loadSettings result followedUsers) st =
  if contextValid st then
    let wl := match storedWhitelist result with Some l => l | None => [] end in
    set_followedUsersSet
      (list_to_set (match followedUsers with Some us => us | None => [] end) ∪
       followedUsersSet st)
      (set_hiddenCount (match storedHiddenCount result with Some n => n | None => 0 end)
         (set_whitelistSet (list_to_set (toLowerCase <$> wl))
            (set_settings {| enabled := storedEnabled result;
                             hideBlue := storedHideBlue result;
                             hideGold := storedHideGold result;
                             hideGray := storedHideGray result;
                             whitelist := wl |} st)))
  else st.
Proof.
  unfold loadSettings. rewrite exec_bind, eval_gets, exec_gets.
  destruct (contextValid st) eqn:Hv; cbn [negb]; [|reflexivity].
  rewrite !exec_bind, !exec_modify, eval_gets, exec_gets.
  cbn [contextValid set_hiddenCount set_whitelistSet set_settings]. rewrite Hv. cbn [negb].
  destruct followedUsers as [us|].
  - rewrite exec_forEach_add. reflexivity.
  - rewrite exec_ret, list_to_set_nil, (left_id_L ∅ (∪)).
    unfold set_followedUsersSet. reflexivity.
Qed.

(** ** What a rescan shows and what it hides *)

Lemma decisionFor_same (st st' : State) (c : Container) :
  settings st' = settings st -> whitelistSet st' = whitelistSet st ->
  followedUsersSet st' = followedUsersSet st ->
  decisionFor st' c = decisionFor st c.
Proof. intros Hs Hw Hf. unfold decisionFor. rewrite Hs, Hw, Hf. reflexivity. Qed.

Lemma decided_same (st st' : State) (c : Container) :
  processFrame st st' -> decided st' c = decided st c.
Proof.
  intros (Hs & Hw & Hf & _). unfold decided.
  rewrite (decisionFor_same st st' c Hs Hw Hf). reflexivity.
Qed.

Lemma decided_processed (st : State) (c : Container) :
  processedAttr (decided st c) = true.
Proof. unfold decided. destruct (decisionFor st c); reflexivity. Qed.

Lemma processElement_decides (i : nat) (st : State) (c : Container) :
  containers st !! i = Some c -> processedAttr c = false ->
  enabled (settings st) = true ->
  containers (exec (processElement i) st) !! i = Some (decided st c).
Proof.
  intros Hc Hp Hen. rewrite (processElement_unfold _ _ _ Hc Hp). cbv zeta.
  assert (Hm : alter markProcessed i (containers st) !! i = Some (markProcessed c))
    by (rewrite list_lookup_alter_eq, Hc; reflexivity).
  rewrite eval_getBlockBadgeType. cbn [settings containers set_containers].
  rewrite Hen, Hm. cbn [negb]. unfold decided.
  change (decisionFor (set_containers (alter markProcessed i (containers st)) st)
            (markProcessed c)) with (decisionFor st c).
  destruct (decisionFor st c) as [t|]; cbn [containers set_containers set_hiddenCount].
  - rewrite list_lookup_alter_eq, Hm. reflexivity.
  - exact Hm.
Qed.

Lemma forEach_processElement_decides (l : list nat) (st : State) (i : nat) (c : Container) :
  In i l -> containers st !! i = Some c -> processedAttr c = false ->
  enabled (settings st) = true ->
  containers (exec (forEach processElement l) st) !! i = Some (decided st c).
Proof.
  revert st. induction l as [|x l IH]; intros st Hin Hc Hp Hen; [destruct Hin|].
  cbn [forEach]. rewrite exec_bind.
  destruct (decide (x = i)) as [->|Hne].
  - apply (respects_forEach (keepsAt i (decided st c)) processElement l
             (fun e => processElement_keepsAt e i _ (decided_processed st c))).
    apply processElement_decides; assumption.
  - destruct Hin as [E|Hin]; [contradiction|].
    pose proof (processElement_frame x st) as F.
    rewrite <- (decided_same st _ c F).
    apply IH; [exact Hin | rewrite processElement_other by exact Hne; exact Hc
              | exact Hp | ].
    destruct F as (Hs & _). rewrite Hs. exact Hen.
Qed.

(** X25: after a full rescan every container is as the decision, taken
    with the settings and lists then in force on the container's own
    content, wants it.  With suppression on, each container is marked
    processed; it shows the placeholder of the decided tier and holds its own
    children when the decision names a tier, and shows its own children when
    the decision is none.  Its own children are those it held if it was
    replaced before the rescan, and those it showed otherwise. *)
Theorem rescanAll_decides (i : nat) (st : State) (c : Container) :
  Inv st ->
  enabled (settings st) = true ->
  containers st !! i = Some c ->
  let st' := exec rescanAll st in
  let own := if replacedAttr c then default [] (_blockBlueOriginal c)
             else containerNodes c in
  containerNodes (resetContainer c) = own /\
  exists c', containers st' !! i = Some c' /\ processedAttr c' = true /\
    match decisionFor st' (resetContainer c) with
    | Some t =>
        replacedAttr c' = true /\ containerNodes c' = [placeholderBar t] /\
        _blockBlueOriginal c' = Some own
    | None => replacedAttr c' = false /\ containerNodes c' = own
    end.
Proof.
  intros HI Hen Hc st' own.
  pose proof (Forall_lookup_1 _ _ _ _ HI Hc) as Hok. cbn in Hok.
  destruct (resetContainer_ok c Hok) as (Hp & Hr & _ & H1 & H2).
  assert (Hown : containerNodes (resetContainer c) = own).
  { subst own. destruct (replacedAttr c) eqn:E.
    - destruct (H1 eq_refl) as [-> _]. reflexivity.
    - apply (H2 eq_refl). }
  split; [exact Hown|].
  subst st'. rewrite rescanAll_split. set (st1 := exec rescanReset st).
  assert (Hs : settings st1 = settings st) by apply rescanReset_settings.
  assert (Hc1 : containers st1 !! i = Some (resetContainer c))
    by (unfold st1; rewrite rescanReset_containers, list_lookup_fmap, Hc; reflexivity).
  unfold rescanWalk. rewrite exec_bind, eval_gets, exec_gets, Hs, Hen.
  rewrite exec_bind, exec_bind, eval_gets, exec_gets, exec_bind.
  unfold startObserver. rewrite exec_modify.
  set (st2 := exec (processTree (documentBody st1)) st1).
  pose proof (debouncedSaveHiddenCount_frame (set_observer true st2)) as F.
  unfold timerFrame in F.
  cbn [settings whitelistSet followedUsersSet containers set_observer] in F.
  destruct F as (Fs & Fw & Ff & _ & _ & _ & _ & _ & Fc).
  assert (P : processFrame st1 st2).
  { unfold st2, processTree, documentBody. cbn [isHTMLElement rootContainers negb].
    apply (respects_forEach processFrame processElement _ processElement_frame). }
  assert (D : containers st2 !! i = Some (decided st1 (resetContainer c))).
  { unfold st2, processTree, documentBody. cbn [isHTMLElement rootContainers negb].
    apply forEach_processElement_decides; [|exact Hc1 | exact Hp | rewrite Hs; exact Hen].
    apply in_seq. apply lookup_lt_Some in Hc1. lia. }
  exists (decided st1 (resetContainer c)).
  rewrite Fc. split; [exact D|]. split; [apply decided_processed|].
  destruct P as (Ps & Pw & Pf & _).
  rewrite (decisionFor_same st1 _ (resetContainer c))
    by (first [rewrite Fs; exact Ps | rewrite Fw; exact Pw | rewrite Ff; exact Pf]).
  unfold decided.
  destruct (decisionFor st1 (resetContainer c)) as [t|];
    cbn [hideContainer markProcessed replacedAttr containerNodes _blockBlueOriginal].
  - rewrite Hown. auto.
  - rewrite Hown. auto.
Qed.

(** X10: what [loadSettings] leaves.  With the extension context gone it
    changes nothing.  Otherwise the four switches are the stored ones; the
    allow-list set holds exactly the lower-cased stored entries (none when
    the stored whitelist is no array); the hidden count is the stored number
    (0 when it is no number); the follow cache is what it was plus the stored
    identities; and the containers are untouched. *)
Theorem loadSettings_effect (result : StoredSettings) (followedUsers : option (list string))
    (st : State) :
  let st' := exec (loadSettings result followedUsers) st in
  (contextValid st = false -> st' = st) /\
  (contextValid st = true ->
     enabled (settings st') = storedEnabled result /\
     hideBlue (settings st') = storedHideBlue result /\
     hideGold (settings st') = storedHideGold result /\
     hideGray (settings st') = storedHideGray result /\
     (forall u, u ∈ whitelistSet st' <->
        exists w, w ∈ default [] (storedWhitelist result) /\ toLowerCase w = u) /\
     hiddenCount st' = default 0 (storedHiddenCount result) /\
     followedUsersSet st' = list_to_set (default [] followedUsers) ∪ followedUsersSet st /\
     containers st' = containers st).
Proof.
  intros st'. subst st'. rewrite exec_loadSettings.
  split; intros Hv; rewrite Hv; [reflexivity|]. cbv zeta.
  cbn [settings whitelistSet followedUsersSet hiddenCount containers
       set_followedUsersSet set_hiddenCount set_whitelistSet set_settings
       enabled hideBlue hideGold hideGray].
  do 4 (split; [reflexivity|]).
  split; [|split; [|split; [|reflexivity]]].
  - intros u. rewrite elem_of_list_to_set, list_elem_of_fmap. split.
    + intros (w & -> & Hw). exists w. destruct (storedWhitelist result); auto.
    + intros (w & Hw & <-). exists w. destruct (storedWhitelist result); auto.
  - destruct (storedHiddenCount result); reflexivity.
  - destruct followedUsers; reflexivity.
Qed.

Lemma reloadSettings_split (result : StoredSettings) (followedUsers : option (list string))
    (st : State) :
  exec (reloadSettings result followedUsers) st =
  exec rescanAll (exec (loadSettings result followedUsers) st).
Proof. unfold reloadSettings. rewrite exec_bind. reflexivity. Qed.

(** X11: an author newly allow-listed comes back at once.  When the
    settings are reloaded and rescanned (the storage listener, or the
    SETTINGS_CHANGED message), a container that shows a placeholder and
    whose held content names an author who, up to case, is an entry of the
    stored whitelist shows its original children again; a change that
    touches only [hiddenCount], or another storage area, leaves the state as
    it is. *)
Theorem onStorageChanged_allows (keys : list string) (area : string)
    (result : StoredSettings) (followedUsers : option (list string))
    (i : nat) (st : State) (c : Container) (original : list Node) (w : string) :
  (area <> "sync" \/ keys = ["hiddenCount"] ->
     exec (onStorageChanged keys area result followedUsers) st = st) /\
  (area = "sync" -> keys <> ["hiddenCount"] ->
   contextValid st = true ->
   containers st !! i = Some c ->
   replacedAttr c = true ->
   _blockBlueOriginal c = Some original ->
   w ∈ default [] (storedWhitelist result) ->
   extractUsername original = Some (toLowerCase w) ->
   truthy (toLowerCase w) = true ->
   exists c', containers (exec (onStorageChanged keys area result followedUsers) st) !! i
              = Some c' /\
     replacedAttr c' = false /\ containerNodes c' = original).
Proof.
  unfold onStorageChanged. split.
  - intros [Ha | ->].
    + destruct (String.eqb_spec area "sync"); [contradiction | reflexivity].
    + destruct (negb (area =? "sync")%string); reflexivity.
  - intros -> Hk Hv Hc Hr Ho Hw Hu Ht. cbn [String.eqb Ascii.eqb negb Bool.eqb].
    assert (E : ((length keys =? 1)%nat &&
                 match keys with
                 | k :: _ => (k =? "hiddenCount")%string
                 | [] => false
                 end) = false).
    { destruct keys as [|k [|k' ks]]; try reflexivity. cbn.
      destruct (String.eqb_spec k "hiddenCount"); [subst; contradiction | reflexivity]. }
    change ("sync" =? "sync")%string with true. cbn [negb]. rewrite E.
    rewrite reloadSettings_split.
    rewrite exec_loadSettings, Hv. cbv zeta.
    apply (rescanAll_restores_exempt i _ c original (toLowerCase w));
      try assumption.
    left. cbn [whitelistSet set_followedUsersSet set_hiddenCount set_whitelistSet].
    rewrite elem_of_list_to_set, list_elem_of_fmap.
    exists w. split; [reflexivity|]. destruct (storedWhitelist result); exact Hw.
Qed.

(** ** Discovering followed accounts *)

Lemma run_isOnFollowingTab (st : State) :
  eval isOnFollowingTab st = followingTabAnswer st /\
  exec isOnFollowingTab st = set_onFollowingTab (Some (followingTabAnswer st)) st.
Proof.
  unfold isOnFollowingTab, followingTabAnswer.
  rewrite eval_bind, exec_bind, eval_gets, exec_gets.
  destruct (_onFollowingTab st) as [b|] eqn:Hc.
  - split; [reflexivity|]. cbn. destruct st; cbn in *; subst; reflexivity.
  - rewrite eval_bind, exec_bind, eval_gets, exec_gets.
    destruct (isHomePath (pathname (page st))); cbn [negb andb]; [|split; reflexivity].
    rewrite eval_bind, exec_bind, eval_gets, exec_gets.
    destruct (existsb _ _); split; reflexivity.
Qed.

(** X24: the message listener.  GET_STATS is answered with the hidden
    count and the size of the follow cache as they are, and changes nothing.
    SETTINGS_CHANGED is answered with ok at once, before anything has
    changed: the reload it starts is still pending, so a GET_STATS that
    comes right after the answer reports the numbers as they were.  Once the
    pending reload has run it has done what a change of the store does, and
    from then on GET_STATS reports a hidden count that is the number of
    placeholders on the page.  Any other message is declined, changes
    nothing and leaves nothing pending. *)
Theorem onMessage_stats (result : StoredSettings) (followedUsers : option (list string))
    (st : State) :
  Inv st ->
  onMessage "GET_STATS" st = (Stats (hiddenCount st) (size (followedUsersSet st)), st) /\
  onMessage "SETTINGS_CHANGED" st = (Ok, st) /\
  eval (onMessage "SETTINGS_CHANGED" ;; onMessage "GET_STATS") st =
    Stats (hiddenCount st) (size (followedUsersSet st)) /\
  (let st1 := exec (onMessagePending "SETTINGS_CHANGED" result followedUsers) st in
   st1 = exec (onStorageChanged ["enabled"] "sync" result followedUsers) st /\
   onMessage "GET_STATS" st1 =
     (Stats (Z.of_nat (countReplaced (containers st1))) (size (followedUsersSet st1)),
      st1)) /\
  (forall type, type <> "GET_STATS" -> type <> "SETTINGS_CHANGED" ->
     onMessage type st = (NoReply, st) /\
     exec (onMessagePending type result followedUsers) st = st).
Proof.
  intros HI.
  split; [reflexivity|]. split; [reflexivity|]. split; [reflexivity|]. split.
  - cbv zeta.
    assert (E1 : exec (onMessagePending "SETTINGS_CHANGED" result followedUsers) st =
                 exec (reloadSettings result followedUsers) st) by reflexivity.
    rewrite E1. split; [reflexivity|].
    set (st1 := exec (reloadSettings result followedUsers) st).
    assert (Hc : hiddenCount st1 = Z.of_nat (countReplaced (containers st1))).
    { unfold st1. rewrite reloadSettings_split, rescanAll_split.
      pose proof (loadSettings_keepsInv result followedUsers st HI) as HL.
      set (s0 := exec (loadSettings result followedUsers) st) in *.
      destruct (rescanWalk_countsTogether (exec rescanReset s0) (rescanReset_Inv s0 HL))
        as [_ E].
      destruct (rescanReset_zero s0 HL) as [H0 Hn].
      rewrite H0, Hn in E. lia. }
    rewrite <- Hc. reflexivity.
  - intros type H1 H2. unfold onMessage, onMessagePending.
    destruct (String.eqb_spec type "GET_STATS") as [->|_]; [contradiction|].
    destruct (String.eqb_spec type "SETTINGS_CHANGED") as [->|_]; [contradiction|].
    split; reflexivity.
Qed.

(** X12: the answer of [isOnFollowingTab] sticks.  The first call
    stores its answer; from then on, whatever becomes of the page and its
    tabs, every call returns that stored answer and changes nothing, until
    the flag is reset.  Away from the home timeline the first answer is
    "no", whatever the tabs say. *)
Theorem isOnFollowingTab_cached (st : State) :
  let first := eval isOnFollowingTab st in
  let st1 := exec isOnFollowingTab st in
  _onFollowingTab st1 = Some first /\
  (forall pg, isOnFollowingTab (set_page pg st1) = (first, set_page pg st1)) /\
  (_onFollowingTab st = None -> isHomePath (pathname (page st)) = false -> first = false).
Proof.
  intros first st1. subst first st1.
  destruct (run_isOnFollowingTab st) as [-> ->].
  split; [reflexivity|]. split.
  - intros pg. unfold isOnFollowingTab. rewrite run_bind. reflexivity.
  - intros Hn Hh. unfold followingTabAnswer. rewrite Hn, Hh. reflexivity.
Qed.

Lemma marked_app (us vs : list string) : marked (us ++ vs) = marked us ∪ marked vs.
Proof. unfold marked. rewrite List.filter_app. apply list_to_set_app_L. Qed.

Lemma marked_nil : marked [] = ∅.
Proof. reflexivity. Qed.

Lemma marks_ret {A} (a : A) : marks [] (mret a : M A).
Proof.
  intros st. rewrite exec_ret, marked_nil, (right_id_L ∅ (∪)). repeat split.
Qed.

Lemma marks_gets {A} (f : State -> A) : marks [] (gets f).
Proof.
  intros st. rewrite exec_gets, marked_nil, (right_id_L ∅ (∪)). repeat split.
Qed.

Lemma marks_bind {A B} (us vs : list string) (m : M A) (k : A -> M B) :
  marks us m -> (forall a, marks vs (k a)) -> marks (us ++ vs) (m ≫= k).
Proof.
  intros Hm Hk st. rewrite exec_bind.
  destruct (Hm st) as (F1 & P1 & C1 & T1 & Q1).
  destruct (Hk (eval m st) (exec m st)) as (F2 & P2 & C2 & T2 & Q2).
  rewrite marked_app.
  split; [rewrite F2, F1; apply set_eq; intros x; rewrite !elem_of_union; tidy; tauto|].
  split; [congruence|]. split; [congruence|]. split; [congruence|].
  intros Hsub.
  assert (E : exec m st = st) by (apply Q1; tidy; set_solver).
  rewrite Q2; [exact E|]. rewrite E. tidy; set_solver.
Qed.

Lemma marks_forEach {X} (f : X -> list string) (body : X -> M unit) (xs : list X) :
  (forall x, marks (f x) (body x)) -> marks (concat (f <$> xs)) (forEach body xs).
Proof.
  intros Hb. induction xs as [|x xs IH].
  - apply (marks_ret tt).
  - cbn [forEach fmap list_fmap concat]. apply marks_bind; [apply Hb | intros _; exact IH].
Qed.

Lemma marks_markAsFollowed (username : string) : marks [username] (markAsFollowed username).
Proof.
  intros st. unfold marked. cbn [List.filter].
  destruct (truthy username) eqn:Ht.
  - rewrite list_to_set_cons, list_to_set_nil, (right_id_L ∅ (∪)).
    destruct (decide (username ∈ followedUsersSet st)) as [Hk|Hn].
    + rewrite (markAsFollowed_known _ _ Hk).
      split; [tidy; set_solver|]. repeat split.
    + rewrite (markAsFollowed_new _ _ Ht Hn).
      split; [cbn; apply set_eq; intros x; rewrite !elem_of_union; tidy; tauto|].
      split; [reflexivity|]. split; [reflexivity|]. split; [reflexivity|].
      intros Hs. exfalso. apply Hn. tidy; set_solver.
  - assert (E : exec (markAsFollowed username) st = st).
    { unfold markAsFollowed. rewrite exec_bind, eval_gets, exec_gets, Ht. reflexivity. }
    rewrite E, list_to_set_nil, (right_id_L ∅ (∪)). repeat split.
Qed.

Lemma marks_ext {A} (us vs : list string) (m : M A) :
  marked us = marked vs -> marks us m -> marks vs m.
Proof. intros E H st. rewrite <- E. apply H. Qed.

Lemma marks_markIfFound (username : option string) :
  marks (option_list username) (markIfFound username).
Proof.
  destruct username as [u|]; cbn [markIfFound option_list]; [|apply (marks_ret tt)].
  destruct (truthy u) eqn:Ht; [apply marks_markAsFollowed|].
  apply (marks_ext []); [|apply (marks_ret tt)].
  change (option_list (Some u)) with [u].
  unfold marked. cbn [List.filter]. rewrite Ht. reflexivity.
Qed.

Lemma concat_option_list {X Y} (g : X -> option Y) (xs : list X) :
  concat ((fun x => option_list (g x)) <$> xs) = omap g xs.
Proof.
  induction xs as [|x xs IH]; [reflexivity|].
  cbn [fmap list_fmap concat omap list_omap]. rewrite IH. destruct (g x); reflexivity.
Qed.

Lemma marks_tabLoop (tweets : list Container) :
  marks (omap (fun c => extractUsername (containerNodes c)) tweets)
        (forEach (fun tweet => markIfFound (extractUsername (containerNodes tweet))) tweets).
Proof.
  rewrite <- concat_option_list. apply marks_forEach. intros c. apply marks_markIfFound.
Qed.

Lemma omap_tweets (cs : list Container) :
  omap (fun c => extractUsername (containerNodes c))
       (List.filter (fun c => match testid c with Tweet => true | UserCell => false end) cs) =
  omap (fun c => match testid c with
                 | Tweet => extractUsername (containerNodes c)
                 | UserCell => None
                 end) cs.
Proof.
  induction cs as [|c cs IH]; [reflexivity|].
  cbn [List.filter omap list_omap]. destruct (testid c); cbn [omap list_omap]; rewrite IH;
    reflexivity.
Qed.

Lemma marks_unfollowLoop (ids : list string) :
  marks (omap (fun testId => toLowerCase <$> matchUnfollow testId) ids)
        (forEach (fun testId => match matchUnfollow testId with
                                | Some m1 => markAsFollowed (toLowerCase m1)
                                | None => mret tt
                                end) ids).
Proof.
  rewrite <- concat_option_list. apply marks_forEach. intros testId.
  destruct (matchUnfollow testId) as [m1|]; cbn [fmap option_fmap option_map option_list];
    [apply marks_markAsFollowed | apply (marks_ret tt)].
Qed.

Lemma marks_buttonLoop (btns : list Button) :
  marks (omap (fun btn => if buttonSaysFollowing btn
                          then btnClosest btn ≫= extractUsername
                          else None) btns)
        (forEach (fun btn =>
                    if negb (buttonSaysFollowing btn) then mret tt
                    else match btnClosest btn with
                         | None => mret tt
                         | Some container => markIfFound (extractUsername container)
                         end) btns).
Proof.
  rewrite <- concat_option_list. apply marks_forEach. intros btn.
  destruct (buttonSaysFollowing btn); cbn [negb option_list]; [|apply (marks_ret tt)].
  destruct (btnClosest btn) as [container|]; cbn [mbind option_bind option_list];
    [apply marks_markIfFound | apply (marks_ret tt)].
Qed.

(** The part of [scanPageForFollowedUsers] after the tab flag is known. *)
Lemma marks_scan_rest (st0 : State) (onTab : bool) :
  forall st, page st = page st0 -> containers st = containers st0 ->
  let us := ((if onTab
              then omap (fun c => match testid c with
                                  | Tweet => extractUsername (containerNodes c)
                                  | UserCell => None
                                  end) (containers st0)
              else []) ++
             unfollowSignal (page st0) ++ buttonSignal (page st0) ++
             profileSignal (page st0))%list in
  let rest :=
    ((if onTab then
        tweets ← gets (fun st => List.filter
                         (fun c => match testid c with Tweet => true | UserCell => false end)
                         (containers st));
        forEach (fun tweet => markIfFound (extractUsername (containerNodes tweet))) tweets
      else mret tt);;
     unfollowBtns ← gets (fun st => List.filter (endsWith "-unfollow") (testIds (page st)));
     forEach (fun testId =>
                match matchUnfollow testId with
                | Some m1 => markAsFollowed (toLowerCase m1)
                | None => mret tt
                end) unfollowBtns;;
     allButtons ← gets (fun st => buttons (page st));
     forEach (fun btn =>
                if negb (buttonSaysFollowing btn) then mret tt
                else match btnClosest btn with
                     | None => mret tt
                     | Some container => markIfFound (extractUsername container)
                     end) allButtons;;
     path ← gets (fun st => pathname (page st));
     match matchProfilePath path with
     | None => mret tt
     | Some m1 =>
         let profileUser := toLowerCase m1 in
         ids ← gets (fun st => testIds (page st));
         if existsb (fun t => (t =? m1 ++ "-unfollow")%string ||
                              (t =? profileUser ++ "-unfollow")%string) ids
         then markAsFollowed profileUser
         else mret tt
     end : M unit) in
  followedUsersSet (exec rest st) = followedUsersSet st ∪ marked us /\
  page (exec rest st) = page st /\ containers (exec rest st) = containers st /\
  _onFollowingTab (exec rest st) = _onFollowingTab st /\
  (marked us ⊆ followedUsersSet st -> exec rest st = st).
Proof.
  intros st Hp Hc us rest. subst us rest.
  (* phase 1 *)
  rewrite exec_bind.
  set (m1 := if onTab then _ else _).
  assert (H1 : followedUsersSet (exec m1 st) = followedUsersSet st ∪
                 marked (if onTab
                         then omap (fun c => match testid c with
                                             | Tweet => extractUsername (containerNodes c)
                                             | UserCell => None
                                             end) (containers st0)
                         else []) /\
               page (exec m1 st) = page st /\ containers (exec m1 st) = containers st /\
               _onFollowingTab (exec m1 st) = _onFollowingTab st /\
               (marked (if onTab
                        then omap (fun c => match testid c with
                                            | Tweet => extractUsername (containerNodes c)
                                            | UserCell => None
                                            end) (containers st0)
                        else []) ⊆ followedUsersSet st -> exec m1 st = st)).
  { subst m1. destruct onTab.
    - rewrite exec_bind, eval_gets, exec_gets, <- omap_tweets, <- Hc.
      apply marks_tabLoop.
    - apply (marks_ret tt). }
  destruct H1 as (F1 & P1 & C1 & T1 & Q1).
  set (s1 := exec m1 st) in *.
  (* phase 2: test ids *)
  rewrite exec_bind, eval_gets, exec_gets, exec_bind, P1, Hp.
  destruct (marks_unfollowLoop (List.filter (endsWith "-unfollow") (testIds (page st0))) s1)
    as (F2 & P2 & C2 & T2 & Q2).
  fold (unfollowSignal (page st0)) in F2, Q2.
  set (s2 := exec (forEach _ (List.filter (endsWith "-unfollow") (testIds (page st0)))) s1) in *.
  (* phase 3: buttons *)
  rewrite exec_bind, eval_gets, exec_gets, exec_bind, P2, P1, Hp.
  destruct (marks_buttonLoop (buttons (page st0)) s2) as (F3 & P3 & C3 & T3 & Q3).
  fold (buttonSignal (page st0)) in F3, Q3.
  set (s3 := exec (forEach _ (buttons (page st0))) s2) in *.
  (* phase 4: profile *)
  rewrite exec_bind, eval_gets, exec_gets, P3, P2, P1, Hp.
  assert (H4 : marks (profileSignal (page st0))
                 (match matchProfilePath (pathname (page st0)) with
                  | None => mret tt
                  | Some m1 =>
                      let profileUser := toLowerCase m1 in
                      ids ← gets (fun st => testIds (page st));
                      if existsb (fun t => (t =? m1 ++ "-unfollow")%string ||
                                           (t =? profileUser ++ "-unfollow")%string) ids
                      then markAsFollowed profileUser
                      else mret tt
                  end : M unit) -> True) by auto.
  clear H4.
  assert (H4 : forall s, page s = page st0 ->
            let m4 := (match matchProfilePath (pathname (page st0)) with
                       | None => mret tt
                       | Some m1 =>
                           let profileUser := toLowerCase m1 in
                           ids ← gets (fun st => testIds (page st));
                           if existsb (fun t => (t =? m1 ++ "-unfollow")%string ||
                                                (t =? profileUser ++ "-unfollow")%string) ids
                           then markAsFollowed profileUser
                           else mret tt
                       end : M unit) in
            followedUsersSet (exec m4 s) = followedUsersSet s ∪ marked (profileSignal (page st0)) /\
            page (exec m4 s) = page s /\ containers (exec m4 s) = containers s /\
            _onFollowingTab (exec m4 s) = _onFollowingTab s /\
            (marked (profileSignal (page st0)) ⊆ followedUsersSet s -> exec m4 s = s)).
  { intros s Hs m4. subst m4. unfold profileSignal.
    destruct (matchProfilePath (pathname (page st0))) as [m|]; [|apply (marks_ret tt)].
    cbv zeta. rewrite exec_bind, eval_gets, exec_gets.
    replace (testIds (page s)) with (testIds (page st0)) by (rewrite Hs; reflexivity).
    destruct (existsb _ (testIds (page st0)));
      [apply marks_markAsFollowed | apply (marks_ret tt)]. }
  destruct (H4 s3 ltac:(congruence)) as (F4 & P4 & C4 & T4 & Q4). cbv zeta in F4, P4, C4, T4, Q4.
  cbv zeta. rewrite !marked_app.
  split; [rewrite F4, F3, F2, F1; apply set_eq; intros x; rewrite !elem_of_union; tidy; tauto|].
  split; [congruence|]. split; [congruence|]. split; [congruence|].
  intros Hsub.
  assert (E1 : s1 = st) by (apply Q1; tidy; set_solver).
  assert (E2 : s2 = st)
    by (transitivity s1; [apply Q2; rewrite E1; tidy; set_solver | exact E1]).
  assert (E3 : s3 = st)
    by (transitivity s2; [apply Q3; rewrite E2; tidy; set_solver | exact E2]).
  rewrite Q4; [exact E3|]. rewrite E3. tidy; set_solver.
Qed.

Lemma scan_effect (st : State) :
  let st' := exec scanPageForFollowedUsers st in
  followedUsersSet st' = followedUsersSet st ∪ marked (followSignals st) /\
  page st' = page st /\ containers st' = containers st /\
  _onFollowingTab st' = Some (followingTabAnswer st) /\
  (marked (followSignals st) ⊆ followedUsersSet st ->
   st' = set_onFollowingTab (Some (followingTabAnswer st)) st).
Proof.
  intros st'. subst st'. unfold scanPageForFollowedUsers.
  rewrite exec_bind. destruct (run_isOnFollowingTab st) as [-> ->].
  set (s0 := set_onFollowingTab (Some (followingTabAnswer st)) st).
  pose proof (marks_scan_rest st (followingTabAnswer st) s0 eq_refl eq_refl) as H.
  cbv zeta in H. destruct H as (F & P & C & T & Q).
  unfold followSignals, tabSignal.
  split; [exact F|]. split; [exact P|]. split; [exact C|]. split; [exact T|].
  exact Q.
Qed.

Lemma elem_of_marked (u : string) (us : list string) :
  u ∈ marked us <-> u <> "" /\ u ∈ us.
Proof.
  unfold marked. rewrite elem_of_list_to_set, list_elem_of_In, List.filter_In,
    <- list_elem_of_In.
  unfold truthy. destruct (String.eqb_spec u ""); cbn; split; intros [H1 H2];
    split; auto; congruence.
Qed.

(** X13: what a scan of the page adds to the follow cache.  Afterwards
    the cache holds exactly what it held before and the non-empty identities
    among the scan's four signals (tweet authors when the Following tab is
    shown, the names of the [-unfollow] test ids, the names beside buttons
    that say Following, the profile being viewed when it has an unfollow
    control); the tab flag holds the answer used; the page, the containers,
    the settings, the allow-list, the hidden count and the observer are as
    before. *)
Theorem scanPageForFollowedUsers_effect (st : State) :
  let st' := exec scanPageForFollowedUsers st in
  (forall u, u ∈ followedUsersSet st' <->
     u ∈ followedUsersSet st \/ (u <> "" /\ u ∈ followSignals st)) /\
  _onFollowingTab st' = Some (followingTabAnswer st) /\
  followFrame st st'.
Proof.
  intros st'. subst st'. destruct (scan_effect st) as (F & _ & _ & T & _).
  split; [|split; [exact T | apply scanPageForFollowedUsers_frame]].
  intros u. rewrite F, elem_of_union, elem_of_marked. reflexivity.
Qed.

Lemma followSignals_same (st st' : State) :
  page st' = page st -> containers st' = containers st ->
  followingTabAnswer st' = followingTabAnswer st ->
  followSignals st' = followSignals st.
Proof. unfold followSignals, tabSignal. intros -> -> ->. reflexivity. Qed.

Lemma set_onFollowingTab_eta (st : State) (b : bool) :
  _onFollowingTab st = Some b -> set_onFollowingTab (Some b) st = st.
Proof. intros <-. destruct st; reflexivity. Qed.

Lemma scan_twice (st : State) :
  exec scanPageForFollowedUsers (exec scanPageForFollowedUsers st) =
  exec scanPageForFollowedUsers st.
Proof.
  destruct (scan_effect st) as (F & P & C & T & _).
  set (s := exec scanPageForFollowedUsers st) in *.
  assert (A : followingTabAnswer s = followingTabAnswer st)
    by (unfold followingTabAnswer at 1; rewrite T; reflexivity).
  destruct (scan_effect s) as (_ & _ & _ & _ & Q).
  rewrite Q.
  - rewrite A. apply set_onFollowingTab_eta. exact T.
  - rewrite (followSignals_same st s P C A), F. apply union_subseteq_r.
Qed.

(** X14: scanning an unchanged page a second time changes nothing at
    all: no identity is added, and the persist timer is not even re-armed. *)
Theorem scanPageForFollowedUsers_idempotent (st : State) :
  exec scanPageForFollowedUsers (exec scanPageForFollowedUsers st) =
  exec scanPageForFollowedUsers st.
Proof. apply scan_twice. Qed.


(** X16: the periodic tick escalates exactly when it learns something.
    With the extension context gone it does nothing.  Otherwise it scans;
    when every non-empty identity the scan finds was cached already, that is
    all it does - containers, markers and the hidden count stay as they are
    - and when the scan finds a new one, a full rescan follows. *)
Theorem periodicRescan_escalates (st : State) :
  (contextValid st = false -> exec periodicRescan st = st) /\
  (contextValid st = true ->
     marked (followSignals st) ⊆ followedUsersSet st ->
     exec periodicRescan st = exec scanPageForFollowedUsers st /\
     containers (exec periodicRescan st) = containers st /\
     hiddenCount (exec periodicRescan st) = hiddenCount st) /\
  (contextValid st = true ->
     ~ marked (followSignals st) ⊆ followedUsersSet st ->
     exec periodicRescan st = exec rescanAll (exec scanPageForFollowedUsers st)).
Proof.
  unfold periodicRescan. rewrite exec_bind, eval_gets, exec_gets.
  split; [intros ->; reflexivity|].
  destruct (scan_effect st) as (F & _ & C & _ & _).
  pose proof (scanPageForFollowedUsers_frame st) as (_ & _ & Hh & _).
  split; intros -> Hsub; cbn [negb];
    rewrite exec_bind, eval_gets, exec_gets, exec_bind, exec_bind, eval_gets, exec_gets.
  - assert (E : followedUsersSet (exec scanPageForFollowedUsers st) = followedUsersSet st)
      by (rewrite F; apply set_eq; intros x; rewrite elem_of_union; split;
          [intros [H|H]; [exact H | apply Hsub, H] | auto]).
    rewrite E, Nat.ltb_irrefl. split; [reflexivity|]. split; assumption.
  - assert (L : (size (followedUsersSet st) <
                 size (followedUsersSet (exec scanPageForFollowedUsers st)))%nat).
    { apply subset_size. rewrite F. split; [apply union_subseteq_l|].
      intros K. apply Hsub. intros x Hx. apply K, elem_of_union. right. exact Hx. }
    apply Nat.ltb_lt in L. rewrite L. reflexivity.
Qed.

(** ** Timers *)

Lemma keepsTimerInv_preorder : PreOrder keepsTimerInv.
Proof. split; [intros st H; exact H | intros a b c Hab Hbc H; auto]. Qed.

#[local] Existing Instance keepsTimerInv_preorder.

Lemma exec_debouncedSaveHiddenCount (st : State) :
  exec debouncedSaveHiddenCount st =
  set_saveTimer (Some (nextTimerId st))
    (set_timers
       ({| timerId := nextTimerId st; timerDelay := 1000; timerJob := SaveHiddenCount |} ::
        match saveTimer st with
        | Some id => List.filter (fun t => negb (timerId t =? id)%positive) (timers st)
        | None => timers st
        end)
       (Pos.succ (nextTimerId st)) st).
Proof.
  unfold debouncedSaveHiddenCount. rewrite exec_bind, eval_gets, exec_gets.
  destruct (saveTimer st) as [id|]; reflexivity.
Qed.

Lemma exec_debouncedSaveFollowedUsers (st : State) :
  exec debouncedSaveFollowedUsers st =
  set_followedSaveTimer (Some (nextTimerId st))
    (set_timers
       ({| timerId := nextTimerId st; timerDelay := 2000; timerJob := SaveFollowedUsers |} ::
        match followedSaveTimer st with
        | Some id => List.filter (fun t => negb (timerId t =? id)%positive) (timers st)
        | None => timers st
        end)
       (Pos.succ (nextTimerId st)) st).
Proof.
  unfold debouncedSaveFollowedUsers. rewrite exec_bind, eval_gets, exec_gets.
  destruct (followedSaveTimer st) as [id|]; reflexivity.
Qed.

Lemma NoDup_ids_filter (p : Timer -> bool) (ts : list Timer) :
  NoDup (timerId <$> ts) -> NoDup (timerId <$> List.filter p ts).
Proof.
  induction ts as [|t ts IH]; [auto|]. cbn [List.filter fmap list_fmap].
  intros H. apply NoDup_cons in H as [Hn Hd].
  destruct (p t); [|auto]. cbn [fmap list_fmap]. apply NoDup_cons. split; [|auto].
  intros K. apply Hn. apply list_elem_of_fmap in K as (t' & E & Hin).
  apply list_elem_of_fmap. exists t'. split; [exact E|].
  apply list_elem_of_In, List.filter_In in Hin. apply list_elem_of_In. tidy; tauto.
Qed.

(** The timers that survive [clearTimeout(old)]. *)
Lemma survivors (old : option positive) (st : State) (t : Timer) :
  TimerInv st ->
  t ∈ match old with
      | Some id => List.filter (fun t => negb (timerId t =? id)%positive) (timers st)
      | None => timers st
      end ->
  old <> Some (timerId t) /\ (timerId t < nextTimerId st)%positive /\
  timerNamedBy st t /\ timerDelay t = jobDelay (timerJob t).
Proof.
  intros [_ Hf] Ht. rewrite Forall_forall in Hf.
  destruct old as [id|].
  - apply list_elem_of_In, List.filter_In in Ht as [Hin Hne].
    split; [|apply Hf, list_elem_of_In, Hin].
    intros [= ->]. rewrite Pos.eqb_refl in Hne. discriminate.
  - split; [discriminate | apply Hf, Ht].
Qed.

Lemma NoDup_rearmed (old : option positive) (st : State) :
  TimerInv st ->
  NoDup (nextTimerId st ::
         (timerId <$> match old with
                      | Some id => List.filter (fun t => negb (timerId t =? id)%positive)
                                               (timers st)
                      | None => timers st
                      end)).
Proof.
  intros HI. apply NoDup_cons. split.
  - intros K. apply list_elem_of_fmap in K as (t & E & Ht).
    destruct (survivors old st t HI Ht) as (_ & Hlt & _). lia.
  - destruct HI as [Hd _]. destruct old; [apply NoDup_ids_filter|]; exact Hd.
Qed.

Lemma debouncedSaveHiddenCount_keepsTimerInv :
  respects keepsTimerInv debouncedSaveHiddenCount.
Proof.
  intros st HI. rewrite exec_debouncedSaveHiddenCount.
  split; [apply (NoDup_rearmed (saveTimer st) st HI)|].
  cbn [timers nextTimerId set_saveTimer set_timers]. apply Forall_cons. split.
  - cbn. split; [lia|]. split; reflexivity.
  - apply Forall_forall. intros t Ht.
    destruct (survivors (saveTimer st) st t HI Ht) as (Hne & Hlt & Hn & Hd).
    split; [lia|]. split; [|exact Hd].
    unfold timerNamedBy in *. cbn [saveTimer followedSaveTimer set_saveTimer set_timers].
    destruct (timerJob t); [contradiction | exact Hn].
Qed.

Lemma debouncedSaveFollowedUsers_keepsTimerInv :
  respects keepsTimerInv debouncedSaveFollowedUsers.
Proof.
  intros st HI. rewrite exec_debouncedSaveFollowedUsers.
  split; [apply (NoDup_rearmed (followedSaveTimer st) st HI)|].
  cbn [timers nextTimerId set_followedSaveTimer set_timers]. apply Forall_cons. split.
  - cbn. split; [lia|]. split; reflexivity.
  - apply Forall_forall. intros t Ht.
    destruct (survivors (followedSaveTimer st) st t HI Ht) as (Hne & Hlt & Hn & Hd).
    split; [lia|]. split; [|exact Hd].
    unfold timerNamedBy in *.
    cbn [saveTimer followedSaveTimer set_followedSaveTimer set_timers].
    destruct (timerJob t); [exact Hn | contradiction].
Qed.

(** Walk a computation down to its writes and to the two debounced saves. *)
Ltac timers_walk :=
  repeat first
    [ apply debouncedSaveHiddenCount_keepsTimerInv
    | apply debouncedSaveFollowedUsers_keepsTimerInv
    | respects_step
    | apply respects_modify; intros ? H; exact H ].

Lemma handle_keepsTimerInv (e : Event) : respects keepsTimerInv (handle e).
Proof.
  destruct e; cbn [handle];
    unfold periodicRescan, initialScan, rescanAll, rescanReset, handleMutations,
      processTree, processElement, replaceWithPlaceholder, restoreElement,
      updContainer, startObserver, stopObserver, scanPageForFollowedUsers,
      isOnFollowingTab, markIfFound, markAsFollowed, loadSettings, getBlockBadgeType;
    timers_walk.
Qed.

(** X17: the debounce holds at all times.  Let no two pending timers
    share an id, every pending timer be the one its job's timer variable
    names, and every delay be that of its job (1000 ms for the hidden count,
    2000 ms for the followed users) - as is the case when nothing is pending.
    Then the same holds after every call into the script, and therefore at
    most one save of each kind is ever pending. *)
Theorem timers_debounced (st : State) :
  TimerInv st ->
  (forall e, TimerInv (exec (handle e) st)) /\
  (forall t1 t2, t1 ∈ timers st -> t2 ∈ timers st ->
     timerJob t1 = timerJob t2 -> t1 = t2) /\
  (forall t, t ∈ timers st -> timerDelay t = jobDelay (timerJob t)).
Proof.
  intros HI. split; [intros e; apply handle_keepsTimerInv, HI|].
  destruct HI as [Hd Hf]. rewrite Forall_forall in Hf. split.
  - intros t1 t2 H1 H2 Hj.
    destruct (Hf t1 H1) as (_ & N1 & _). destruct (Hf t2 H2) as (_ & N2 & _).
    unfold timerNamedBy in N1, N2. rewrite <- Hj in N2.
    assert (E : timerId t1 = timerId t2) by (destruct (timerJob t1); congruence).
    apply list_elem_of_lookup in H1 as [i1 L1]. apply list_elem_of_lookup in H2 as [i2 L2].
    assert (i1 = i2).
    { apply (NoDup_lookup _ i1 i2 (timerId t1) Hd);
        rewrite list_lookup_fmap; [rewrite L1 | rewrite L2, E]; reflexivity. }
    subst. congruence.
  - intros t Ht. apply Hf, Ht.
Qed.

(** ** The popup *)

Lemma omap_items (l : list string) :
  omap (fun li => match li with
                  | ItemLi username => Some username
                  | EmptyLi => None
                  end) (ItemLi <$> l) = l.
Proof. induction l as [|u l IH]; [reflexivity|]. cbn. rewrite IH. reflexivity. Qed.

Lemma getCurrentWhitelist_rendered (l : list string) (input : string) (p : Popup) :
  getCurrentWhitelist (setList (renderedList l) input p) = l.
Proof.
  unfold getCurrentWhitelist, setList, renderedList. cbn [whitelistListEl].
  destruct l as [|u l]; [reflexivity|]. apply omap_items.
Qed.

(** X18: the whitelist survives the trip through the popup's list.
    Reading the list back after [renderWhitelist] gives the usernames that
    were rendered, in their order; for no usernames the list shows the single
    placeholder item, which is read back as no username. *)
Theorem renderWhitelist_roundtrip (usernames : list string) (p : Popup) :
  getCurrentWhitelist (renderWhitelist usernames p) = usernames /\
  (usernames = [] -> whitelistListEl (renderWhitelist usernames p) = [EmptyLi]) /\
  (usernames <> [] ->
     whitelistListEl (renderWhitelist usernames p) = ItemLi <$> usernames).
Proof.
  unfold renderWhitelist. split; [apply getCurrentWhitelist_rendered|].
  split; [intros ->; reflexivity|].
  destruct usernames; [congruence | reflexivity].
Qed.

Lemma isHandle_truthy (s : string) : isHandle s = true -> truthy s = true.
Proof. destruct s; [discriminate | reflexivity]. Qed.

Lemma existsb_eqb_elem_of (u : string) (l : list string) :
  existsb (String.eqb u) l = true <-> u ∈ l.
Proof.
  rewrite existsb_exists, list_elem_of_In. split.
  - intros (x & Hin & E). apply String.eqb_eq in E. subst. exact Hin.
  - intros Hin. exists u. split; [exact Hin | apply String.eqb_refl].
Qed.

Lemma saveSettings_effect (p : Popup) :
  whitelistListEl (saveSettings p) = whitelistListEl p /\
  whitelistInput (saveSettings p) = whitelistInput p /\
  storedWhitelist (syncStore (saveSettings p)) = Some (getCurrentWhitelist p) /\
  storedEnabled (syncStore (saveSettings p)) = toggleEnabled p /\
  storedHideBlue (syncStore (saveSettings p)) = toggleBlue p /\
  storedHideGold (syncStore (saveSettings p)) = toggleGold p /\
  storedHideGray (syncStore (saveSettings p)) = toggleGray p /\
  storedHiddenCount (syncStore (saveSettings p)) = storedHiddenCount (syncStore p) /\
  sentMessages (saveSettings p) =
    (sentMessages p ++ match activeTab p with
                       | Some id => [(id, "SETTINGS_CHANGED")]
                       | None => []
                       end)%list.
Proof.
  unfold saveSettings, notifyContentScript. cbn [activeTab].
  destruct (activeTab p); cbn; rewrite ?app_nil_r; repeat split.
Qed.

(** X19: the four outcomes of [addToWhitelist].  The input is trimmed
    and a leading at-sign dropped.  If nothing is left, nothing happens.  If
    what is left is no handle (1 to 15 letters, digits, underscores), the
    input is flagged and neither the list nor the store changes and no
    message goes out.  If its lower-cased form is listed already, only the
    input is cleared.  Otherwise that form is appended to the list, the list
    and the four switches are written to the store (the stored hidden count
    stays), the input is cleared, and the active tab, if any, is told. *)
Theorem addToWhitelist_outcomes (p : Popup) :
  let raw := stripAt (trim (whitelistInput p)) in
  let p' := addToWhitelist p in
  (raw = "" -> p' = p) /\
  (raw <> "" -> isHandle raw = false ->
     inputError p' = true /\ errorTimers p' = S (errorTimers p) /\
     whitelistListEl p' = whitelistListEl p /\ whitelistInput p' = whitelistInput p /\
     syncStore p' = syncStore p /\ sentMessages p' = sentMessages p) /\
  (isHandle raw = true -> toLowerCase raw ∈ getCurrentWhitelist p ->
     whitelistInput p' = "" /\ whitelistListEl p' = whitelistListEl p /\
     syncStore p' = syncStore p /\ sentMessages p' = sentMessages p) /\
  (isHandle raw = true -> toLowerCase raw ∉ getCurrentWhitelist p ->
     whitelistInput p' = "" /\
     getCurrentWhitelist p' = (getCurrentWhitelist p ++ [toLowerCase raw])%list /\
     storedWhitelist (syncStore p') =
       Some (getCurrentWhitelist p ++ [toLowerCase raw])%list /\
     storedEnabled (syncStore p') = toggleEnabled p /\
     storedHideBlue (syncStore p') = toggleBlue p /\
     storedHideGold (syncStore p') = toggleGold p /\
     storedHideGray (syncStore p') = toggleGray p /\
     storedHiddenCount (syncStore p') = storedHiddenCount (syncStore p) /\
     sentMessages p' =
       (sentMessages p ++ match activeTab p with
                          | Some id => [(id, "SETTINGS_CHANGED")]
                          | None => []
                          end)%list).
Proof.
  intros raw p'. subst p'. unfold addToWhitelist. fold raw.
  split; [intros ->; reflexivity|]. split; [|split].
  - intros Hne Hh.
    assert (Ht : truthy raw = true) by (destruct raw; [congruence | reflexivity]).
    rewrite Ht, Hh. cbn. repeat split.
  - intros Hh Hin. rewrite (isHandle_truthy _ Hh), Hh. cbn [negb].
    rewrite (proj2 (existsb_eqb_elem_of _ _) Hin). cbn. repeat split.
  - intros Hh Hn. rewrite (isHandle_truthy _ Hh), Hh. cbn [negb].
    destruct (existsb (String.eqb (toLowerCase raw)) (getCurrentWhitelist p)) eqn:E;
      [apply existsb_eqb_elem_of in E; contradiction|].
    set (q := setList (renderedList (getCurrentWhitelist p ++ [toLowerCase raw])) "" p).
    destruct (saveSettings_effect q) as (S1 & S2 & S3 & S4 & S5 & S6 & S7 & S8 & S9).
    assert (Hq : getCurrentWhitelist q = (getCurrentWhitelist p ++ [toLowerCase raw])%list)
      by apply getCurrentWhitelist_rendered.
    split; [rewrite S2; reflexivity|].
    split; [unfold getCurrentWhitelist at 1; rewrite S1; exact Hq|].
    split; [rewrite S3, Hq; reflexivity|].
    split; [exact S4|]. split; [exact S5|]. split; [exact S6|]. split; [exact S7|].
    split; [exact S8 | exact S9].
Qed.

Lemma delete_items (i : nat) (l : list string) :
  delete i (ItemLi <$> l) = ItemLi <$> delete i l.
Proof. symmetry. apply list_fmap_delete. Qed.

Lemma renderedList_lookup_item (l : list string) (i : nat) (u : string) :
  renderedList l !! i = Some (ItemLi u) <-> l !! i = Some u.
Proof.
  unfold renderedList. destruct l as [|x l].
  - destruct i; cbn; split; discriminate.
  - rewrite list_lookup_fmap. destruct ((x :: l) !! i) as [v|]; cbn; split; congruence.
Qed.

Lemma removeClicked_rendered (i : nat) (p : Popup) (u : string) :
  whitelistListEl p = renderedList (getCurrentWhitelist p) ->
  getCurrentWhitelist p !! i = Some u ->
  removeClicked i p =
  saveSettings (setList (renderedList (delete i (getCurrentWhitelist p))) (whitelistInput p) p).
Proof.
  intros Hr Hi. unfold removeClicked. rewrite Hr.
  rewrite (proj2 (renderedList_lookup_item _ i u) Hi).
  set (l := getCurrentWhitelist p) in *.
  assert (Hd : delete i (renderedList l) = ItemLi <$> delete i l).
  { unfold renderedList. destruct l as [|x l]; [destruct i; discriminate|].
    apply delete_items. }
  rewrite Hd, length_fmap.
  destruct (delete i l) as [|y l'] eqn:E; cbn [length Nat.eqb]; reflexivity.
Qed.

(** X20: removing an item.  On a list as [renderWhitelist] leaves it, a
    click on the remove button of item [i] takes exactly that username out,
    keeps the others in their order, shows the placeholder item when none is
    left, writes the remaining list to the store and tells the active tab.  A
    position that holds no item (the placeholder, or none) has no button:
    nothing happens. *)
Theorem removeClicked_effect (i : nat) (p : Popup) :
  whitelistListEl p = renderedList (getCurrentWhitelist p) ->
  let p' := removeClicked i p in
  (forall u, getCurrentWhitelist p !! i = Some u ->
     getCurrentWhitelist p' = delete i (getCurrentWhitelist p) /\
     whitelistListEl p' = renderedList (delete i (getCurrentWhitelist p)) /\
     storedWhitelist (syncStore p') = Some (delete i (getCurrentWhitelist p)) /\
     storedHiddenCount (syncStore p') = storedHiddenCount (syncStore p) /\
     sentMessages p' =
       (sentMessages p ++ match activeTab p with
                          | Some id => [(id, "SETTINGS_CHANGED")]
                          | None => []
                          end)%list) /\
  (getCurrentWhitelist p !! i = None -> p' = p).
Proof.
  intros Hr p'. subst p'. split.
  - intros u Hi. rewrite (removeClicked_rendered i p u Hr Hi).
    set (q := setList (renderedList (delete i (getCurrentWhitelist p))) (whitelistInput p) p).
    destruct (saveSettings_effect q) as (S1 & S2 & S3 & S4 & S5 & S6 & S7 & S8 & S9).
    assert (Hq : getCurrentWhitelist q = delete i (getCurrentWhitelist p))
      by apply getCurrentWhitelist_rendered.
    split; [unfold getCurrentWhitelist at 1; rewrite S1; exact Hq|].
    split; [rewrite S1; reflexivity|].
    split; [rewrite S3, Hq; reflexivity|].
    split; [exact S8 | exact S9].
  - intros Hn. unfold removeClicked. rewrite Hr.
    destruct (renderedList (getCurrentWhitelist p) !! i) as [[|u]|] eqn:E; try reflexivity.
    apply renderedList_lookup_item in E. congruence.
Qed.

(** ** Installation *)

(** X21: installing and updating.  An update never overwrites a stored
    value: every key that is stored keeps its value, every key that is not
    gets the default if there is one, and a second update changes nothing.
    A fresh install writes the six defaults over whatever is stored under
    those keys and leaves other keys alone.  Any other reason leaves the
    store as it is. *)
Theorem onInstalled_effect (store : gmap string JsValue) :
  (forall k v, store !! k = Some v -> onInstalled "update" store !! k = Some v) /\
  (forall k, store !! k = None -> onInstalled "update" store !! k = DEFAULT_SETTINGS !! k) /\
  onInstalled "update" (onInstalled "update" store) = onInstalled "update" store /\
  (forall k d, DEFAULT_SETTINGS !! k = Some d -> onInstalled "install" store !! k = Some d) /\
  (forall k, DEFAULT_SETTINGS !! k = None -> onInstalled "install" store !! k = store !! k) /\
  (forall reason, reason <> "install" -> reason <> "update" ->
     onInstalled reason store = store).
Proof.
  assert (U : forall s, onInstalled "update" s = s ∪ DEFAULT_SETTINGS).
  { intros s. unfold onInstalled, storageSet. cbn [String.eqb Ascii.eqb Bool.eqb andb].
    cbv zeta. apply map_eq. intros k. rewrite !lookup_union.
    destruct (s !! k), (DEFAULT_SETTINGS !! k); reflexivity. }
  split; [intros k v H; rewrite U; apply lookup_union_Some_l, H|].
  split; [intros k H; rewrite U; apply lookup_union_r, H|].
  split.
  { rewrite !U. apply map_eq. intros k. rewrite !lookup_union.
    destruct (store !! k), (DEFAULT_SETTINGS !! k); reflexivity. }
  unfold onInstalled, storageSet.
  split; [intros k d H; cbn [String.eqb Ascii.eqb Bool.eqb andb];
          apply lookup_union_Some_l, H|].
  split; [intros k H; cbn [String.eqb Ascii.eqb Bool.eqb andb];
          apply lookup_union_r, H|].
  intros reason H1 H2.
  destruct (String.eqb_spec reason "install"); [contradiction|].
  destruct (String.eqb_spec reason "update"); [contradiction | reflexivity].
Qed.

(** ** Handles, from the popup to the page *)

Lemma isHandleChar_asciiLower (a : ascii) :
  isHandleChar a = true -> isHandleChar (asciiLower a) = true.
Proof. destruct a as [[] [] [] [] [] [] [] []]; intros H; try discriminate; reflexivity. Qed.

Lemma asciiLower_twice (a : ascii) : asciiLower (asciiLower a) = asciiLower a.
Proof. destruct a as [[] [] [] [] [] [] [] []]; reflexivity. Qed.

Lemma asciiToLowerCase_twice (s : string) :
  asciiToLowerCase (asciiToLowerCase s) = asciiToLowerCase s.
Proof.
  induction s as [|a s IH]; [reflexivity|]. cbn. rewrite asciiLower_twice, IH. reflexivity.
Qed.

Lemma asciiToLowerCase_length (s : string) :
  String.length (asciiToLowerCase s) = String.length s.
Proof. induction s as [|a s IH]; [reflexivity|]. cbn. rewrite IH. reflexivity. Qed.

Lemma allChars_asciiToLowerCase (s : string) :
  allChars isHandleChar s = true -> allChars isHandleChar (asciiToLowerCase s) = true.
Proof.
  induction s as [|a s IH]; [reflexivity|]. cbn. rewrite !andb_true_iff.
  intros [Ha Hs]. split; [apply isHandleChar_asciiLower, Ha | apply IH, Hs].
Qed.

Lemma isHandle_allChars (s : string) : isHandle s = true -> allChars isHandleChar s = true.
Proof. unfold isHandle. rewrite !andb_true_iff. tidy; tauto. Qed.

Lemma isHandle_asciiToLowerCase (s : string) :
  isHandle s = true -> isHandle (asciiToLowerCase s) = true.
Proof.
  unfold isHandle. rewrite !andb_true_iff, asciiToLowerCase_length.
  intros [[H1 H2] H3]. repeat split; auto using allChars_asciiToLowerCase.
Qed.

Lemma removeClicked_none (i : nat) (p : Popup) :
  whitelistListEl p = renderedList (getCurrentWhitelist p) ->
  getCurrentWhitelist p !! i = None -> removeClicked i p = p.
Proof.
  intros Hr Hn. unfold removeClicked. rewrite Hr.
  destruct (renderedList (getCurrentWhitelist p) !! i) as [[|u]|] eqn:E; try reflexivity.
  apply renderedList_lookup_item in E. congruence.
Qed.

Section Handles.

(** On letters, digits and underscores [toLowerCase] is ASCII
    lower-casing. *)
Hypothesis toLowerCase_handle :
  forall s, allChars isHandleChar s = true -> toLowerCase s = asciiToLowerCase s.

Lemma toLowerCase_isHandle (s : string) :
  isHandle s = true ->
  isHandle (toLowerCase s) = true /\ toLowerCase (toLowerCase s) = toLowerCase s /\
  asciiToLowerCase (toLowerCase s) = toLowerCase s.
Proof.
  intros H. rewrite (toLowerCase_handle s (isHandle_allChars s H)).
  pose proof (isHandle_asciiToLowerCase s H) as H'.
  rewrite (toLowerCase_handle _ (isHandle_allChars _ H')), asciiToLowerCase_twice. auto.
Qed.

(** X22: the popup keeps its list clean.  If the list is as
    [renderWhitelist] leaves it, holds no username twice and holds only
    lower-case handles, then the same is true after [addToWhitelist],
    whatever is typed, and after a click on any remove button. *)
Theorem whitelist_stays_clean (p : Popup) :
  listedOk p ->
  listedOk (addToWhitelist p) /\ forall i, listedOk (removeClicked i p).
Proof.
  intros (Hd & Hf & Hr). split.
  - unfold addToWhitelist.
    set (raw := stripAt (trim (whitelistInput p))).
    destruct (truthy raw); cbn [negb]; [|repeat split; assumption].
    destruct (isHandle raw) eqn:Hh; cbn [negb]; [|repeat split; assumption].
    destruct (existsb (String.eqb (toLowerCase raw)) (getCurrentWhitelist p)) eqn:E;
      [repeat split; assumption|].
    assert (Hn : toLowerCase raw ∉ getCurrentWhitelist p).
    { intros K. apply existsb_eqb_elem_of in K. congruence. }
    set (l := (getCurrentWhitelist p ++ [toLowerCase raw])%list).
    set (q := setList (renderedList l) "" p).
    destruct (saveSettings_effect q) as (S1 & _).
    assert (Hq : getCurrentWhitelist q = l) by apply getCurrentWhitelist_rendered.
    assert (Hs : getCurrentWhitelist (saveSettings q) = l)
      by (unfold getCurrentWhitelist at 1; rewrite S1; exact Hq).
    unfold listedOk. rewrite Hs, S1. subst l. split; [|split; [|reflexivity]].
    + apply NoDup_app. split; [exact Hd|]. split; [|apply NoDup_singleton].
      intros x Hx Hx'. apply list_elem_of_singleton in Hx'. subst. contradiction.
    + apply Forall_app. split; [exact Hf|]. apply Forall_singleton.
      destruct (toLowerCase_isHandle raw Hh) as (H1 & _ & H3). auto.
  - intros i. destruct (getCurrentWhitelist p !! i) as [u|] eqn:Hi;
      [|rewrite (removeClicked_none i p Hr Hi); repeat split; assumption].
    rewrite (removeClicked_rendered i p u Hr Hi).
    set (l := delete i (getCurrentWhitelist p)).
    set (q := setList (renderedList l) (whitelistInput p) p).
    destruct (saveSettings_effect q) as (S1 & _).
    assert (Hq : getCurrentWhitelist q = l) by apply getCurrentWhitelist_rendered.
    assert (Hs : getCurrentWhitelist (saveSettings q) = l)
      by (unfold getCurrentWhitelist at 1; rewrite S1; exact Hq).
    unfold listedOk. rewrite Hs, S1. subst l. split; [|split; [|reflexivity]].
    + apply (sublist_NoDup _ _ Hd), sublist_delete.
    + apply Forall_delete, Hf.
Qed.

(** X23: from the popup to the page.  Let a handle, in any case and
    with or without the at-sign, be typed into the popup and added.  When
    the change of the store reaches the content script, a container that
    shows a placeholder and whose held content is by that author shows its
    original children again and is no longer replaced. *)
Theorem popup_allows (p : Popup) (keys : list string)
    (followedUsers : option (list string)) (st : State) (i : nat) (c : Container)
    (original : list Node) :
  let raw := stripAt (trim (whitelistInput p)) in
  isHandle raw = true ->
  toLowerCase raw ∉ getCurrentWhitelist p ->
  keys <> ["hiddenCount"] ->
  contextValid st = true ->
  containers st !! i = Some c ->
  replacedAttr c = true ->
  _blockBlueOriginal c = Some original ->
  extractUsername original = Some (toLowerCase raw) ->
  exists c',
    containers (exec (onStorageChanged keys "sync" (syncStore (addToWhitelist p))
                        followedUsers) st) !! i = Some c' /\
    replacedAttr c' = false /\ containerNodes c' = original.
Proof.
  intros raw Hh Hn Hk Hv Hc Hr Ho Hu.
  destruct (toLowerCase_isHandle raw Hh) as (H1 & H2 & _).
  assert (Hw : storedWhitelist (syncStore (addToWhitelist p)) =
               Some (getCurrentWhitelist p ++ [toLowerCase raw])%list).
  { unfold addToWhitelist. fold raw. rewrite (isHandle_truthy _ Hh), Hh. cbn [negb].
    destruct (existsb (String.eqb (toLowerCase raw)) (getCurrentWhitelist p)) eqn:E;
      [apply existsb_eqb_elem_of in E; contradiction|].
    set (q := setList _ "" p).
    destruct (saveSettings_effect q) as (_ & _ & S3 & _). rewrite S3. f_equal.
    apply getCurrentWhitelist_rendered. }
  unfold onStorageChanged. change ("sync" =? "sync")%string with true. cbn [negb].
  assert (E : ((length keys =? 1)%nat &&
               match keys with
               | k :: _ => (k =? "hiddenCount")%string
               | [] => false
               end) = false).
  { destruct keys as [|k [|k' ks]]; try reflexivity. cbn.
    destruct (String.eqb_spec k "hiddenCount"); [subst; contradiction | reflexivity]. }
  rewrite E, reloadSettings_split, exec_loadSettings, Hv. cbv zeta.
  apply (rescanAll_restores_exempt i _ c original (toLowerCase raw)); try assumption.
  - apply (isHandle_truthy _ H1).
  - left. cbn [whitelistSet set_followedUsersSet set_hiddenCount set_whitelistSet].
    rewrite Hw, elem_of_list_to_set, list_elem_of_fmap.
    exists (toLowerCase raw). split; [symmetry; exact H2|].
    apply elem_of_app. right. apply list_elem_of_singleton. reflexivity.
Qed.

End Handles.

End Host.

(** * The theorems at work on sample pages *)

Lemma asciiToLowerCase_nonempty (s : string) : s <> "" -> asciiToLowerCase s <> "".
Proof. destruct s; [congruence | discriminate]. Qed.

(** The scenario of the specification: a 22x22, two-path badge without a
    label, coloured rgb(29,155,240), with blue suppression on and the author
    in neither list, is found to be blue, hidden, and counted. *)
Example processElement_hides_alice :
  eval (getBlockBadgeType asciiToLowerCase 0) aliceState = Some BLUE /\
  exec (processElement asciiToLowerCase sampleMessage 0) aliceState = hiddenState.
Proof. split; reflexivity. Qed.

(** The same container with its author allow-listed is left untouched but
    for the processed marker. *)
Example processElement_spares_allowed :
  eval (getBlockBadgeType asciiToLowerCase 0) allowedState = None /\
  containers (exec (processElement asciiToLowerCase sampleMessage 0) allowedState) =
    [markProcessed aliceTweet].
Proof. split; reflexivity. Qed.

(** The handle pattern at work. *)
Example matchProfilePath_samples :
  matchProfilePath "/Alice_01" = Some "Alice_01" /\
  matchProfilePath "/" = None /\
  matchProfilePath "/alice/status/1" = None /\
  matchProfilePath "/abcdefghijklmnop" = None /\
  matchUnfollow "Alice-unfollow" = Some "Alice" /\
  matchUnfollow "-unfollow" = None.
Proof. repeat split. Qed.

(** A label in capitals is matched; a bare svg is no badge. *)
Example isVerifiedBadge_samples :
  isVerifiedBadge asciiToLowerCase
    (Element "svg" [("aria-label", "Verified account")] None []) = true /\
  isVerifiedBadge asciiToLowerCase (Element "svg" [] None [pathNode]) = false /\
  isVerifiedBadge asciiToLowerCase (badgeNode (0, 0, 0)) = true.
Proof. repeat split. Qed.

(** C1, as the claim words it, fails on a container with two badges, the
    first of unrecognised colour: stopping at the first qualifying badge
    gives no tier, and the code goes on to the second and answers blue. *)
Lemma getBlockBadgeType_first_qualifying_fails :
  firstQualifyingTier asciiToLowerCase (withinStatusLink twoBadgeTweet)
    (querySvgs asciiToLowerCase (containerNodes twoBadgeTweet)) = None /\
  eval (getBlockBadgeType asciiToLowerCase 0) twoBadgeState = Some BLUE.
Proof. split; reflexivity. Qed.

Lemma getBlockBadgeType_first_recognised_witness :
  containers twoBadgeState !! 0%nat = Some twoBadgeTweet /\
  exists p,
    List.find (recognised asciiToLowerCase (withinStatusLink twoBadgeTweet))
      (querySvgs asciiToLowerCase (containerNodes twoBadgeTweet)) = Some p /\
    getBadgeColorType (fst p) = Some BLUE.
Proof.
  split; [reflexivity|].
  pose proof (getBlockBadgeType_first_recognised asciiToLowerCase 0 twoBadgeState
                twoBadgeTweet eq_refl) as H.
  cbv zeta in H. destruct H as (_ & _ & _ & H).
  apply (H BLUE). reflexivity.
Defined.

Lemma getBlockBadgeType_exempt_witness :
  containers allowedState !! 0%nat = Some aliceTweet /\
  extractUsername asciiToLowerCase (containerNodes aliceTweet) = Some "alice" /\
  ("alice" ∈ whitelistSet allowedState) /\
  eval (getBlockBadgeType asciiToLowerCase 0) allowedState = None.
Proof.
  assert (Hin : "alice" ∈ whitelistSet allowedState)
    by (apply (bool_decide_eq_true_1 _); reflexivity).
  split; [reflexivity|]. split; [reflexivity|]. split; [exact Hin|].
  apply (getBlockBadgeType_exempt asciiToLowerCase asciiToLowerCase_nonempty
           0 allowedState aliceTweet "alice" eq_refl eq_refl (or_introl Hin)).
Defined.

Lemma getBlockBadgeType_disabled_witness :
  enabled (settings disabledState) = false /\
  getBlockBadgeType asciiToLowerCase 0 disabledState = (None, disabledState).
Proof.
  split; [reflexivity|].
  apply (getBlockBadgeType_disabled asciiToLowerCase 0 disabledState eq_refl).
Defined.

Lemma getBlockBadgeType_pure_witness :
  exec (getBlockBadgeType asciiToLowerCase 0) aliceState = aliceState /\
  containers (exec (processElement asciiToLowerCase sampleMessage 0) aliceState) !! 0%nat =
    Some (hideContainer sampleMessage BLUE (markProcessed aliceTweet)) /\
  hiddenCount (exec (processElement asciiToLowerCase sampleMessage 0) aliceState) = 1.
Proof.
  destruct (getBlockBadgeType_pure asciiToLowerCase sampleMessage 0 aliceState) as [Hp Hw].
  split; [exact Hp|].
  exact (Hw aliceTweet eq_refl eq_refl).
Defined.

Lemma hide_restore_roundtrip_witness :
  containers aliceState !! 0%nat = Some aliceTweet /\
  exists c',
    containers (exec (restoreElement 0)
                  (exec (replaceWithPlaceholder sampleMessage 0 BLUE) aliceState)) !! 0%nat
      = Some c' /\
    containerNodes c' = containerNodes aliceTweet /\
    stylePadding c' = stylePadding aliceTweet /\
    replacedAttr c' = false /\
    _blockBlueOriginal c' = None.
Proof.
  split; [reflexivity|].
  destruct (hide_restore_roundtrip sampleMessage 0 BLUE aliceState aliceTweet eq_refl)
    as (_ & (c' & H1 & H2 & H3 & H4 & H5 & _) & _).
  exists c'. repeat split; assumption.
Defined.

Lemma followCache_monotone_witness :
  truthy "alice" = true /\
  ("alice" ∉ followedUsersSet aliceState) /\
  followedUsersSet (exec (markAsFollowed "alice") aliceState) =
    {["alice"]} ∪ followedUsersSet aliceState /\
  followedSaveTimer (exec (markAsFollowed "alice") aliceState) = Some 1%positive.
Proof.
  assert (Hn : "alice" ∉ followedUsersSet aliceState)
    by (apply (bool_decide_eq_false_1 _); reflexivity).
  split; [reflexivity|]. split; [exact Hn|].
  destruct (followCache_monotone asciiToLowerCase asciiToLowerCase sampleMessage aliceState)
    as (_ & _ & _ & _ & _ & H).
  destruct (H "alice" eq_refl Hn) as (H1 & H2 & _).
  split; [exact H1 | exact H2].
Defined.

Lemma markers_invariant_witness :
  Inv hiddenState /\
  replacedImpliesProcessed hiddenState /\
  Inv (exec (rescanAll asciiToLowerCase asciiToLowerCase sampleMessage) hiddenState) /\
  exec (processElement asciiToLowerCase sampleMessage 0) hiddenState = hiddenState /\
  replacedImpliesProcessed
    (exec (processElement asciiToLowerCase sampleMessage 0) aliceState).
Proof.
  assert (HI : Inv hiddenState) by (repeat constructor).
  assert (HA : Inv aliceState) by (repeat constructor).
  split; [exact HI|].
  destruct (markers_invariant asciiToLowerCase asciiToLowerCase sampleMessage hiddenState HI)
    as (_ & H2 & _ & _ & _ & _ & [H7 _] & _ & _ & H10 & _).
  destruct (markers_invariant asciiToLowerCase asciiToLowerCase sampleMessage aliceState HA)
    as (_ & _ & _ & H4 & _).
  split; [exact H2|]. split; [exact H7|].
  split; [exact (H10 0%nat hiddenAliceTweet eq_refl eq_refl)|].
  exact (proj2 (H4 0%nat)).
Defined.

Lemma rescanAll_spec_witness :
  Inv hiddenState /\
  hiddenCount (exec (rescanReset asciiToLowerCase asciiToLowerCase) hiddenState) = 0 /\
  observer (exec (rescanAll asciiToLowerCase asciiToLowerCase sampleMessage) hiddenState) = true /\
  processedAt 0 (exec (rescanAll asciiToLowerCase asciiToLowerCase sampleMessage) hiddenState).
Proof.
  assert (HI : Inv hiddenState) by (repeat constructor).
  split; [exact HI|].
  pose proof (rescanAll_spec asciiToLowerCase asciiToLowerCase sampleMessage hiddenState HI) as H.
  cbv zeta in H. destruct H as (_ & _ & _ & H4 & H5 & _).
  split; [exact H4|].
  destruct (H5 eq_refl) as [Ho Hp].
  split; [exact Ho|]. apply Hp. cbn. lia.
Defined.

(** * The further properties at work *)

Lemma extractUsername_first_match_witness :
  extractUsername asciiToLowerCase (containerNodes aliceTweet) = Some "alice".
Proof.
  destruct (extractUsername_first_match asciiToLowerCase (containerNodes aliceTweet))
    as [H _].
  rewrite H. reflexivity.
Defined.

Lemma getBlockBadgeType_iff_witness :
  eval (getBlockBadgeType asciiToLowerCase 0) aliceState = Some BLUE /\
  toggleFor BLUE (settings aliceState) = true.
Proof.
  split; [reflexivity|].
  destruct (proj1 (getBlockBadgeType_iff asciiToLowerCase 0 aliceState BLUE) eq_refl)
    as (_ & c & _ & _ & H & _).
  exact H.
Defined.

Lemma getBlockBadgeType_quoted_witness :
  containers quotedState !! 0%nat = Some quotedTweet /\
  eval (getBlockBadgeType asciiToLowerCase 0) quotedState = None.
Proof.
  split; [reflexivity|].
  apply (getBlockBadgeType_quoted asciiToLowerCase 0 quotedState quotedTweet eq_refl).
  right. intros p Hp Hb.
  apply list_elem_of_In in Hp. cbn in Hp.
  destruct Hp as [<-|[]]. reflexivity.
Defined.

Lemma restoreElement_nothing_held_witness :
  containers aliceState !! 0%nat = Some aliceTweet /\
  _blockBlueOriginal aliceTweet = None /\
  exec (restoreElement 0) aliceState = aliceState.
Proof.
  split; [reflexivity|]. split; [reflexivity|].
  exact (proj1 (restoreElement_nothing_held 0 aliceState) aliceTweet eq_refl eq_refl).
Defined.

Lemma replaceWithPlaceholder_twice_witness :
  containers aliceState !! 0%nat = Some aliceTweet /\
  exists c',
    containers (exec (restoreElement 0)
                  (exec (replaceWithPlaceholder sampleMessage 0 GOLD)
                     (exec (replaceWithPlaceholder sampleMessage 0 BLUE) aliceState)))
      !! 0%nat = Some c' /\
    containerNodes c' = [placeholderBar sampleMessage BLUE].
Proof.
  split; [reflexivity|].
  destruct (replaceWithPlaceholder_twice sampleMessage 0 BLUE GOLD aliceState aliceTweet
              eq_refl) as (_ & c' & H1 & H2 & _).
  exists c'. split; assumption.
Defined.

Lemma processElement_local_witness :
  exec (processElement asciiToLowerCase sampleMessage 0) hiddenState = hiddenState /\
  hiddenCount aliceState <=
    hiddenCount (exec (processElement asciiToLowerCase sampleMessage 0) aliceState)
    <= hiddenCount aliceState + 1.
Proof.
  pose proof (processElement_local asciiToLowerCase sampleMessage 0 aliceState) as H.
  cbv zeta in H. destruct H as (H1 & _ & _ & _ & H5).
  split; [exact H1 | exact H5].
Defined.

Lemma rescanAll_hiddenCount_witness :
  Inv hiddenState /\
  hiddenCount (exec (rescanAll asciiToLowerCase asciiTrim sampleMessage) hiddenState) =
  Z.of_nat (countReplaced
              (containers (exec (rescanAll asciiToLowerCase asciiTrim sampleMessage)
                             hiddenState))).
Proof.
  assert (HI : Inv hiddenState) by (repeat constructor).
  split; [exact HI|].
  apply (rescanAll_hiddenCount asciiToLowerCase asciiTrim sampleMessage hiddenState HI).
Defined.

Lemma handleMutations_counts_witness :
  Inv aliceState /\
  hiddenCount aliceState <=
  hiddenCount (exec (handleMutations asciiToLowerCase asciiTrim sampleMessage
                       [[ {| isElementNode := true;
                             addedRoot := {| isHTMLElement := true;
                                             rootContainers := [0%nat; 0%nat] |} |} ]])
                 aliceState).
Proof.
  assert (HI : Inv aliceState) by (repeat constructor).
  split; [exact HI|].
  pose proof (handleMutations_counts asciiToLowerCase asciiTrim sampleMessage
                [[ {| isElementNode := true;
                      addedRoot := {| isHTMLElement := true;
                                      rootContainers := [0%nat; 0%nat] |} |} ]]
                aliceState HI) as H.
  cbv zeta in H. exact (proj2 H).
Defined.

Lemma rescanAll_unhides_exempt_witness :
  containers hiddenFollowedState !! 0%nat = Some hiddenAliceTweet /\
  ("alice" ∈ followedUsersSet hiddenFollowedState) /\
  exists c',
    containers (exec (rescanAll asciiToLowerCase asciiTrim sampleMessage)
                  hiddenFollowedState) !! 0%nat = Some c' /\
    replacedAttr c' = false /\ containerNodes c' = containerNodes aliceTweet.
Proof.
  assert (Hin : "alice" ∈ followedUsersSet hiddenFollowedState)
    by (apply (bool_decide_eq_true_1 _); reflexivity).
  split; [reflexivity|]. split; [exact Hin|].
  apply (rescanAll_unhides_exempt asciiToLowerCase asciiTrim sampleMessage 0
           hiddenFollowedState hiddenAliceTweet (containerNodes aliceTweet) "alice"
           eq_refl eq_refl eq_refl eq_refl eq_refl (or_intror Hin)).
Defined.

Lemma loadSettings_effect_witness :
  contextValid aliceState = true /\
  ("alice" ∈ whitelistSet (exec (loadSettings asciiToLowerCase sampleStored None) aliceState)) /\
  hiddenCount (exec (loadSettings asciiToLowerCase sampleStored None) aliceState) = 0.
Proof.
  split; [reflexivity|].
  pose proof (loadSettings_effect asciiToLowerCase sampleStored None aliceState) as H.
  cbv zeta in H. destruct H as [_ H].
  destruct (H eq_refl) as (_ & _ & _ & _ & Hw & Hh & _).
  split; [|exact Hh].
  apply Hw. exists "Alice". split; [left | reflexivity].
Defined.

Lemma onStorageChanged_allows_witness :
  contextValid hiddenState = true /\
  ("Alice" ∈ default [] (storedWhitelist sampleStored)) /\
  exists c',
    containers (exec (onStorageChanged asciiToLowerCase asciiTrim sampleMessage
                        ["whitelist"] "sync" sampleStored None) hiddenState) !! 0%nat
      = Some c' /\
    replacedAttr c' = false /\ containerNodes c' = containerNodes aliceTweet.
Proof.
  assert (Hw : "Alice" ∈ default [] (storedWhitelist sampleStored)) by left.
  split; [reflexivity|]. split; [exact Hw|].
  destruct (onStorageChanged_allows asciiToLowerCase asciiTrim sampleMessage
              ["whitelist"] "sync" sampleStored None 0 hiddenState hiddenAliceTweet
              (containerNodes aliceTweet) "Alice") as [_ H].
  apply H; try reflexivity; [discriminate | exact Hw].
Defined.

Lemma isOnFollowingTab_cached_witness :
  eval (isOnFollowingTab asciiToLowerCase asciiTrim) followingState = true /\
  isOnFollowingTab asciiToLowerCase asciiTrim
    (set_page samplePage (exec (isOnFollowingTab asciiToLowerCase asciiTrim) followingState)) =
  (true, set_page samplePage (exec (isOnFollowingTab asciiToLowerCase asciiTrim) followingState)).
Proof.
  split; [reflexivity|].
  pose proof (isOnFollowingTab_cached asciiToLowerCase asciiTrim followingState) as H.
  cbv zeta in H. destruct H as (_ & H & _). exact (H samplePage).
Defined.

Lemma scanPageForFollowedUsers_effect_witness :
  "alice" ∈ followedUsersSet
              (exec (scanPageForFollowedUsers asciiToLowerCase asciiTrim) followingState).
Proof.
  pose proof (scanPageForFollowedUsers_effect asciiToLowerCase asciiTrim followingState) as H.
  cbv zeta in H. destruct H as (H & _).
  apply H. right. split; [discriminate | left].
Defined.


Lemma periodicRescan_escalates_witness :
  contextValid followingState = true /\
  exec (periodicRescan asciiToLowerCase asciiTrim sampleMessage) followingState =
  exec (rescanAll asciiToLowerCase asciiTrim sampleMessage)
    (exec (scanPageForFollowedUsers asciiToLowerCase asciiTrim) followingState).
Proof.
  split; [reflexivity|].
  destruct (periodicRescan_escalates asciiToLowerCase asciiTrim sampleMessage followingState)
    as (_ & _ & H).
  apply H; [reflexivity|].
  intros K. apply (not_elem_of_empty (C := gset string) "alice").
  apply (K "alice"). apply elem_of_list_to_set. left.
Defined.

Lemma timers_debounced_witness :
  TimerInv aliceState /\
  TimerInv (exec (handle asciiToLowerCase asciiTrim sampleMessage Rescan) aliceState).
Proof.
  assert (HI : TimerInv aliceState) by (split; constructor).
  split; [exact HI|].
  exact (proj1 (timers_debounced asciiToLowerCase asciiTrim sampleMessage aliceState HI) Rescan).
Defined.

Lemma renderWhitelist_roundtrip_witness :
  getCurrentWhitelist (renderWhitelist ["alice"; "bob"] typingPopup) = ["alice"; "bob"] /\
  whitelistListEl (renderWhitelist [] listingPopup) = [EmptyLi].
Proof.
  split.
  - exact (proj1 (renderWhitelist_roundtrip ["alice"; "bob"] typingPopup)).
  - exact (proj1 (proj2 (renderWhitelist_roundtrip [] listingPopup)) eq_refl).
Defined.

Lemma addToWhitelist_outcomes_witness :
  isHandle (stripAt (asciiTrim (whitelistInput typingPopup))) = true /\
  getCurrentWhitelist (addToWhitelist asciiToLowerCase asciiTrim typingPopup) = ["alice"] /\
  storedWhitelist (syncStore (addToWhitelist asciiToLowerCase asciiTrim typingPopup)) =
    Some ["alice"] /\
  storedHiddenCount (syncStore (addToWhitelist asciiToLowerCase asciiTrim typingPopup)) =
    Some 3.
Proof.
  split; [reflexivity|].
  pose proof (addToWhitelist_outcomes asciiToLowerCase asciiTrim typingPopup) as H.
  cbv zeta in H. destruct H as (_ & _ & _ & H).
  destruct (H eq_refl ltac:(intros K; inversion K)) as (_ & H2 & H3 & _ & _ & _ & _ & H8 & _).
  split; [exact H2|]. split; [exact H3 | exact H8].
Defined.

Lemma removeClicked_effect_witness :
  whitelistListEl listingPopup = renderedList (getCurrentWhitelist listingPopup) /\
  getCurrentWhitelist (removeClicked 0 listingPopup) = ["bob"] /\
  storedWhitelist (syncStore (removeClicked 0 listingPopup)) = Some ["bob"].
Proof.
  split; [reflexivity|].
  pose proof (removeClicked_effect 0 listingPopup eq_refl) as H.
  cbv zeta in H. destruct H as [H _].
  destruct (H "alice" eq_refl) as (H1 & _ & H3 & _).
  split; [exact H1 | exact H3].
Defined.

Lemma onInstalled_effect_witness :
  sampleStore !! "hideGold" = Some (JBool true) /\
  onInstalled "update" sampleStore !! "hideGold" = Some (JBool true) /\
  onInstalled "update" sampleStore !! "enabled" = Some (JBool true) /\
  onInstalled "install" sampleStore !! "hideGold" = Some (JBool false).
Proof.
  destruct (onInstalled_effect sampleStore) as (H1 & H2 & _ & H4 & _).
  split; [reflexivity|].
  split; [exact (H1 "hideGold" (JBool true) eq_refl)|].
  split; [rewrite (H2 "enabled" eq_refl); reflexivity|].
  exact (H4 "hideGold" (JBool false) eq_refl).
Defined.

Lemma whitelist_stays_clean_witness :
  listedOk typingPopup /\
  listedOk (addToWhitelist asciiToLowerCase asciiTrim typingPopup).
Proof.
  assert (H : listedOk typingPopup)
    by (split; [constructor | split; [constructor | reflexivity]]).
  split; [exact H|].
  exact (proj1 (whitelist_stays_clean asciiToLowerCase asciiTrim
                  (fun s _ => eq_refl) typingPopup H)).
Defined.

Lemma popup_allows_witness :
  isHandle (stripAt (asciiTrim (whitelistInput typingPopup))) = true /\
  exists c',
    containers (exec (onStorageChanged asciiToLowerCase asciiTrim sampleMessage
                        ["whitelist"] "sync"
                        (syncStore (addToWhitelist asciiToLowerCase asciiTrim typingPopup))
                        None) hiddenState) !! 0%nat = Some c' /\
    replacedAttr c' = false /\ containerNodes c' = containerNodes aliceTweet.
Proof.
  split; [reflexivity|].
  apply (popup_allows asciiToLowerCase asciiTrim sampleMessage (fun s _ => eq_refl)
           typingPopup ["whitelist"] None hiddenState 0 hiddenAliceTweet
           (containerNodes aliceTweet));
    try reflexivity; [intros K; inversion K | discriminate].
Defined.

Lemma onMessage_stats_witness :
  Inv hiddenState /\
  onMessage "SETTINGS_CHANGED" hiddenState = (Ok, hiddenState) /\
  eval (onMessage "GET_STATS") hiddenState = Stats 1 0 /\
  hiddenCount (exec (onMessagePending asciiToLowerCase asciiTrim sampleMessage
                       "SETTINGS_CHANGED" sampleStored None) hiddenState) = 0.
Proof.
  assert (HI : Inv hiddenState) by (repeat constructor).
  split; [exact HI|].
  pose proof (onMessage_stats asciiToLowerCase asciiTrim sampleMessage sampleStored None
                hiddenState HI) as H.
  cbv zeta in H. destruct H as (H1 & H2 & _ & _ & _).
  split; [exact H2|]. split; [|reflexivity].
  unfold eval. rewrite H1. reflexivity.
Defined.

Lemma rescanAll_decides_witness :
  Inv hiddenState /\
  enabled (settings hiddenState) = true /\
  containers hiddenState !! 0%nat = Some hiddenAliceTweet /\
  exists c',
    containers (exec (rescanAll asciiToLowerCase asciiTrim sampleMessage) hiddenState)
      !! 0%nat = Some c' /\
    processedAttr c' = true.
Proof.
  assert (HI : Inv hiddenState) by (repeat constructor).
  split; [exact HI|]. split; [reflexivity|]. split; [reflexivity|].
  pose proof (rescanAll_decides asciiToLowerCase asciiTrim sampleMessage 0 hiddenState
                hiddenAliceTweet HI eq_refl eq_refl) as H.
  cbv zeta in H. destruct H as (_ & c' & H1 & H2 & _).
  exists c'. split; [exact H1 | exact H2].
Defined.
